(** * tmux-organize: the plan lifecycle of [torganize]

    A shallow embedding of [src/tmux_organize/organize.py] (with the
    data types of [src/tmux_organize/tmux.py]) and the properties of the
    plan cache, the plan parser, the plan validator and the plan applier;
    then of the snapshot of [src/tmux_organize/tmux.py], of the cache
    files, and of [src/tmux_organize/name.py].

    Conventions of the embedding.
    - A Python [str] is a [string] holding its UTF-8 bytes; comparing two
      such strings byte by byte is comparing them code point by code point,
      which is the order Python's [sorted] uses on [str].
    - A Python [int] is a [Z].
    - ["%(a)s:%(b)s" % {...}] is written as the concatenation it produces.
    - [sep.join(l)] is [String.concat sep l].
    - A [TypedDict] is a record with the declared fields; a plain [dict]
      whose keys the code tests for is a record of optional fields.
    - The external processes (tmux, otop, opencode) are inputs of the
      functions that call them. *)

From Stdlib Require Import ZArith List String Ascii Lia Permutation.
From stdpp Require Import base decidable option list gmap sets strings sorting pretty.

Open Scope string_scope.
Open Scope Z_scope.

Set Warnings "-clear-no-such-hyp".

(** ** Strings *)

Module PyStr.

(** [s[a:b]] for [0 <= a <= b]. *)
Definition slice (a b : nat) (s : string) : string :=
  String.substring a (b - a) s.

(** [s[:n]]. *)
Definition prefix (n : nat) (s : string) : string :=
  String.substring 0 n s.

(** [c in s] for a one-character [c]. *)
Fixpoint contains (c : ascii) (s : string) : bool :=
  match s with
  | EmptyString => false
  | String d s' => if Ascii.eqb c d then true else contains c s'
  end.

(** [s.split(c, 1)] when [c in s]: the text before the first [c] and the
    text after it. *)
Fixpoint split_once (c : ascii) (s : string) : option (string * string) :=
  match s with
  | EmptyString => None
  | String d s' =>
      if Ascii.eqb c d then Some (EmptyString, s')
      else match split_once c s' with
           | Some (a, b) => Some (String d a, b)
           | None => None
           end
  end.

(** [s.split(c)[0]] when [c in s] (and [s] itself otherwise). *)
Fixpoint before (c : ascii) (s : string) : string :=
  match s with
  | EmptyString => EmptyString
  | String d s' => if Ascii.eqb c d then EmptyString else String d (before c s')
  end.

(** [sorted(l)] for a list of [str]: [String.le] is the order of the bytes. *)
Definition sorted (l : list string) : list string := merge_sort String.le l.

Definition bytes (s : string) : list Z :=
  map (fun c => Z.of_N (N_of_ascii c)) (list_ascii_of_string s).

End PyStr.

(** ** SHA-256 (FIPS 180-4), the digest behind [hashlib.sha256] *)

Module SHA256.

Definition mask32 : Z := 4294967295.

Definition add32 (x y : Z) : Z := Z.land (x + y) mask32.

Definition rotr (n x : Z) : Z :=
  Z.lor (Z.shiftr x n) (Z.land (Z.shiftl x (32 - n)) mask32).

Definition xor3 (a b c : Z) : Z := Z.lxor (Z.lxor a b) c.

Definition Ch (x y z : Z) : Z :=
  Z.lxor (Z.land x y) (Z.land (Z.lxor x mask32) z).

Definition Maj (x y z : Z) : Z :=
  xor3 (Z.land x y) (Z.land x z) (Z.land y z).

Definition Sigma0 (x : Z) : Z := xor3 (rotr 2 x) (rotr 13 x) (rotr 22 x).
Definition Sigma1 (x : Z) : Z := xor3 (rotr 6 x) (rotr 11 x) (rotr 25 x).
Definition sigma0 (x : Z) : Z := xor3 (rotr 7 x) (rotr 18 x) (Z.shiftr x 3).
Definition sigma1 (x : Z) : Z := xor3 (rotr 17 x) (rotr 19 x) (Z.shiftr x 10).

(** The primes below [n], by trial division. *)
Definition is_prime (p : Z) : bool :=
  forallb (fun d => negb (p mod Z.of_nat d =? 0)) (seq 2 (Z.to_nat p - 2)).

Definition primes_below (n : nat) : list Z :=
  filter is_prime (map Z.of_nat (seq 2 (n - 2))).

(** The integer cube root of [n], one bit at a time from bit [bits - 1]. *)
Fixpoint cube_root (bits : nat) (n r : Z) : Z :=
  match bits with
  | O => r
  | S b =>
      let r' := r + Z.shiftl 1 (Z.of_nat b) in
      cube_root b n (if r' * r' * r' <=? n then r' else r)
  end.

(** The round constants: the first thirty-two bits of the fractional parts
    of the cube roots of the first sixty-four primes. *)
Definition K : list Z :=
  map (fun p => Z.land (cube_root 36 (Z.shiftl p 96) 0) mask32) (primes_below 312).

(** The eight working variables, also the chaining value. *)
Record state := State {
  sa : Z; sb : Z; sc : Z; sd : Z; se : Z; sf : Z; sg : Z; sh : Z }.

(** The first thirty-two bits of the fractional part of a square root. *)
Definition sqrt_frac (p : Z) : Z := Z.land (Z.sqrt (Z.shiftl p 64)) mask32.

(** The initial chaining value, from the first eight primes. *)
Definition H0 : state :=
  State (sqrt_frac 2) (sqrt_frac 3) (sqrt_frac 5) (sqrt_frac 7)
        (sqrt_frac 11) (sqrt_frac 13) (sqrt_frac 17) (sqrt_frac 19).

Definition round (s : state) (k w : Z) : state :=
  let t1 := add32 (add32 (add32 (add32 (sh s) (Sigma1 (se s)))
                                (Ch (se s) (sf s) (sg s))) k) w in
  let t2 := add32 (Sigma0 (sa s)) (Maj (sa s) (sb s) (sc s)) in
  State (add32 t1 t2) (sa s) (sb s) (sc s) (add32 (sd s) t1) (se s) (sf s) (sg s).

(** The message schedule is kept as a window of sixteen words: its head is
    W[t], and W[t+16] is appended when the head is consumed. *)
Definition next_word (w : list Z) : Z :=
  add32 (add32 (add32 (sigma1 (nth 14 w 0)) (nth 9 w 0)) (sigma0 (nth 1 w 0)))
        (nth 0 w 0).

Fixpoint rounds (ks : list Z) (w : list Z) (s : state) : state :=
  match ks with
  | [] => s
  | k :: ks' => rounds ks' (tl w ++ [next_word w]) (round s k (nth 0 w 0))
  end.

Fixpoint words (fuel : nat) (bs : list Z) : list Z :=
  match fuel, bs with
  | S f, b0 :: b1 :: b2 :: b3 :: rest =>
      (((b0 * 256 + b1) * 256 + b2) * 256 + b3) :: words f rest
  | _, _ => []
  end.

Definition compress (s : state) (block : list Z) : state :=
  let r := rounds K (words 16 block) s in
  State (add32 (sa s) (sa r)) (add32 (sb s) (sb r))
        (add32 (sc s) (sc r)) (add32 (sd s) (sd r))
        (add32 (se s) (se r)) (add32 (sf s) (sf r))
        (add32 (sg s) (sg r)) (add32 (sh s) (sh r)).

Definition be64 (n : Z) : list Z :=
  map (fun i => Z.land (Z.shiftr n (8 * i)) 255) [7; 6; 5; 4; 3; 2; 1; 0].

Definition pad (msg : list Z) : list Z :=
  let len := Z.of_nat (length msg) in
  let zeros := Z.to_nat ((55 - len) mod 64) in
  msg ++ [128] ++ repeat 0 zeros ++ be64 (8 * len).

Fixpoint blocks (fuel : nat) (bs : list Z) (s : state) : state :=
  match fuel, bs with
  | S f, _ :: _ => blocks f (skipn 64 bs) (compress s (firstn 64 bs))
  | _, _ => s
  end.

Definition digest (msg : list Z) : state :=
  let p := pad msg in blocks (length p) p H0.

Definition hex_digit (n : Z) : ascii :=
  match n with
  | 0 => "0" | 1 => "1" | 2 => "2" | 3 => "3" | 4 => "4" | 5 => "5"
  | 6 => "6" | 7 => "7" | 8 => "8" | 9 => "9" | 10 => "a" | 11 => "b"
  | 12 => "c" | 13 => "d" | 14 => "e" | _ => "f"
  end%char.

Definition hex32 (w : Z) : list ascii :=
  map (fun i => hex_digit (Z.land (Z.shiftr w (4 * i)) 15)) [7; 6; 5; 4; 3; 2; 1; 0].

(** [hashlib.sha256(s.encode()).hexdigest()] *)
Definition hexdigest (s : string) : string :=
  let d := digest (PyStr.bytes s) in
  string_of_list_ascii
    (hex32 (sa d) ++ hex32 (sb d) ++ hex32 (sc d) ++ hex32 (sd d) ++
     hex32 (se d) ++ hex32 (sf d) ++ hex32 (sg d) ++ hex32 (sh d)).

End SHA256.

(** ** JSON values and [json.loads] *)

Module Json.

(** What [json.loads] returns: [None], [bool], [int], [float] (kept as its
    lexeme), [str], [list], [dict] (in insertion order). *)
#[warnings="-register-all"] Inductive t :=
| JNull
| JBool (b : bool)
| JInt (n : Z)
| JFloat (lexeme : string)
| JStr (s : string)
| JList (l : list t)
| JDict (m : list (string * t)).

(** [d[k] = v] on a [dict]: a key already present keeps its place. *)
Fixpoint dict_set (k : string) (v : t) (m : list (string * t)) : list (string * t) :=
  match m with
  | [] => [(k, v)]
  | (k', v') :: m' =>
      if String.eqb k k' then (k, v) :: m' else (k', v') :: dict_set k v m'
  end.

(** [dict(pairs)] *)
Definition dict_of_pairs (pairs : list (string * t)) : list (string * t) :=
  fold_left (fun m kv => dict_set (fst kv) (snd kv) m) pairs [].

Definition is_ws (c : ascii) : bool :=
  match c with
  | " " | "009" | "010" | "013" => true
  | _ => false
  end%char.

Fixpoint skip_ws (s : string) : string :=
  match s with
  | String c s' => if is_ws c then skip_ws s' else s
  | EmptyString => s
  end.

Definition is_digit (c : ascii) : bool :=
  let n := N_of_ascii c in (48 <=? n)%N && (n <=? 57)%N.

Definition digit_val (c : ascii) : Z := Z.of_N (N_of_ascii c) - 48.

Definition hex_val (c : ascii) : option Z :=
  let n := Z.of_N (N_of_ascii c) in
  if (48 <=? n) && (n <=? 57) then Some (n - 48)
  else if (97 <=? n) && (n <=? 102) then Some (n - 87)
  else if (65 <=? n) && (n <=? 70) then Some (n - 55)
  else None.

(** The longest prefix of digits, and what follows it. *)
Fixpoint span_digits (s : string) : string * string :=
  match s with
  | String c s' =>
      if is_digit c then let (d, r) := span_digits s' in (String c d, r)
      else (EmptyString, s)
  | EmptyString => (EmptyString, EmptyString)
  end.

Definition Z_of_digits (d : string) : Z :=
  fold_left (fun acc c => acc * 10 + digit_val c) (list_ascii_of_string d) 0.

(** The integer part of a number: an optional minus sign, then either a
    single zero or a digit from 1 to 9 followed by digits. *)
Definition scan_int_part (s : string) : option (string * string) :=
  let (sign, s1) :=
    match s with
    | String c s' => if Ascii.eqb c "-" then ("-", s') else ("", s)
    | EmptyString => ("", s)
    end in
  match s1 with
  | String c r =>
      if Ascii.eqb c "0" then Some (sign ++ "0", r)
      else if is_digit c then
        let (d, r') := span_digits r in Some (sign ++ String c d, r')
      else None
  | EmptyString => None
  end.

(** The optional fraction: a dot followed by one digit or more. *)
Definition scan_frac (s : string) : string * string :=
  match s with
  | String c s' =>
      if Ascii.eqb c "." then
        match span_digits s' with
        | (EmptyString, _) => ("", s)
        | (d, r) => ("." ++ d, r)
        end
      else ("", s)
  | EmptyString => ("", s)
  end.

(** The optional exponent: e or E, an optional sign, one digit or more. *)
Definition scan_exp (s : string) : string * string :=
  match s with
  | String e s' =>
      if Ascii.eqb e "e" || Ascii.eqb e "E" then
        let (sign, s2) :=
          match s' with
          | String c s'' =>
              if Ascii.eqb c "+" then ("+", s'')
              else if Ascii.eqb c "-" then ("-", s'')
              else ("", s')
          | EmptyString => ("", s')
          end in
        match span_digits s2 with
        | (EmptyString, _) => ("", s)
        | (d, r) => (String e sign ++ d, r)
        end
      else ("", s)
  | EmptyString => ("", s)
  end.

Definition scan_number (s : string) : option (t * string) :=
  match scan_int_part s with
  | None => None
  | Some (i, r1) =>
      let (f, r2) := scan_frac r1 in
      let (e, r3) := scan_exp r2 in
      match f, e with
      | EmptyString, EmptyString =>
          Some (JInt (match i with
                      | String c d =>
                          if Ascii.eqb c "-" then - Z_of_digits d else Z_of_digits i
                      | EmptyString => 0
                      end), r3)
      | _, _ => Some (JFloat (i ++ f ++ e), r3)
      end
  end.

Definition byte (n : Z) : ascii := ascii_of_N (Z.to_N n).

(** The UTF-8 bytes of a code point. *)
Definition utf8 (cp : Z) : string :=
  if cp <? 128 then String (byte cp) ""
  else if cp <? 2048 then
    String (byte (192 + Z.shiftr cp 6))
      (String (byte (128 + Z.land cp 63)) "")
  else if cp <? 65536 then
    String (byte (224 + Z.shiftr cp 12))
      (String (byte (128 + Z.land (Z.shiftr cp 6) 63))
         (String (byte (128 + Z.land cp 63)) ""))
  else
    String (byte (240 + Z.shiftr cp 18))
      (String (byte (128 + Z.land (Z.shiftr cp 12) 63))
         (String (byte (128 + Z.land (Z.shiftr cp 6) 63))
            (String (byte (128 + Z.land cp 63)) ""))).

Definition hex4 (a b c d : ascii) : option Z :=
  match hex_val a, hex_val b, hex_val c, hex_val d with
  | Some x, Some y, Some z, Some w => Some (((x * 16 + y) * 16 + z) * 16 + w)
  | _, _, _, _ => None
  end.

(** A low surrogate, [DC00] to [DFFF], escaped at the head of [s], if any. *)
Definition low_surrogate (s : string) : option Z :=
  match s with
  | String b (String u (String a1 (String a2 (String a3 (String a4 _))))) =>
      if Ascii.eqb b "\" && Ascii.eqb u "u" then
        match hex4 a1 a2 a3 a4 with
        | Some lo => if (56320 <=? lo) && (lo <=? 57343) then Some lo else None
        | None => None
        end
      else None
  | _ => None
  end.

Definition simple_escape (c : ascii) : option ascii :=
  match c with
  | "034" => Some "034"
  | "\" => Some "\"
  | "/" => Some "/"
  | "b" => Some "008"
  | "f" => Some "012"
  | "n" => Some "010"
  | "r" => Some "013"
  | "t" => Some "009"
  | _ => None
  end%char.

(** [scanstring] in strict mode, from just after the opening quote: the
    decoded text and what follows the closing quote. *)
Fixpoint scan_string (s : string) : option (string * string) :=
  match s with
  | EmptyString => None
  | String c r =>
      if Ascii.eqb c "034" then Some (EmptyString, r)
      else if Ascii.eqb c "\" then
        match r with
        | EmptyString => None
        | String e r1 =>
            if Ascii.eqb e "u" then
              match r1 with
              | String a1 (String a2 (String a3 (String a4 r2))) =>
                  match hex4 a1 a2 a3 a4 with
                  | None => None
                  | Some hi =>
                      match (if (55296 <=? hi) && (hi <=? 56319)
                             then low_surrogate r2 else None), r2 with
                      | Some lo,
                        String _ (String _ (String _ (String _ (String _ (String _ r3))))) =>
                          match scan_string r3 with
                          | Some (x, r') =>
                              Some (utf8 (65536 + Z.lor (Z.shiftl (hi - 55296) 10)
                                                        (lo - 56320)) ++ x, r')
                          | None => None
                          end
                      | _, _ =>
                          match scan_string r2 with
                          | Some (x, r') => Some (utf8 hi ++ x, r')
                          | None => None
                          end
                      end
                  end
              | _ => None
              end
            else
              match simple_escape e with
              | Some c' =>
                  match scan_string r1 with
                  | Some (x, r') => Some (String c' x, r')
                  | None => None
                  end
              | None => None
              end
        end
      else if (N_of_ascii c <? 32)%N then None
      else match scan_string r with
           | Some (x, r') => Some (String c x, r')
           | None => None
           end
  end.

(** [s.startswith(p)], giving what follows [p]. *)
Fixpoint strip_prefix (p s : string) : option string :=
  match p, s with
  | EmptyString, _ => Some s
  | String a p', String b s' => if Ascii.eqb a b then strip_prefix p' s' else None
  | String _ _, EmptyString => None
  end.

Definition scan_constant (s : string) : option (t * string) :=
  match strip_prefix "null" s with
  | Some r => Some (JNull, r)
  | None =>
  match strip_prefix "true" s with
  | Some r => Some (JBool true, r)
  | None =>
  match strip_prefix "false" s with
  | Some r => Some (JBool false, r)
  | None =>
  match scan_number s with
  | Some res => Some res
  | None =>
  match strip_prefix "NaN" s with
  | Some r => Some (JFloat "NaN", r)
  | None =>
  match strip_prefix "Infinity" s with
  | Some r => Some (JFloat "Infinity", r)
  | None =>
  match strip_prefix "-Infinity" s with
  | Some r => Some (JFloat "-Infinity", r)
  | None => None
  end end end end end end end.

(** [scan_once]: one value at the head of [s] (no leading white space),
    with [JSONArray] and [JSONObject] as its two loops.  The recursion of
    the decoder is bounded by the fuel. *)
Fixpoint scan_once (fuel : nat) (s : string) {struct fuel} : option (t * string) :=
  match fuel with
  | O => None
  | S f =>
      match s with
      | EmptyString => None
      | String c r =>
          if Ascii.eqb c "034" then
            match scan_string r with
            | Some (x, r') => Some (JStr x, r')
            | None => None
            end
          else if Ascii.eqb c "{" then
            match skip_ws r with
            | EmptyString => None
            | String d r' =>
                if Ascii.eqb d "}" then Some (JDict [], r')
                else if Ascii.eqb d "034" then
                  match object_items f r' [] with
                  | Some (pairs, r'') => Some (JDict (dict_of_pairs pairs), r'')
                  | None => None
                  end
                else None
            end
          else if Ascii.eqb c "[" then
            match skip_ws r with
            | EmptyString => None
            | String d r' =>
                if Ascii.eqb d "]" then Some (JList [], r')
                else
                  match array_items f (String d r') [] with
                  | Some (l, r'') => Some (JList l, r'')
                  | None => None
                  end
            end
          else scan_constant s
      end
  end

(** From the first character of a value to just after the closing bracket. *)
with array_items (fuel : nat) (s : string) (acc : list t) {struct fuel}
  : option (list t * string) :=
  match fuel with
  | O => None
  | S f =>
      match scan_once f s with
      | None => None
      | Some (v, r) =>
          match skip_ws r with
          | EmptyString => None
          | String d r' =>
              if Ascii.eqb d "]" then Some (rev (v :: acc), r')
              else if Ascii.eqb d "," then array_items f (skip_ws r') (v :: acc)
              else None
          end
      end
  end

(** From just after the opening quote of a key to just after the closing
    brace. *)
with object_items (fuel : nat) (s : string) (acc : list (string * t)) {struct fuel}
  : option (list (string * t) * string) :=
  match fuel with
  | O => None
  | S f =>
      match scan_string s with
      | None => None
      | Some (k, r) =>
          match skip_ws r with
          | EmptyString => None
          | String d r1 =>
              if Ascii.eqb d ":" then
                match scan_once f (skip_ws r1) with
                | None => None
                | Some (v, r2) =>
                    match skip_ws r2 with
                    | EmptyString => None
                    | String d2 r3 =>
                        if Ascii.eqb d2 "}" then Some (rev ((k, v) :: acc), r3)
                        else if Ascii.eqb d2 "," then
                          match skip_ws r3 with
                          | EmptyString => None
                          | String d3 r4 =>
                              if Ascii.eqb d3 "034" then object_items f r4 ((k, v) :: acc)
                              else None
                          end
                        else None
                    end
                end
              else None
          end
      end
  end.

(** [json.loads(s)]; [None] stands for [JSONDecodeError].  Two units of
    fuel per character are enough for every call the decoder makes: with
    more fuel the result is the same. *)
Definition loads (s : string) : option t :=
  match scan_once (2 * String.length s + 2) (skip_ws s) with
  | Some (v, r) =>
      match skip_ws r with
      | EmptyString => Some v
      | _ => None
      end
  | None => None
  end.

End Json.

(** ** [tmux.py]: the snapshot types *)

Module PaneContext.
Record t := mk {
  command : string;
  cmdline : string;
  directory : string;
  full_path : string;
  title : string }.
End PaneContext.

Module WindowContext.
Record t := mk {
  id : string;
  index : Z;
  name : string;
  panes : list PaneContext.t }.
End WindowContext.

Module SessionContext.
Record t := mk {
  session_id : string;
  session_path : string;
  windows : list WindowContext.t }.
End SessionContext.

(** ** [organize.py]: types *)

Module WindowPlan.
Record t := mk {
  id : string;
  name : string;
  index : Z }.
End WindowPlan.

(** A plan as the [dict] that [validate_plan] receives: [OrganizePlan]
    whose two keys may be absent. *)
Module OrganizePlan.
Record t := mk {
  session : option string;
  windows : option (list WindowPlan.t) }.

(** [bool(plan)]: a [dict] is false when it has no key. *)
Definition truthy (plan : t) : bool :=
  match session plan, windows plan with
  | None, None => false
  | _, _ => true
  end.
End OrganizePlan.

(** ** [organize.py]: caching *)

(** ["%(cmdline)s:%(path)s"] of one pane, with [cmdline or command]. *)
Definition pane_fingerprint (p : PaneContext.t) : string :=
  (if String.eqb (PaneContext.cmdline p) "" then PaneContext.command p
   else PaneContext.cmdline p)
  ++ ":" ++ PaneContext.full_path p.

(** One element of [stable_parts]. *)
Definition stable_part (window : WindowContext.t) : string :=
  let pane_fingerprints :=
    PyStr.sorted (map pane_fingerprint (WindowContext.panes window)) in
  WindowContext.name window ++ "|" ++ String.concat "|" pane_fingerprints.

Definition raw_key (context : SessionContext.t) (opencode_context : string) : string :=
  let stable_parts := map stable_part (SessionContext.windows context) in
  SessionContext.session_path context ++ ";" ++
  String.concat ";" stable_parts ++ ";" ++ opencode_context.

Definition build_cache_key (context : SessionContext.t) (opencode_context : string)
  : string :=
  PyStr.prefix 16 (SHA256.hexdigest (raw_key context opencode_context)).

(** ** [organize.py]: opencode session enrichment *)

(** What a call can do: return, or raise what it does not catch. *)
Inductive outcome (A : Type) :=
| Ret (a : A)
| Raise (e : string).
Arguments Ret {A} a.
Arguments Raise {A} e.

(** How [subprocess.run] ends: it returns a completed process, or raises
    [TimeoutExpired], [FileNotFoundError] (the executable is absent) or
    another exception. *)
Inductive subprocess_result :=
| Completed (returncode : Z) (stdout : string)
| TimeoutExpired
| FileNotFoundError
| OtherError (e : string).

(** ** [json.loads] as the interpreter runs it *)

(** The decoder of [Json] with the two limits of the interpreter.  [int]
    refuses a literal of more than 4300 digits
    ([sys.int_info.default_max_str_digits]) with [ValueError], and the
    scanner enters every array and every object through the recursion
    check of the interpreter, which ends in [RecursionError].  [depth] is
    the number of arrays and objects that may still be opened one inside
    the other: what the recursion limit and the stack in use at the call
    leave.  The decoder reads from left to right, so what it raises is
    what it meets first. *)
Module Decoder.

Definition max_str_digits : Z := 4300.

(** A value that is no string, array or object.  An integer literal of
    JSON has no leading zero, so it has more than [max_str_digits]
    digits when its absolute value reaches [10 ^ max_str_digits]. *)
Definition scan_constant (s : string) : outcome (Json.t * string) :=
  match Json.scan_constant s with
  | Some (Json.JInt n, r) =>
      if 10 ^ max_str_digits <=? Z.abs n then Raise "ValueError"
      else Ret (Json.JInt n, r)
  | Some res => Ret res
  | None => Raise "JSONDecodeError"
  end.

(** [scan_once], [JSONArray] and [JSONObject] as in [Json]. *)
Fixpoint scan_once (fuel depth : nat) (s : string) {struct fuel}
  : outcome (Json.t * string) :=
  match fuel with
  | O => Raise "JSONDecodeError"
  | S f =>
      match s with
      | EmptyString => Raise "JSONDecodeError"
      | String c r =>
          if Ascii.eqb c "034" then
            match Json.scan_string r with
            | Some (x, r') => Ret (Json.JStr x, r')
            | None => Raise "JSONDecodeError"
            end
          else if Ascii.eqb c "{" then
            match depth with
            | O => Raise "RecursionError"
            | S depth' =>
                match Json.skip_ws r with
                | EmptyString => Raise "JSONDecodeError"
                | String d r' =>
                    if Ascii.eqb d "}" then Ret (Json.JDict [], r')
                    else if Ascii.eqb d "034" then
                      match object_items f depth' r' [] with
                      | Ret (pairs, r'') => Ret (Json.JDict (Json.dict_of_pairs pairs), r'')
                      | Raise e => Raise e
                      end
                    else Raise "JSONDecodeError"
                end
            end
          else if Ascii.eqb c "[" then
            match depth with
            | O => Raise "RecursionError"
            | S depth' =>
                match Json.skip_ws r with
                | EmptyString => Raise "JSONDecodeError"
                | String d r' =>
                    if Ascii.eqb d "]" then Ret (Json.JList [], r')
                    else
                      match array_items f depth' (String d r') [] with
                      | Ret (l, r'') => Ret (Json.JList l, r'')
                      | Raise e => Raise e
                      end
                end
            end
          else scan_constant s
      end
  end

with array_items (fuel depth : nat) (s : string) (acc : list Json.t) {struct fuel}
  : outcome (list Json.t * string) :=
  match fuel with
  | O => Raise "JSONDecodeError"
  | S f =>
      match scan_once f depth s with
      | Raise e => Raise e
      | Ret (v, r) =>
          match Json.skip_ws r with
          | EmptyString => Raise "JSONDecodeError"
          | String d r' =>
              if Ascii.eqb d "]" then Ret (rev (v :: acc), r')
              else if Ascii.eqb d ","
              then array_items f depth (Json.skip_ws r') (v :: acc)
              else Raise "JSONDecodeError"
          end
      end
  end

with object_items (fuel depth : nat) (s : string) (acc : list (string * Json.t))
    {struct fuel} : outcome (list (string * Json.t) * string) :=
  match fuel with
  | O => Raise "JSONDecodeError"
  | S f =>
      match Json.scan_string s with
      | None => Raise "JSONDecodeError"
      | Some (k, r) =>
          match Json.skip_ws r with
          | EmptyString => Raise "JSONDecodeError"
          | String d r1 =>
              if Ascii.eqb d ":" then
                match scan_once f depth (Json.skip_ws r1) with
                | Raise e => Raise e
                | Ret (v, r2) =>
                    match Json.skip_ws r2 with
                    | EmptyString => Raise "JSONDecodeError"
                    | String d2 r3 =>
                        if Ascii.eqb d2 "}" then Ret (rev ((k, v) :: acc), r3)
                        else if Ascii.eqb d2 "," then
                          match Json.skip_ws r3 with
                          | EmptyString => Raise "JSONDecodeError"
                          | String d3 r4 =>
                              if Ascii.eqb d3 "034"
                              then object_items f depth r4 ((k, v) :: acc)
                              else Raise "JSONDecodeError"
                          end
                        else Raise "JSONDecodeError"
                    end
                end
              else Raise "JSONDecodeError"
          end
      end
  end.

(** [json.loads(s)]: the value, or the exception that [json.loads]
    raises.  The fuel is the one of [Json.loads], which is enough for
    every call the decoder makes. *)
Definition loads (max_depth : nat) (s : string) : outcome Json.t :=
  match scan_once (2 * String.length s + 2) max_depth (Json.skip_ws s) with
  | Ret (v, r) =>
      match Json.skip_ws r with
      | EmptyString => Ret v
      | _ => Raise "JSONDecodeError"
      end
  | Raise e => Raise e
  end.

End Decoder.

(** [query_opencode_sessions], given how the run of [otop sessions] ends
    and the nesting that the interpreter allows the decoder. *)
Definition query_opencode_sessions (max_depth : nat) (result : subprocess_result)
  : outcome Json.t :=
  match result with
  | Completed returncode stdout =>
      if negb (returncode =? 0) then Ret (Json.JList [])
      else match Decoder.loads max_depth stdout with
           | Ret v => Ret v
           | Raise e =>
               if String.eqb e "JSONDecodeError" then Ret (Json.JList []) else Raise e
           end
  | TimeoutExpired => Ret (Json.JList [])
  | FileNotFoundError => Ret (Json.JList [])
  | OtherError e => Raise e
  end.

(** The [session] object of a record of [otop sessions]: the four keys
    that are read, and the names of the other keys it has. *)
Module SessionData.
Record t := mk {
  title : option string;
  status : option string;
  message_count : option Z;
  model : option string;
  other_keys : list string }.

Definition empty : t := mk None None None None [].

(** [bool(session_data)] *)
Definition truthy (d : t) : bool :=
  match title d, status d, message_count d, model d, other_keys d with
  | None, None, None, None, [] => false
  | _, _, _, _, _ => true
  end.
End SessionData.

(** One record of [otop sessions], as far as it is read. *)
Module OcSession.
Record t := mk {
  tmux_pane : option string;
  session : option SessionData.t }.
End OcSession.

(** [int(s)] for a [str] in base ten.  [int] first takes every decimal
    digit of Unicode for its ASCII digit and every white-space character
    above ASCII for a space; then it reads white space, a sign, digits
    with single underscores between them, and white space, where white
    space is a tab, a line feed, a vertical tab, a form feed, a carriage
    return or a space.  A text with more than 4300 digits is refused.
    [None] stands for [ValueError]. *)
Module PyInt.

(** The code points of a [str], read from its UTF-8 bytes. *)
Fixpoint code_points (s : string) : option (list Z) :=
  let continuation (c : ascii) : option Z :=
    let x := Z.of_N (N_of_ascii c) in
    if (128 <=? x) && (x <? 192) then Some (x - 128) else None in
  match s with
  | EmptyString => Some []
  | String a r =>
      let x := Z.of_N (N_of_ascii a) in
      if x <? 128 then option_map (cons x) (code_points r)
      else if x <? 192 then None
      else if x <? 224 then
        match r with
        | String b r' =>
            match continuation b, code_points r' with
            | Some y, Some cps => Some ((x - 192) * 64 + y :: cps)
            | _, _ => None
            end
        | _ => None
        end
      else if x <? 240 then
        match r with
        | String b (String c r') =>
            match continuation b, continuation c, code_points r' with
            | Some y, Some z, Some cps =>
                Some ((x - 224) * 4096 + y * 64 + z :: cps)
            | _, _, _ => None
            end
        | _ => None
        end
      else
        match r with
        | String b (String c (String d r')) =>
            match continuation b, continuation c, continuation d, code_points r' with
            | Some y, Some z, Some w, Some cps =>
                Some ((x - 240) * 262144 + y * 4096 + z * 64 + w :: cps)
            | _, _, _, _ => None
            end
        | _ => None
        end
  end.

(** The digit zero of every run of ten decimal digits of Unicode 14.0
    (the characters of category [Nd]). *)
Definition digit_zeros : list Z :=
  [ 48; 1632; 1776; 1984; 2406; 2534; 2662; 2790; 2918; 3046; 3174; 3302;
    3430; 3558; 3664; 3792; 3872; 4160; 4240; 6112; 6160; 6470; 6608; 6784;
    6800; 6992; 7088; 7232; 7248; 42528; 43216; 43264; 43472; 43504; 43600;
    44016; 65296; 66720; 68912; 69734; 69872; 69942; 70096; 70384; 70736;
    70864; 71248; 71360; 71472; 71904; 72016; 72784; 73040; 73120; 92768;
    92864; 93008; 120782; 120792; 120802; 120812; 120822; 123200; 123632;
    125264; 130032 ].

(** The value of a decimal digit. *)
Definition decimal (cp : Z) : option Z :=
  option_map (fun zero => cp - zero)
    (List.find (fun zero => (zero <=? cp) && (cp <? zero + 10)) digit_zeros).

(** The white space of Unicode above ASCII. *)
Definition unicode_spaces : list Z :=
  [ 133; 160; 5760; 8192; 8193; 8194; 8195; 8196; 8197; 8198; 8199; 8200;
    8201; 8202; 8232; 8233; 8239; 8287; 12288 ].

(** The ASCII character that [int] reads for a character; it reads none
    for a character above ASCII that is no digit and no white space. *)
Definition to_ascii (cp : Z) : option ascii :=
  if cp <? 128 then Some (Json.byte cp)
  else if bool_decide (cp ∈ unicode_spaces) then Some " "%char
  else option_map (fun d => Json.byte (48 + d)) (decimal cp).

Fixpoint all_ascii (cps : list Z) : option string :=
  match cps with
  | [] => Some EmptyString
  | cp :: cps' =>
      match to_ascii cp, all_ascii cps' with
      | Some c, Some s => Some (String c s)
      | _, _ => None
      end
  end.

Definition is_space (c : ascii) : bool :=
  let n := N_of_ascii c in
  ((9 <=? n)%N && (n <=? 13)%N) || (n =? 32)%N.

Fixpoint lstrip (s : string) : string :=
  match s with
  | String c s' => if is_space c then lstrip s' else s
  | EmptyString => s
  end.

Fixpoint all_space (s : string) : bool :=
  match s with
  | String c s' => is_space c && all_space s'
  | EmptyString => true
  end.

Fixpoint digits (s : string) (acc : Z) (after_digit : bool) : option Z :=
  match s with
  | EmptyString => if after_digit then Some acc else None
  | String c s' =>
      if Json.is_digit c then digits s' (acc * 10 + Json.digit_val c) true
      else if Ascii.eqb c "_" then
        if after_digit then
          match s' with
          | String d _ => if Json.is_digit d then digits s' acc false else None
          | EmptyString => None
          end
        else None
      else if is_space c && after_digit && all_space s' then Some acc
      else None
  end.

(** The number of digits of a text. *)
Fixpoint count_digits (s : string) : Z :=
  match s with
  | EmptyString => 0
  | String c s' => if Json.is_digit c then 1 + count_digits s' else count_digits s'
  end.

(** [sys.int_info.default_max_str_digits] *)
Definition max_str_digits : Z := 4300.

(** [int] on the text in ASCII. *)
Definition int_ascii (s : string) : option Z :=
  if max_str_digits <? count_digits s then None
  else
    match lstrip s with
    | String "-" s' => option_map Z.opp (digits s' 0 false)
    | String "+" s' => digits s' 0 false
    | s' => digits s' 0 false
    end.

Definition int (s : string) : option Z :=
  match code_points s with
  | None => None
  | Some cps =>
      match all_ascii cps with
      | None => None
      | Some s' => int_ascii s'
      end
  end.

End PyInt.

(** The body of the loop over [opencode_sessions]: [window_sessions] after
    one more record. *)
Definition record_step (session_name : string)
    (window_sessions : gmap Z SessionData.t) (oc_session : OcSession.t)
  : gmap Z SessionData.t :=
  match OcSession.tmux_pane oc_session with
  | None => window_sessions
  | Some pane_target =>
      if String.eqb pane_target "" then window_sessions
      else
        match PyStr.split_once ":" pane_target with
        | None => window_sessions
        | Some (target_session, rest) =>
            if negb (String.eqb target_session session_name) then window_sessions
            else
              let window_idx_str :=
                if PyStr.contains "." rest then PyStr.before "." rest else rest in
              match PyInt.int window_idx_str with
              | None => window_sessions
              | Some window_idx =>
                  let session_data :=
                    default SessionData.empty (OcSession.session oc_session) in
                  if SessionData.truthy session_data
                  then <[window_idx := session_data]> window_sessions
                  else window_sessions
              end
        end
  end.

Definition context_line (item : Z * SessionData.t) : string :=
  let (window_idx, session_data) := item in
  "window " ++ pretty window_idx ++ " has opencode session: " ++
  String "034" (default "untitled" (SessionData.title session_data)) ++
  String "034" " (" ++ default "unknown" (SessionData.status session_data) ++ ", " ++
  pretty (default 0 (SessionData.message_count session_data)) ++
  " messages, model: " ++ default "?" (SessionData.model session_data) ++ ")".

Definition key_le (a b : Z * SessionData.t) : Prop := a.1 <= b.1.

#[global] Instance key_le_dec a b : Decision (key_le a b).
Proof. unfold key_le. apply _. Defined.

(** [build_opencode_context]; [session_name] is what tmux prints for
    [display-message -t session_id -p #S]. *)
Definition build_opencode_context (opencode_sessions : list OcSession.t)
    (context : SessionContext.t) (session_name : string) : string :=
  match opencode_sessions with
  | [] => ""
  | _ =>
      let window_sessions :=
        fold_left (record_step session_name) opencode_sessions ∅ in
      if bool_decide (window_sessions = ∅) then ""
      else
        let lines := map context_line (merge_sort key_le (map_to_list window_sessions)) in
        String.concat (String "010" "") lines
  end.

(** ** [organize.py]: model interaction *)

(** [text.find(c)] *)
Fixpoint find (c : ascii) (text : string) : option nat :=
  match text with
  | EmptyString => None
  | String d text' =>
      if Ascii.eqb c d then Some O else option_map S (find c text')
  end.

(** [text[n:]] *)
Fixpoint drop_chars (n : nat) (text : string) : string :=
  match n, text with
  | S n', String _ text' => drop_chars n' text'
  | _, _ => text
  end.

(** The [for i in range(start, len(text))] loop: [rest] is [text[i:]].  The
    braces are ASCII, so an index in bytes cuts the text where the index in
    characters does. *)
Fixpoint scan_braces (text : string) (start : nat) (rest : string) (i : nat) (depth : Z)
  : option Json.t :=
  match rest with
  | EmptyString => None
  | String c rest' =>
      let depth := if Ascii.eqb c "{" then depth + 1 else depth in
      if Ascii.eqb c "}" then
        let depth := depth - 1 in
        if depth =? 0 then Json.loads (PyStr.slice start (i + 1) text)
        else scan_braces text start rest' (i + 1) depth
      else scan_braces text start rest' (i + 1) depth
  end.

Definition extract_json_from_output (text : string) : option Json.t :=
  match find "{" text with
  | None => None
  | Some start => scan_braces text start (drop_chars start text) start 0
  end.

(** [ask_model_for_plan], given how the run of [opencode run] ends. *)
Definition ask_model_for_plan (result : subprocess_result)
  : outcome (option Json.t * option string) :=
  match result with
  | TimeoutExpired => Ret (None, Some "opencode timed out")
  | FileNotFoundError => Raise "FileNotFoundError"
  | OtherError e => Raise e
  | Completed _ stdout =>
      match extract_json_from_output stdout with
      | None => Ret (None, Some "no json in model output")
      | Some plan => Ret (Some plan, None)
      end
  end.

(** ** [organize.py]: validation *)

(** One clause of the mismatch message: [parts.append("missing %s" % ...)]
    under [if missing:]. *)
Definition mismatch_part (label : string) (ids : gset string) : list string :=
  if bool_decide (ids = ∅) then []
  else [label ++ " " ++ String.concat "," (PyStr.sorted (elements ids))].

Definition validate_plan (plan : OrganizePlan.t) (context : SessionContext.t)
  : option string :=
  match OrganizePlan.session plan, OrganizePlan.windows plan with
  | Some _, Some windows =>
      let context_ids : gset string :=
        list_to_set (map WindowContext.id (SessionContext.windows context)) in
      let plan_ids : gset string := list_to_set (map WindowPlan.id windows) in
      let plan_indices := map WindowPlan.index windows in
      if bool_decide (context_ids ≠ plan_ids) then
        let missing := context_ids ∖ plan_ids in
        let extra := plan_ids ∖ context_ids in
        let parts := (mismatch_part "missing" missing ++ mismatch_part "extra" extra)%list in
        Some ("window id mismatch: " ++ String.concat "; " parts)
      else if bool_decide (length plan_indices ≠ size (list_to_set plan_indices : gset Z))
      then Some "duplicate indices"
      else None
  | _, _ => Some "missing session/windows keys"
  end.

(** ** [organize.py]: plan application *)

(** A window or a slot of a session, as tmux's [-s] and [-t] name them:
    [@id], or [session:index]. *)
Inductive target :=
| WindowId (id : string)
| SessionIndex (sid : string) (idx : Z).

(** The tmux commands that [organize.py] runs. *)
Inductive tmux_cmd :=
| rename_window (t : string) (name : string)
| move_window (s : target) (t : target)
| rename_session (t : string) (name : string)
| set_option (t : string) (option value : string)
| unset_option (t : string) (option : string).

(** [enumerate(l)] *)
Definition enumerate {A} (l : list A) : list (Z * A) :=
  combine (map Z.of_nat (seq 0 (length l))) l.

(** The commands of [apply_organization_plan], in the order they are run,
    and the [KeyError] that ends the call when a key is absent. *)
Definition apply_organization_plan (session_id : string) (plan : OrganizePlan.t)
  : list tmux_cmd * option string :=
  match OrganizePlan.windows plan with
  | None => ([], Some "KeyError")
  | Some windows =>
      let renames :=
        map (fun window => rename_window (WindowPlan.id window) (WindowPlan.name window))
            windows in
      let to_temp :=
        map (fun '(i, window) =>
               move_window (WindowId (WindowPlan.id window))
                           (SessionIndex session_id (900 + i)))
            (enumerate windows) in
      let to_target :=
        map (fun '(i, window) =>
               move_window (SessionIndex session_id (900 + i))
                           (SessionIndex session_id (WindowPlan.index window)))
            (enumerate windows) in
      match OrganizePlan.session plan with
      | None => ((renames ++ to_temp ++ to_target)%list, Some "KeyError")
      | Some session =>
          ((renames ++ to_temp ++ to_target ++ [rename_session session_id session])%list, None)
      end
  end.

(** ** [organize.py]: [main] *)

(** What [main] does to the world, in order. *)
Inductive effect :=
| Print (line : string)
| Tmux (c : tmux_cmd)
| Fork
| AskModel
| WriteCachedPlan (key : string) (plan : OrganizePlan.t)
| Exit (code : Z)
| Uncaught (e : string).

(** [bool(s)] for an optional [str]. *)
Definition truthy_str (s : option string) : bool :=
  match s with
  | Some (String _ _) => true
  | _ => false
  end.

(** [main] from [assert plan is not None] on. *)
Definition main_validate_apply (session_id : string) (context : SessionContext.t)
    (cache_key : string) (is_cached : bool) (plan : option OrganizePlan.t)
  : list effect :=
  match plan with
  | None => [Uncaught "AssertionError"]
  | Some plan =>
      let validation_error := validate_plan plan context in
      if truthy_str validation_error then
        [Tmux (set_option session_id "@torganize" (default "" validation_error));
         Exit 1]
      else
        ((if negb is_cached then [WriteCachedPlan cache_key plan] else []) ++
         match apply_organization_plan session_id plan with
         | (cmds, None) =>
             map Tmux cmds ++ [Tmux (unset_option session_id "@torganize")]
         | (cmds, Some e) => map Tmux cmds ++ [Uncaught e]
         end)%list
  end.

(** [main] from the fork on (the child).  [cached] is what
    [read_cached_plan] returns and [asked] what [ask_model_for_plan] does
    if it is called. *)
Definition main_child (session_id : string) (context : SessionContext.t)
    (opencode_context : string) (cached : option OrganizePlan.t)
    (asked : outcome (option OrganizePlan.t * option string)) : list effect :=
  let cache_key := build_cache_key context opencode_context in
  let is_cached := bool_decide (cached ≠ None) in
  if match cached with Some plan => OrganizePlan.truthy plan | None => false end
  then main_validate_apply session_id context cache_key is_cached cached
  else
    AskModel ::
    match asked with
    | Raise e => [Uncaught e]
    | Ret (plan, error) =>
        if truthy_str error then
          [Tmux (set_option session_id "@torganize" (default "" error)); Exit 1]
        else main_validate_apply session_id context cache_key is_cached plan
    end.

(** [main]; [session_id] is what tmux prints for
    [display-message -p #{session_id}], [context] and [opencode_context]
    are what is gathered before the fork. *)
Definition main (session_id : string) (context : SessionContext.t)
    (opencode_context : string) (cached : option OrganizePlan.t)
    (asked : outcome (option OrganizePlan.t * option string)) : list effect :=
  if String.eqb session_id "" then [Print "not in a tmux session"; Exit 1]
  else
    Tmux (set_option session_id "@torganize" "organizing...") :: Fork ::
    main_child session_id context opencode_context cached asked.

(** ** The live session *)

(** tmux keeps the windows of a session at pairwise distinct indices.
    [move-window] without [-k] onto an index that is in use fails and
    changes nothing; [run] ignores the failure. *)
Module Live.

Record window := mk_window {
  id : string;
  index : Z;
  name : string }.

Record session := mk_session {
  session_id : string;
  session_name : string;
  windows : list window }.

Definition occupied (idx : Z) (ws : list window) : bool :=
  existsb (fun w => index w =? idx) ws.

(** Does the window [w] answer to the source [s]? *)
Definition is_source (sid : string) (s : target) (w : window) : bool :=
  match s with
  | WindowId i => String.eqb (id w) i
  | SessionIndex sid' idx => String.eqb sid' sid && (index w =? idx)
  end.

Definition exec (c : tmux_cmd) (s : session) : session :=
  match c with
  | rename_window t n =>
      mk_session (session_id s) (session_name s)
        (map (fun w => if String.eqb (id w) t then mk_window (id w) (index w) n else w)
             (windows s))
  | move_window src (SessionIndex sid idx) =>
      if String.eqb sid (session_id s) && negb (occupied idx (windows s)) then
        mk_session (session_id s) (session_name s)
          (map (fun w => if is_source (session_id s) src w
                         then mk_window (id w) idx (name w) else w)
               (windows s))
      else s
  | move_window _ (WindowId _) => s
  | rename_session t n =>
      if String.eqb t (session_id s) then mk_session (session_id s) n (windows s)
      else s
  | set_option _ _ _ => s
  | unset_option _ _ => s
  end.

(** A move whose target slot holds a window when the move is issued. *)
Definition collides (c : tmux_cmd) (s : session) : bool :=
  match c with
  | move_window _ (SessionIndex sid idx) =>
      String.eqb sid (session_id s) && occupied idx (windows s)
  | _ => false
  end.

Definition run (cmds : list tmux_cmd) (s : session) : session :=
  fold_left (fun s c => exec c s) cmds s.

(** No command of [cmds], run in order from [s], collides. *)
Fixpoint collision_free (cmds : list tmux_cmd) (s : session) : bool :=
  match cmds with
  | [] => true
  | c :: cmds' => negb (collides c s) && collision_free cmds' (exec c s)
  end.

(** The session as [gather_session_context] sees its windows. *)
Definition snapshot_ids (s : session) : list string := map id (windows s).

End Live.

(** ** [str] methods that read white space and line boundaries *)

Module PyText.

(** The code points for which [str.isspace] holds: the ones that
    [str.strip] and [str.split] take for white space. *)
Definition whitespace : list Z :=
  [ 9; 10; 11; 12; 13; 28; 29; 30; 31; 32; 133; 160; 5760;
    8192; 8193; 8194; 8195; 8196; 8197; 8198; 8199; 8200; 8201; 8202;
    8232; 8233; 8239; 8287; 12288 ].

(** The code points at which [str.splitlines] ends a line; a carriage
    return followed by a line feed ends one line. *)
Definition line_breaks : list Z := [10; 11; 12; 13; 28; 29; 30; 133; 8232; 8233].

(** What follows the first of the texts [ps] that [s] starts with. *)
Fixpoint first_prefix (ps : list string) (s : string) : option string :=
  match ps with
  | [] => None
  | p :: ps' =>
      match Json.strip_prefix p s with
      | Some r => Some r
      | None => first_prefix ps' s
      end
  end.

(** What follows the white-space character at the head of [s]. *)
Definition after_space (s : string) : option string :=
  first_prefix (map Json.utf8 whitespace) s.

(** What follows the line boundary at the head of [s]. *)
Definition after_break (s : string) : option string :=
  match Json.strip_prefix (String "013" (String "010" "")) s with
  | Some r => Some r
  | None => first_prefix (map Json.utf8 line_breaks) s
  end.

(** [s.lstrip()]; the fuel is the length of [s]. *)
Fixpoint lstrip_fuel (fuel : nat) (s : string) : string :=
  match fuel with
  | O => s
  | S f =>
      match after_space s with
      | Some r => lstrip_fuel f r
      | None => s
      end
  end.

Definition lstrip (s : string) : string := lstrip_fuel (String.length s) s.

(** [s.rstrip()]: [s] up to the first point that only white space
    follows. *)
Fixpoint rstrip (s : string) : string :=
  match s with
  | EmptyString => EmptyString
  | String c r => if String.eqb (lstrip s) "" then EmptyString else String c (rstrip r)
  end.

(** [s.strip()] *)
Definition strip (s : string) : string := rstrip (lstrip s).

(** [s.rstrip(c)] for a one-character [c]. *)
Fixpoint rstrip_char (c : ascii) (s : string) : string :=
  match s with
  | EmptyString => EmptyString
  | String d r =>
      match rstrip_char c r with
      | EmptyString => if Ascii.eqb d c then EmptyString else String d EmptyString
      | r' => String d r'
      end
  end.

(** [s.splitlines()], with the line read so far; the fuel is the length
    of [s] and one more. *)
Fixpoint splitlines_fuel (fuel : nat) (s line : string) : list string :=
  match fuel with
  | O => []
  | S f =>
      match s with
      | EmptyString => if String.eqb line "" then [] else [line]
      | String c r =>
          match after_break s with
          | Some rest => line :: splitlines_fuel f rest ""
          | None => splitlines_fuel f r (line ++ String c "")
          end
      end
  end.

Definition splitlines (s : string) : list string :=
  splitlines_fuel (S (String.length s)) s "".

(** [s.split()], with the word read so far. *)
Fixpoint split_fuel (fuel : nat) (s word : string) : list string :=
  match fuel with
  | O => []
  | S f =>
      match s with
      | EmptyString => if String.eqb word "" then [] else [word]
      | String c r =>
          match after_space s with
          | Some rest =>
              if String.eqb word "" then split_fuel f rest ""
              else word :: split_fuel f rest ""
          | None => split_fuel f r (word ++ String c "")
          end
      end
  end.

Definition split (s : string) : list string :=
  split_fuel (S (String.length s)) s "".

(** [s.split(c)] for a one-character [c]. *)
Fixpoint split_char (c : ascii) (s : string) : list string :=
  match s with
  | EmptyString => [EmptyString]
  | String d r =>
      if Ascii.eqb d c then EmptyString :: split_char c r
      else match split_char c r with
           | w :: ws => String d w :: ws
           | [] => [String d EmptyString]
           end
  end.

(** [s.replace(c, "")] for a one-character ASCII [c]: [s] without
    its [c]. *)
Fixpoint remove_char (c : ascii) (s : string) : string :=
  match s with
  | EmptyString => EmptyString
  | String d r => if Ascii.eqb d c then remove_char c r else String d (remove_char c r)
  end.

(** [os.path.basename(p)]: what follows the last slash of [p]. *)
Fixpoint basename (p : string) : string :=
  match p with
  | EmptyString => EmptyString
  | String c r =>
      if PyStr.contains "/" r then basename r
      else if Ascii.eqb c "/" then r else p
  end.

End PyText.

(** ** Calls that return or raise *)

#[global] Instance outcome_ret : MRet outcome := fun A a => Ret a.

#[global] Instance outcome_bind : MBind outcome := fun A B f m =>
  match m with
  | Ret a => f a
  | Raise e => Raise e
  end.

(** [int(s)], which raises [ValueError] for a text that is no number. *)
Definition int_of (s : string) : outcome Z :=
  match PyInt.int s with
  | Some n => Ret n
  | None => Raise "ValueError"
  end.

(** ** [tmux.py]: the snapshot of a session *)

(** [HOSTNAME_TITLES], for the name that [socket.gethostname] gives. *)
Definition HOSTNAME_TITLES (full_hostname : string) : list string :=
  [full_hostname; PyStr.before "." full_hostname].

(** [run], given how the run of [tmux] with its arguments ends: the
    standard output without the newlines at its end. *)
Definition run (result : subprocess_result) : outcome string :=
  match result with
  | Completed _ stdout => Ret (PyText.rstrip_char "010" stdout)
  | TimeoutExpired => Raise "TimeoutExpired"
  | FileNotFoundError => Raise "FileNotFoundError"
  | OtherError e => Raise e
  end.

(** The standard output of a run that completes; the exception of one
    that does not. *)
Definition stdout_of (result : subprocess_result) : outcome string :=
  match result with
  | Completed _ stdout => Ret stdout
  | TimeoutExpired => Raise "TimeoutExpired"
  | FileNotFoundError => Raise "FileNotFoundError"
  | OtherError e => Raise e
  end.

(** [l[0]] *)
Definition first_item (l : list string) : outcome string :=
  match l with
  | x :: _ => Ret x
  | [] => Raise "IndexError"
  end.

(** The exceptions that [except (IndexError, subprocess.SubprocessError)]
    catches: the two classes and the subclasses of the second. *)
Definition caught_by_get_child_cmdline : list string :=
  ["IndexError"; "SubprocessError"; "CalledProcessError"; "TimeoutExpired"].

Section snapshot.

(** How the runs of [pgrep -lP pid], of [ps -p pid -o args=] and of
    [tmux] with given arguments end. *)
Variables (pgrep ps : string → subprocess_result)
  (tmux : list string → subprocess_result).

Variable full_hostname : string.

(** The body of the [try] of [get_child_cmdline]. *)
Definition get_child_cmdline_body (shell_pid : string) : outcome string :=
  stdout ← stdout_of (pgrep shell_pid);
  first_child_line ←
    (if String.eqb (PyText.strip stdout) "" then Ret ""
     else first_item (PyText.splitlines (PyText.strip stdout)));
  if String.eqb first_child_line "" then Ret ""
  else
    child_pid ← first_item (PyText.split first_child_line);
    args_stdout ← stdout_of (ps child_pid);
    Ret (PyText.strip args_stdout).

Definition get_child_cmdline (shell_pid : string) : outcome string :=
  match get_child_cmdline_body shell_pid with
  | Ret cmdline => Ret cmdline
  | Raise e =>
      if bool_decide (e ∈ caught_by_get_child_cmdline) then Ret "" else Raise e
  end.

(** The loop over the lines of [list-panes]. *)
Fixpoint gather_panes (pane_lines : list string) : outcome (list PaneContext.t) :=
  match pane_lines with
  | [] => Ret []
  | pane_line :: rest =>
      if String.eqb (PyText.strip pane_line) "" then gather_panes rest
      else
        match PyText.split_char "009" pane_line with
        | [pane_title; command; full_path; pane_pid] =>
            let title :=
              if bool_decide (pane_title ∈ HOSTNAME_TITLES full_hostname)
              then "" else pane_title in
            cmdline ← get_child_cmdline pane_pid;
            let directory := PyText.basename full_path in
            panes ← gather_panes rest;
            Ret (PaneContext.mk command cmdline directory full_path title :: panes)
        | _ => Raise "ValueError"
        end
  end.

(** The loop over the lines of [list-windows]. *)
Fixpoint gather_windows (lines : list string) : outcome (list WindowContext.t) :=
  match lines with
  | [] => Ret []
  | line :: rest =>
      if String.eqb (PyText.strip line) "" then gather_windows rest
      else
        match PyText.split_char "009" line with
        | [window_id; window_index; window_name] =>
            raw_panes ←
              run (tmux [ "list-panes"; "-t"; window_id; "-F";
                          "#{pane_title}" ++ String "009" "#{pane_current_command}"
                          ++ String "009" "#{pane_current_path}"
                          ++ String "009" "#{pane_pid}" ]);
            panes ← gather_panes (PyText.splitlines raw_panes);
            index ← int_of window_index;
            windows ← gather_windows rest;
            Ret (WindowContext.mk window_id index window_name panes :: windows)
        | _ => Raise "ValueError"
        end
  end.

Definition gather_session_context (session_id : string) : outcome SessionContext.t :=
  raw_windows ←
    run (tmux [ "list-windows"; "-t"; session_id; "-F";
                "#{window_id}" ++ String "009" "#{window_index}"
                ++ String "009" "#{window_name}" ]);
  windows ← gather_windows (PyText.splitlines raw_windows);
  session_path ←
    run (tmux ["display-message"; "-t"; session_id; "-p"; "#{pane_current_path}"]);
  Ret (SessionContext.mk session_id session_path windows).

End snapshot.
(** ** [json.dumps], the encoder behind [json.dump] *)

Module JsonDump.

Import Json.

Definition Z_of_byte (c : ascii) : Z := Z.of_N (N_of_ascii c).

(** The code points of a [str], read from its UTF-8 bytes.  A byte that
    opens no character is taken for itself. *)
Fixpoint code_points (s : string) : list Z :=
  match s with
  | EmptyString => []
  | String a r =>
      let x := Z_of_byte a in
      if x <? 192 then x :: code_points r
      else if x <? 224 then
        match r with
        | String b r' => (x - 192) * 64 + (Z_of_byte b - 128) :: code_points r'
        | _ => x :: code_points r
        end
      else if x <? 240 then
        match r with
        | String b (String c r') =>
            (x - 224) * 4096 + (Z_of_byte b - 128) * 64 + (Z_of_byte c - 128)
            :: code_points r'
        | _ => x :: code_points r
        end
      else
        match r with
        | String b (String c (String d r')) =>
            (x - 240) * 262144 + (Z_of_byte b - 128) * 4096
            + (Z_of_byte c - 128) * 64 + (Z_of_byte d - 128)
            :: code_points r'
        | _ => x :: code_points r
        end
  end.

(** [format(n, "04x")] for [n] below [0x10000]. *)
Definition hex4_of (n : Z) : string :=
  string_of_list_ascii
    (map (fun i => SHA256.hex_digit (Z.land (Z.shiftr n (4 * i)) 15)) [3; 2; 1; 0]).

(** What [encode_basestring_ascii] writes for one code point. *)
Definition escape (cp : Z) : string :=
  if cp =? 34 then String "\" (String "034" "")
  else if cp =? 92 then "\\"
  else if cp =? 8 then "\b"
  else if cp =? 12 then "\f"
  else if cp =? 10 then "\n"
  else if cp =? 13 then "\r"
  else if cp =? 9 then "\t"
  else if (32 <=? cp) && (cp <=? 126) then String (byte cp) ""
  else if cp <? 65536 then "\u" ++ hex4_of cp
  else
    let n := cp - 65536 in
    "\u" ++ hex4_of (Z.lor 55296 (Z.land (Z.shiftr n 10) 1023)) ++
    "\u" ++ hex4_of (Z.lor 56320 (Z.land n 1023)).

(** [encode_basestring_ascii(s)]: [s] between quotes, with every
    character that is not printable ASCII escaped. *)
Definition encode_basestring_ascii (s : string) : string :=
  String "034" (String.concat "" (map escape (code_points s))) ++ String "034" "".

Section encoder.

(** What [float.__repr__] writes for the number that a lexeme denotes
    (and [NaN], [Infinity], [-Infinity] for these) is left open. *)
Variable float_repr : string → string.

(** [json.dumps(v)] with the default separators. *)
Fixpoint dumps (v : t) : string :=
  match v with
  | JNull => "null"
  | JBool true => "true"
  | JBool false => "false"
  | JInt n => pretty n
  | JFloat lexeme => float_repr lexeme
  | JStr s => encode_basestring_ascii s
  | JList l => "[" ++ String.concat ", " (map dumps l) ++ "]"
  | JDict m =>
      "{" ++
      String.concat ", "
        (map (fun item => encode_basestring_ascii item.1 ++ ": " ++ dumps item.2) m)
      ++ "}"
  end.

End encoder.

End JsonDump.

(** ** [organize.py]: the files of the cache *)

(** [os.path.join(a, b)] *)
Definition path_join (a b : string) : string :=
  match b with
  | String "/" _ => b
  | _ =>
      if String.eqb a "" || String.eqb (PyStr.slice (String.length a - 1) (String.length a) a) "/"
      then a ++ b
      else a ++ "/" ++ b
  end.

Section cache_files.

(** [CACHE_DIR], that is [~/.cache/torganize] in the home directory of the
    user, and the formatting of floats. *)
Variables (CACHE_DIR : string) (float_repr : string → string).

Definition cache_path (key : string) : string :=
  path_join CACHE_DIR (key ++ ".json").

(** The files, by path, with their text. *)
Definition read_cached_plan (files : gmap string string) (key : string)
  : outcome (option Json.t) :=
  match files !! cache_path key with
  | None => Ret None
  | Some text =>
      match Json.loads text with
      | Some plan => Ret (Some plan)
      | None => Raise "JSONDecodeError"
      end
  end.

Definition write_cached_plan (files : gmap string string) (key : string)
    (plan : Json.t) : gmap string string :=
  <[cache_path key := JsonDump.dumps float_repr plan]> files.

End cache_files.
(** ** [name.py]: the name of one window *)

Module Name.

(** [d.get(key)] on the items of a [dict]. *)
Fixpoint item (key : string) (m : list (string * Json.t)) : option Json.t :=
  match m with
  | [] => None
  | (k, v) :: m' => if String.eqb k key then Some v else item key m'
  end.

(** [v.get(key, default)]: a value that is no [dict] has no [get]. *)
Definition get (v : Json.t) (key : string) (default : Json.t) : outcome Json.t :=
  match v with
  | Json.JDict m =>
      Ret (match item key m with Some x => x | None => default end)
  | _ => Raise "AttributeError"
  end.

(** [":" in v]: a part of a [str], an element of a [list], a key of a
    [dict]; the other values are no containers. *)
Definition contains_colon (v : Json.t) : outcome bool :=
  match v with
  | Json.JStr s => Ret (PyStr.contains ":" s)
  | Json.JList l =>
      Ret (existsb (fun x => match x with
                             | Json.JStr s => String.eqb s ":"
                             | _ => false
                             end) l)
  | Json.JDict m => Ret (existsb (fun kv => String.eqb kv.1 ":") m)
  | _ => Raise "TypeError"
  end.

(** The exceptions that [except ValueError] catches: the class and its
    subclasses, among them the one that [json.loads] raises. *)
Definition value_errors : list string :=
  [ "ValueError"; "JSONDecodeError"; "UnicodeError"; "UnicodeDecodeError";
    "UnicodeEncodeError"; "UnicodeTranslateError" ].

(** What the run prints and does; [Tmux args] is a call of [run] with the
    arguments [args]. *)
Inductive effect :=
| Print (line : string)
| Tmux (args : list string)
| Fork
| AskModel (prompt : string)
| Exit (code : Z)
| Uncaught (e : string).

Section name.

(** How the runs of [pgrep -lP pid], of [ps -p pid -o args=], of [tmux]
    with given arguments, of [otop sessions] and of [opencode run] with
    a given prompt end: what [subprocess.run] returns or raises for them,
    the [ValueError] for an argument that holds a NUL included. *)
Variables (pgrep ps : string → subprocess_result)
  (tmux : list string → subprocess_result)
  (otop : subprocess_result)
  (opencode : string → subprocess_result).

(** The nesting that the interpreter allows [json.loads]. *)
Variable max_depth : nat.

Variable full_hostname : string.

(** [bool(x)] for the [float] of a lexeme, and [str(v)] for a value that
    is no [str]. *)
Variable float_truthy : string → bool.
Variable str_of : Json.t → string.

(** [bool(v)] *)
Definition truthy (v : Json.t) : bool :=
  match v with
  | Json.JNull => false
  | Json.JBool b => b
  | Json.JInt n => negb (n =? 0)
  | Json.JFloat lexeme => float_truthy lexeme
  | Json.JStr s => negb (String.eqb s "")
  | Json.JList l => match l with [] => false | _ => true end
  | Json.JDict m => match m with [] => false | _ => true end
  end.

(** ["%(title)s" % {"title": v}] *)
Definition format_s (v : Json.t) : string :=
  match v with
  | Json.JStr s => s
  | _ => str_of v
  end.

(** The body of the loop of [query_opencode_for_window] for one entry:
    the title that is returned, or [None] to go on with the next entry. *)
Definition entry_title (window_index : Z) (session_name : string) (entry : Json.t)
  : outcome (option Json.t) :=
  pane_target ← get entry "tmux_pane" (Json.JStr "");
  if negb (truthy pane_target) then Ret None
  else
    has_colon ← contains_colon pane_target;
    if negb has_colon then Ret None
    else
      match pane_target with
      | Json.JStr pane_target =>
          match PyStr.split_once ":" pane_target with
          | None => Raise "ValueError"
          | Some (target_session, rest) =>
              if negb (String.eqb target_session session_name) then Ret None
              else
                let idx_str :=
                  if PyStr.contains "." rest then PyStr.before "." rest else rest in
                match PyInt.int idx_str with
                | None => Ret None
                | Some idx =>
                    if idx =? window_index then
                      session_data ← get entry "session" (Json.JDict []);
                      title ← get session_data "title" (Json.JStr "");
                      Ret (Some title)
                    else Ret None
                end
          end
      | _ => Raise "AttributeError"
      end.

(** The loop over the entries. *)
Fixpoint first_title (window_index : Z) (session_name : string)
    (entries : list Json.t) : outcome Json.t :=
  match entries with
  | [] => Ret (Json.JStr "")
  | entry :: entries' =>
      found ← entry_title window_index session_name entry;
      match found with
      | Some title => Ret title
      | None => first_title window_index session_name entries'
      end
  end.

(** [query_opencode_for_window].  The loop goes through the elements of a
    [list]; through the keys of a [dict] and the characters of a [str],
    which are [str] and have no [get]; and a value of another type is
    not iterable.  Of what [json.loads] raises, [JSONDecodeError] is
    caught. *)
Definition query_opencode_for_window (window_index : Z) (session_name : string)
  : outcome Json.t :=
  match otop with
  | Completed returncode stdout =>
      if negb (returncode =? 0) then Ret (Json.JStr "")
      else
        match Decoder.loads max_depth stdout with
        | Raise e =>
            if String.eqb e "JSONDecodeError" then Ret (Json.JStr "") else Raise e
        | Ret (Json.JList entries) => first_title window_index session_name entries
        | Ret (Json.JDict []) => Ret (Json.JStr "")
        | Ret (Json.JDict (_ :: _)) => Raise "AttributeError"
        | Ret (Json.JStr s) =>
            if String.eqb s "" then Ret (Json.JStr "") else Raise "AttributeError"
        | Ret _ => Raise "TypeError"
        end
  | TimeoutExpired => Ret (Json.JStr "")
  | FileNotFoundError => Ret (Json.JStr "")
  | OtherError e => Raise e
  end.

(** The loop over the lines of [list-panes -F #{pane_pid}]. *)
Fixpoint gather_cmdlines (pids : list string) : outcome (list string) :=
  match pids with
  | [] => Ret []
  | pid :: rest =>
      let pid := PyText.strip pid in
      if String.eqb pid "" then gather_cmdlines rest
      else
        cmdline ← get_child_cmdline pgrep ps pid;
        cmdlines ← gather_cmdlines rest;
        Ret (if String.eqb cmdline "" then cmdlines else cmdline :: cmdlines)
  end.

(** [x.strip() for x in raw.splitlines() if x.strip()] *)
Definition stripped_lines (raw : string) : list string :=
  filter (fun x => x ≠ "") (map PyText.strip (PyText.splitlines raw)).

(** [sorted(set(l))] *)
Definition sorted_set (l : list string) : list string :=
  PyStr.sorted (elements (list_to_set l : gset string)).

(** One part of the context: the label and the items, when there are
    items. *)
Definition part (label : string) (items : list string) : list string :=
  match items with
  | [] => []
  | _ => [label ++ String.concat "; " items]
  end.

Definition gather_window_context (window_id : string) : outcome string :=
  raw_pids ← run (tmux ["list-panes"; "-t"; window_id; "-F"; "#{pane_pid}"]);
  cmdlines ← gather_cmdlines (PyText.splitlines raw_pids);
  raw_paths ←
    run (tmux ["list-panes"; "-t"; window_id; "-F"; "#{pane_current_path}"]);
  let paths := sorted_set (stripped_lines raw_paths) in
  raw_titles ← run (tmux ["list-panes"; "-t"; window_id; "-F"; "#{pane_title}"]);
  let titles :=
    sorted_set (filter (fun t => t ∉ HOSTNAME_TITLES full_hostname)
                  (stripped_lines raw_titles)) in
  window_name ← run (tmux ["display-message"; "-t"; window_id; "-p"; "#W"]);
  let parts :=
    (part "processes: " cmdlines ++ part "paths: " paths ++ part "titles: " titles ++
     (if String.eqb window_name "" then [] else [("current name: " ++ window_name)%string]))%list
  in
  Ret (String.concat "; " parts).

(** The calls of [run] in [gather_window_context], up to the one that
    raises, or to the [get_child_cmdline] that raises. *)
Definition gather_window_context_runs (window_id : string) : list (list string) :=
  let pids := ["list-panes"; "-t"; window_id; "-F"; "#{pane_pid}"] in
  let paths := ["list-panes"; "-t"; window_id; "-F"; "#{pane_current_path}"] in
  let titles := ["list-panes"; "-t"; window_id; "-F"; "#{pane_title}"] in
  let name := ["display-message"; "-t"; window_id; "-p"; "#W"] in
  match run (tmux pids) with
  | Raise _ => [pids]
  | Ret raw_pids =>
      match gather_cmdlines (PyText.splitlines raw_pids) with
      | Raise _ => [pids]
      | Ret _ =>
          match run (tmux paths) with
          | Raise _ => [pids; paths]
          | Ret _ =>
              match run (tmux titles) with
              | Raise _ => [pids; paths; titles]
              | Ret _ => [pids; paths; titles; name]
              end
          end
      end
  end.

(** A run of [tmux] whose output is read. *)
Definition read (args : list string) (k : string → list effect) : list effect :=
  Tmux args ::
  match run (tmux args) with
  | Ret out => k out
  | Raise e => [Uncaught e]
  end.

(** A run of [tmux] that shows a message or renames the window. *)
Definition command (args : list string) (k : list effect) : list effect :=
  Tmux args ::
  match run (tmux args) with
  | Ret _ => k
  | Raise e => [Uncaught e]
  end.

(** [stdout.strip().replace(" ", "").replace("\n", "")] *)
Definition slug_of (stdout : string) : string :=
  PyText.remove_char "010" (PyText.remove_char " " (PyText.strip stdout)).

(** [main] from [if not slug] on. *)
Definition main_rename (window_id slug : string) : list effect :=
  if String.eqb slug "" then
    command ["display-message"; "tname: failed for " ++ window_id] [Exit 1]
  else
    command ["rename-window"; "-t"; window_id; slug]
      (command ["display-message"; "renamed: " ++ slug] []).

(** The prompt for a context. *)
Definition prompt_of (context : string) : string :=
  "here is context about a tmux window: " ++ context ++ " -- " ++
  "generate a short lowercase-hyphenated name for this window " ++
  "(2-4 words max). describe what the user is working on, not " ++
  "the tools or hostname. output ONLY the slug, nothing else.".

(** [main] from the fork on (the child). *)
Definition main_child (window_id context : string) : list effect :=
  let prompt := prompt_of context in
  AskModel prompt ::
  match opencode prompt with
  | Completed _ stdout => main_rename window_id (slug_of stdout)
  | TimeoutExpired => main_rename window_id ""
  | FileNotFoundError => [Uncaught "FileNotFoundError"]
  | OtherError e => [Uncaught e]
  end.

(** The [try] of [main] around [int] and [query_opencode_for_window]:
    the title, which stays empty after a [ValueError]. *)
Definition opencode_title_of (window_index_str session_name : string)
  : outcome Json.t :=
  match PyInt.int window_index_str with
  | None => Ret (Json.JStr "")
  | Some window_index =>
      match query_opencode_for_window window_index session_name with
      | Ret title => Ret title
      | Raise e =>
          if bool_decide (e ∈ value_errors) then Ret (Json.JStr "") else Raise e
      end
  end.

Definition main : list effect :=
  read ["display-message"; "-p"; "#{window_id}"] (fun window_id =>
  if String.eqb window_id "" then [Print "not in a tmux session"; Exit 1]
  else
    List.app (map Tmux (gather_window_context_runs window_id))
    match gather_window_context window_id with
    | Raise e => [Uncaught e]
    | Ret context =>
        if String.eqb context "" then
          command ["display-message"; "no pane context found"] [Exit 1]
        else
          read ["display-message"; "-p"; "#S"] (fun session_name =>
          read ["display-message"; "-p"; "#{window_index}"] (fun window_index_str =>
          match opencode_title_of window_index_str session_name with
          | Raise e => [Uncaught e]
          | Ret opencode_title =>
              let context :=
                if truthy opencode_title
                then context ++ "; opencode session title: " ++ format_s opencode_title
                else context in
              command ["display-message"; "naming..."]
                (Fork :: main_child window_id context)
          end))
    end).

End name.

End Name.
(** ** The plan as [json.loads] returns it *)

(** [organize.py] takes its plan from [json.loads] or [json.load] and
    reads it as it is: the functions below follow it on every value, with
    the [KeyError] and [TypeError] of the entries that are not what
    [WindowPlan] declares.  The records of [OrganizePlan] and [WindowPlan]
    above are these values where they are well typed ([Raw.plan_json]). *)

(** What the interpreter makes of a [float] is left open: [bool(x)], the
    equality of two floats and of a float and an integer between elements
    of a set, and the integer part that ["%d" % x] writes (or the
    [OverflowError] or [ValueError] of an infinity or a NaN). *)
Module Floats.
Record t := mk {
  truthy : string → bool;
  eq : string → string → bool;
  eq_int : string → Z → bool;
  trunc : string → outcome Z }.
End Floats.

Module Py.

(** [d.get(key)] on the items of a [dict]. *)
Fixpoint item (key : string) (m : list (string * Json.t)) : option Json.t :=
  match m with
  | [] => None
  | (k, v) :: m' => if String.eqb k key then Some v else item key m'
  end.

(** [p in s] for two [str]. *)
Fixpoint infix (p s : string) : bool :=
  match Json.strip_prefix p s with
  | Some _ => true
  | None =>
      match s with
      | EmptyString => false
      | String _ s' => infix p s'
      end
  end.

(** [v[key]] for a [str] key: [KeyError] on a [dict] without the key, and
    [TypeError] on a value that no [str] indexes. *)
Definition getitem (v : Json.t) (key : string) : outcome Json.t :=
  match v with
  | Json.JDict m =>
      match item key m with
      | Some x => Ret x
      | None => Raise "KeyError"
      end
  | _ => Raise "TypeError"
  end.

(** [for w in v]: the elements of a [list], the keys of a [dict], the
    characters of a [str]; another value is not iterable. *)
Definition iterate (v : Json.t) : outcome (list Json.t) :=
  match v with
  | Json.JList l => Ret l
  | Json.JDict m => Ret (map (fun kv => Json.JStr kv.1) m)
  | Json.JStr s => Ret (map (fun cp => Json.JStr (Json.utf8 cp)) (JsonDump.code_points s))
  | _ => Raise "TypeError"
  end.

(** [hash(v)] raises [TypeError] for a [list] and for a [dict]. *)
Definition hashable (v : Json.t) : bool :=
  match v with
  | Json.JList _ | Json.JDict _ => false
  | _ => true
  end.

Definition int_of_bool (b : bool) : Z := if b then 1 else 0.

Section values.

Variable floats : Floats.t.

(** [bool(v)] *)
Definition truthy (v : Json.t) : bool :=
  match v with
  | Json.JNull => false
  | Json.JBool b => b
  | Json.JInt n => negb (n =? 0)
  | Json.JFloat lexeme => Floats.truthy floats lexeme
  | Json.JStr s => negb (String.eqb s "")
  | Json.JList l => match l with [] => false | _ => true end
  | Json.JDict m => match m with [] => false | _ => true end
  end.

(** Two hashable values as elements of a set: [a is b or a == b].  A
    [bool] is the integer 0 or 1, and numbers are compared by value. *)
Definition same (a b : Json.t) : bool :=
  match a, b with
  | Json.JNull, Json.JNull => true
  | Json.JStr x, Json.JStr y => String.eqb x y
  | Json.JBool x, Json.JBool y => Bool.eqb x y
  | Json.JBool x, Json.JInt n => int_of_bool x =? n
  | Json.JInt n, Json.JBool x => n =? int_of_bool x
  | Json.JInt n, Json.JInt m => n =? m
  | Json.JFloat x, Json.JFloat y => Floats.eq floats x y
  | Json.JFloat x, Json.JInt n => Floats.eq_int floats x n
  | Json.JInt n, Json.JFloat x => Floats.eq_int floats x n
  | Json.JFloat x, Json.JBool b => Floats.eq_int floats x (int_of_bool b)
  | Json.JBool b, Json.JFloat x => Floats.eq_int floats x (int_of_bool b)
  | _, _ => false
  end.

(** [key in v] for a [str] key: a key of a [dict], an element of a
    [list], a part of a [str]; another value is no container. *)
Definition contains (v : Json.t) (key : string) : outcome bool :=
  match v with
  | Json.JDict m => Ret (match item key m with Some _ => true | None => false end)
  | Json.JList l => Ret (existsb (same (Json.JStr key)) l)
  | Json.JStr s => Ret (infix key s)
  | _ => Raise "TypeError"
  end.

(** [set(l)] for hashable values, in the order of the first occurrences. *)
Definition distinct (l : list Json.t) : list Json.t :=
  fold_left (fun seen x => if existsb (same x) seen then seen else (seen ++ [x])%list) l [].

End values.

End Py.

(** [f] on every element, up to the first that raises. *)
Fixpoint each {A B} (f : A → outcome B) (l : list A) : outcome (list B) :=
  match l with
  | [] => Ret []
  | x :: l' =>
      match f x with
      | Raise e => Raise e
      | Ret y =>
          match each f l' with
          | Raise e => Raise e
          | Ret ys => Ret (y :: ys)
          end
      end
  end.

Module Raw.

(** The text of a [str]. *)
Definition text_of (v : Json.t) : option string :=
  match v with
  | Json.JStr s => Some s
  | _ => None
  end.

Section plan.

Variable floats : Floats.t.

(** [w["id"]] as an element of the set [plan_ids]. *)
Definition id_of (w : Json.t) : outcome Json.t :=
  match Py.getitem w "id" with
  | Raise e => Raise e
  | Ret id => if Py.hashable id then Ret id else Raise "TypeError"
  end.

(** [validate_plan].  An id of the plan that is no [str] is in no set of
    ids of a context: the sets differ, the id is among the extra ones,
    and [",".join(sorted(extra))] raises [TypeError], in [sorted] or in
    [join]. *)
Definition validate_plan (plan : Json.t) (context : SessionContext.t)
  : outcome (option string) :=
  has_session ← Py.contains floats plan "session";
  has_windows ← (if has_session then Py.contains floats plan "windows" else Ret false);
  if negb (has_session && has_windows) then Ret (Some "missing session/windows keys")
  else
    let context_ids : gset string :=
      list_to_set (map WindowContext.id (SessionContext.windows context)) in
    windows ← Py.getitem plan "windows";
    entries ← Py.iterate windows;
    ids ← each id_of entries;
    plan_indices ← each (fun w => Py.getitem w "index") entries;
    match each (fun id => match text_of id with
                          | Some s => Ret s
                          | None => Raise "TypeError"
                          end) ids with
    | Raise e =>
        Raise e
    | Ret ids =>
        let plan_ids : gset string := list_to_set ids in
        if bool_decide (context_ids ≠ plan_ids) then
          let missing := context_ids ∖ plan_ids in
          let extra := plan_ids ∖ context_ids in
          let parts :=
            (mismatch_part "missing" missing ++ mismatch_part "extra" extra)%list in
          Ret (Some ("window id mismatch: " ++ String.concat "; " parts))
        else if negb (forallb Py.hashable plan_indices) then Raise "TypeError"
        else if bool_decide (length plan_indices
                             ≠ length (Py.distinct floats plan_indices))
        then Ret (Some "duplicate indices")
        else Ret None
    end.

End plan.

(** A [WindowPlan] and an [OrganizePlan] as the values that [json.loads]
    returns for them. *)
Definition window_json (window : WindowPlan.t) : Json.t :=
  Json.JDict [ ("id", Json.JStr (WindowPlan.id window));
               ("name", Json.JStr (WindowPlan.name window));
               ("index", Json.JInt (WindowPlan.index window)) ].

Definition plan_json (plan : OrganizePlan.t) : Json.t :=
  Json.JDict
    ((match OrganizePlan.session plan with
      | Some session => [("session", Json.JStr session)]
      | None => []
      end) ++
     (match OrganizePlan.windows plan with
      | Some windows => [("windows", Json.JList (map window_json windows))]
      | None => []
      end))%list.

End Raw.
(** ** Notions used to state the properties *)

(** *** The validator *)

(** The ids of the windows of a context, as [validate_plan] builds them. *)
Definition context_ids (context : SessionContext.t) : gset string :=
  list_to_set (map WindowContext.id (SessionContext.windows context)).

(** The ids of the windows of a plan. *)
Definition plan_ids (windows : list WindowPlan.t) : gset string :=
  list_to_set (map WindowPlan.id windows).

(** A clause of the diagnostic: the label and the ids it names, or nothing
    when there is no such id. *)
Definition named (label : string) (ids : list string) : list string :=
  match ids with
  | [] => []
  | _ => [label ++ " " ++ String.concat "," ids]
  end.

(** *** The enrichment *)

(** The failure modes of the run of [otop sessions] that the query
    takes for no session: the executable is absent, the run times out, the
    exit status is not zero, or [json.loads] rejects the output with
    [JSONDecodeError]. *)
Definition otop_failed (max_depth : nat) (result : subprocess_result) : Prop :=
  match result with
  | FileNotFoundError => True
  | TimeoutExpired => True
  | Completed returncode stdout =>
      returncode ≠ 0 ∨ Decoder.loads max_depth stdout = Raise "JSONDecodeError"
  | OtherError _ => False
  end.

(** A call of the decoder with limits against the same call without
    them: the same value, or no value for both, or one of the two limits
    was met. *)
Definition agrees {A} (o : outcome A) (p : option A) : Prop :=
  match o with
  | Ret a => p = Some a
  | Raise e =>
      (e = "JSONDecodeError" ∧ p = None) ∨ e = "ValueError" ∨ e = "RecursionError"
  end.

(** [n] times the text [s]. *)
Fixpoint repeated (n : nat) (s : string) : string :=
  match n with
  | O => ""
  | S n' => s ++ repeated n' s
  end.

(** An array of one integer of 4301 digits. *)
Definition long_integer_output : string := "[" ++ repeated 4301 "1" ++ "]".

(** The window index that a record names in the session [session_name]:
    its pane target is [session_name], a colon, and a window index that
    parses, taken before any dot. *)
Definition record_window (session_name : string) (oc_session : OcSession.t)
  : option Z :=
  match OcSession.tmux_pane oc_session with
  | None => None
  | Some pane_target =>
      match PyStr.split_once ":" pane_target with
      | None => None
      | Some (target_session, rest) =>
          if String.eqb target_session session_name
          then PyInt.int (PyStr.before "." rest)
          else None
      end
  end.

(** A record counts when it names a window and carries session data. *)
Definition record_counts (session_name : string) (oc_session : OcSession.t) : bool :=
  match record_window session_name oc_session with
  | None => false
  | Some _ =>
      SessionData.truthy (default SessionData.empty (OcSession.session oc_session))
  end.

(** Does a record name the window [window] of the session
    [session_name]?  The comparison of [query_opencode_for_window] in
    [name.py]: [int(idx_str) == window_index]. *)
Definition record_matches_window (session_name : string)
    (oc_session : OcSession.t) (window : WindowContext.t) : bool :=
  match record_window session_name oc_session with
  | Some window_idx => window_idx =? WindowContext.index window
  | None => false
  end.

(** *** The plan parser *)

(** Is the result of [json.loads] a [dict]? *)
Definition is_dict (v : option Json.t) : bool :=
  match v with
  | Some (Json.JDict _) => true
  | _ => false
  end.

(** What one character adds to the depth. *)
Definition brace_step (c : ascii) : Z :=
  if Ascii.eqb c "{" then 1 else if Ascii.eqb c "}" then -1 else 0.

(** The number of opening braces of a text less the number of its closing
    braces, every brace counted. *)
Fixpoint brace_depth (s : string) : Z :=
  match s with
  | EmptyString => 0
  | String c s' => brace_step c + brace_depth s'
  end.

(** One pass over a span: the depth, [depth] before the span, is positive
    after each character but the last and zero after the last. *)
Fixpoint balanced_span_check (span : string) (depth : Z) : bool :=
  match span with
  | EmptyString => false
  | String c rest =>
      let depth := depth + brace_step c in
      match rest with
      | EmptyString => depth =? 0
      | _ => (0 <? depth) && balanced_span_check rest depth
      end
  end.

(** A span that opens with a brace and whose depth is back to zero at its
    last character and not before. *)
Definition balanced_span (span : string) : Prop :=
  (∃ r, span = String "{" r)
  ∧ brace_depth span = 0
  ∧ ∀ p q, span = p ++ q → p ≠ "" → q ≠ "" → 0 < brace_depth p.

(** *** The run of [main] *)

(** The commands that change the windows or the name of the session: the
    ones that [apply_organization_plan] runs. *)
Definition is_mutation (c : tmux_cmd) : bool :=
  match c with
  | rename_window _ _ | move_window _ _ | rename_session _ _ => true
  | set_option _ _ _ | unset_option _ _ => false
  end.

(** An effect that is a command of the applier. *)
Definition applies (e : effect) : bool :=
  match e with
  | Tmux c => is_mutation c
  | _ => false
  end.

(** An effect that is a write of the cache. *)
Definition writes_cache (e : effect) : bool :=
  match e with
  | WriteCachedPlan _ _ => true
  | _ => false
  end.

(** An effect that neither applies a plan nor writes the cache. *)
Definition quiet (e : effect) : Prop := applies e = false ∧ writes_cache e = false.

(** The plan that a run of [main] goes on with: the one read from the
    cache, or, when none was read, the one that the model proposed. *)
Definition plan_of_run (cached : option OrganizePlan.t)
    (asked : outcome (option OrganizePlan.t * option string))
    (plan : OrganizePlan.t) : Prop :=
  (cached = Some plan ∧ OrganizePlan.truthy plan = true)
  ∨ ((cached = None ∨ ∃ p, cached = Some p ∧ OrganizePlan.truthy p = false)
     ∧ ∃ error, asked = Ret (Some plan, error) ∧ truthy_str error = false).

(** *** The fingerprint *)

(** A lower-case hexadecimal digit. *)
Definition is_hex (c : ascii) : bool :=
  PyStr.contains c "0123456789abcdef".

(** *** The applier *)

(** The slots that the applier uses as temporary ones for a plan of [n]
    windows: [900 + i] for [i < n]. *)
Definition temp_slot (n : nat) (idx : Z) : Prop :=
  900 <= idx < 900 + Z.of_nat n.

(** Phase 2 of the applier after [k] moves: a window of the session is a
    window of the plan, and it is in one of the first [k] temporary slots,
    or it is none of the first [k] windows of the plan and is outside the
    temporary slots. *)
Definition phase2_inv (sid : string) (windows : list WindowPlan.t) (k : nat)
    (s : Live.session) : Prop :=
  Live.session_id s = sid
  ∧ Forall (fun w =>
              Live.id w ∈ map WindowPlan.id windows
              ∧ (temp_slot k (Live.index w)
                 ∨ ((Live.id w ∉ (map WindowPlan.id (take k windows)))
                    ∧ ¬ temp_slot (length windows) (Live.index w))))
      (Live.windows s).

(** Phase 3 after [k] moves: a window is in a temporary slot or at one of
    the first [k] targets of the plan. *)
Definition phase3_inv (sid : string) (windows : list WindowPlan.t) (k : nat)
    (s : Live.session) : Prop :=
  Live.session_id s = sid
  ∧ Forall (fun w =>
              temp_slot (length windows) (Live.index w)
              ∨ Live.index w ∈ map WindowPlan.index (take k windows))
      (Live.windows s).

(** ** The sessions, plans and texts of the examples *)

(** A text written with an apostrophe where it has a double quote. *)
Definition dq (s : string) : string :=
  string_of_list_ascii
    (map (fun c => if Ascii.eqb c "'" then "034"%char else c) (list_ascii_of_string s)).

(** A pane that runs a shell in [/home/u]. *)
Definition bash_pane : PaneContext.t := PaneContext.mk "bash" "" "u" "/home/u" "".

(** A session of one window. *)
Definition one_window_context : SessionContext.t :=
  SessionContext.mk "$0" "/home/u" [WindowContext.mk "@1" 0 "bash" [bash_pane]].

(** The session of the end-to-end example of the specification: its
    snapshot, and the session in tmux. *)
Definition two_window_context : SessionContext.t :=
  SessionContext.mk "$0" "/home/u"
    [ WindowContext.mk "@1" 0 "bash" [bash_pane];
      WindowContext.mk "@2" 1 "bash" [bash_pane] ].

Definition two_window_session : Live.session :=
  Live.mk_session "$0" "0"
    [Live.mk_window "@1" 0 "bash"; Live.mk_window "@2" 1 "bash"].

(** The same session with its second window at the index 900. *)
Definition context_with_900 : SessionContext.t :=
  SessionContext.mk "$0" "/home/u"
    [ WindowContext.mk "@1" 0 "bash" [bash_pane];
      WindowContext.mk "@2" 900 "bash" [bash_pane] ].

Definition session_with_900 : Live.session :=
  Live.mk_session "$0" "0"
    [Live.mk_window "@1" 0 "bash"; Live.mk_window "@2" 900 "bash"].

(** A session of one window with one pane, and the same session with a
    second pane that runs the same command in the same directory. *)
Definition one_pane_context : SessionContext.t :=
  SessionContext.mk "$0" "/home/u" [WindowContext.mk "@1" 0 "bash" [bash_pane]].

Definition two_pane_context : SessionContext.t :=
  SessionContext.mk "$0" "/home/u"
    [WindowContext.mk "@1" 0 "bash" [bash_pane; bash_pane]].

(** Two windows that differ in their name. *)
Definition editor_shell_windows : list WindowContext.t :=
  [ WindowContext.mk "@1" 0 "vim" [bash_pane];
    WindowContext.mk "@2" 1 "bash" [bash_pane] ].

(** The plan of the end-to-end example of the specification: it exchanges
    the two windows. *)
Definition swap_plan : OrganizePlan.t :=
  OrganizePlan.mk (Some "proj")
    (Some [WindowPlan.mk "@1" "code" 1; WindowPlan.mk "@2" "c" 0]).

(** A plan that names the window [@1] twice, for the session of one
    window. *)
Definition repeated_id_windows : list WindowPlan.t :=
  [WindowPlan.mk "@1" "code" 0; WindowPlan.mk "@1" "code" 1].

Definition repeated_id_plan : OrganizePlan.t :=
  OrganizePlan.mk (Some "proj") (Some repeated_id_windows).

(** A plan for the session of one window that lacks the key [session]. *)
Definition plan_without_session : OrganizePlan.t :=
  OrganizePlan.mk None (Some [WindowPlan.mk "@1" "code" 0]).

(** A plan for the two windows that gives them one index. *)
Definition plan_to_duplicate : OrganizePlan.t :=
  OrganizePlan.mk (Some "proj")
    (Some [WindowPlan.mk "@1" "code" 0; WindowPlan.mk "@2" "c" 0]).

(** A plan for the two windows that sends the first one to the index 901. *)
Definition plan_to_901 : OrganizePlan.t :=
  OrganizePlan.mk (Some "proj")
    (Some [WindowPlan.mk "@1" "code" 901; WindowPlan.mk "@2" "c" 0]).

(** A record of the session [work] for its window 5. *)
Definition record_work_5 : OcSession.t :=
  OcSession.mk (Some "work:5.0")
    (Some (SessionData.mk (Some "t") None None None [])).

(** Records none of which names a window of the session [work]: no pane
    target, no colon, another session, an index that does not parse. *)
Definition unmatched_records : list OcSession.t :=
  [ OcSession.mk None (Some (SessionData.mk (Some "a") None None None []));
    OcSession.mk (Some "work") (Some (SessionData.mk (Some "b") None None None []));
    OcSession.mk (Some "play:1.0") (Some (SessionData.mk (Some "c") None None None []));
    OcSession.mk (Some "work:x.0") (Some (SessionData.mk (Some "d") None None None [])) ].

(** A JSON object whose one value is a string holding a closing brace. *)
Definition brace_in_string : string := dq "{'a':'}'}".

(** The plan of the parse-robustness example of the specification, and the
    output around it. *)
Definition example_object : string := dq "{'session':'x','windows':[]}".

Definition example_output : string :=
  "here's the plan: " ++ example_object ++ " thanks!".

(** An output in which the plan follows a brace-delimited span that is not
    JSON. *)
Definition prose_with_braces : string := "{x} " ++ example_object.

(** ** Notions used to state further properties *)

(** *** The applier *)

(** The last element of [l] whose key is [id]. *)
Fixpoint last_entry {A} (key : A → string) (l : list A) (id : string) : option A :=
  match l with
  | [] => None
  | x :: l' =>
      match last_entry key l' id with
      | Some y => Some y
      | None => if String.eqb (key x) id then Some x else None
      end
  end.

(** A window of the session where the plan wants it: at the index and
    under the name of its entry in the plan (the last one, if the plan
    names it more than once). *)
Definition placed (windows : list WindowPlan.t) (w : Live.window) : Live.window :=
  match last_entry WindowPlan.id windows (Live.id w) with
  | Some window =>
      Live.mk_window (Live.id w) (WindowPlan.index window) (WindowPlan.name window)
  | None => w
  end.

(** The key of an entry of [enumerate(plan["windows"])]. *)
Definition entry_id (item : Z * WindowPlan.t) : string := WindowPlan.id item.2.

(** A window in phase 2 of the applier, after [k] moves: a window named
    by one of the first [k] entries is in the temporary slot of the last
    of these. *)
Definition in_phase2 (windows : list WindowPlan.t) (k : nat) (w : Live.window)
  : Live.window :=
  match last_entry entry_id (take k (enumerate windows)) (Live.id w) with
  | Some (j, _) => Live.mk_window (Live.id w) (900 + j) (Live.name w)
  | None => w
  end.

(** A window in phase 3 after [k] moves: the windows of the first [k]
    temporary slots are at their targets. *)
Definition in_phase3 (windows : list WindowPlan.t) (k : nat) (w : Live.window)
  : Live.window :=
  match last_entry entry_id (enumerate windows) (Live.id w) with
  | Some (j, window) =>
      Live.mk_window (Live.id w)
        (if j <? Z.of_nat k then WindowPlan.index window else 900 + j) (Live.name w)
  | None => w
  end.

(** The session of one window, in tmux. *)
Definition one_window_session : Live.session :=
  Live.mk_session "$0" "0" [Live.mk_window "@1" 0 "bash"].

(** *** The status indicator *)

(** The value of the session option [@torganize] after one more effect:
    [set-option] gives it a value, [set-option -u] removes it. *)
Definition status_step (status : option string) (e : effect) : option string :=
  match e with
  | Tmux (set_option _ option value) =>
      if String.eqb option "@torganize" then Some value else status
  | Tmux (unset_option _ option) =>
      if String.eqb option "@torganize" then None else status
  | _ => status
  end.

(** The value of [@torganize] after a run that started without it. *)
Definition status_after (trace : list effect) : option string :=
  fold_left status_step trace None.

(** *** The enrichment *)

(** The session data of the last record of [records] that counts for the
    window [window_idx], if there is one. *)
Fixpoint last_record (session_name : string) (records : list OcSession.t)
    (window_idx : Z) : option SessionData.t :=
  match records with
  | [] => None
  | r :: records' =>
      match last_record session_name records' window_idx with
      | Some session_data => Some session_data
      | None =>
          if record_counts session_name r
             && bool_decide (record_window session_name r = Some window_idx)
          then Some (default SessionData.empty (OcSession.session r))
          else None
      end
  end.

(** Two records of the session [work] for its window 2, and one for its
    window 1. *)
Definition records_of_work : list OcSession.t :=
  [ OcSession.mk (Some "work:2.0")
      (Some (SessionData.mk (Some "first") None None None []));
    OcSession.mk (Some "work:1.1")
      (Some (SessionData.mk (Some "other") (Some "idle") (Some 3) None []));
    OcSession.mk (Some "work:2.1")
      (Some (SessionData.mk (Some "second") None None None [])) ].

(** *** The cache *)

(** Two windows that the cache key cannot tell apart: they have one name,
    and their panes give the same fingerprints, in any order. *)
Definition same_layout (w w' : WindowContext.t) : Prop :=
  WindowContext.name w = WindowContext.name w'
  ∧ map pane_fingerprint (WindowContext.panes w)
    ≡ₚ map pane_fingerprint (WindowContext.panes w').

(** The session of two windows as a later tmux server has it: the same
    windows under other ids and at other indices, with titled panes. *)
Definition two_window_context_later : SessionContext.t :=
  SessionContext.mk "$3" "/home/u"
    [ WindowContext.mk "@7" 1 "bash" [PaneContext.mk "sh" "bash" "u" "/home/u" "shell"];
      WindowContext.mk "@8" 2 "bash" [bash_pane] ].

(** *** The snapshot *)

(** [n] newlines. *)
Definition newlines (n : nat) : string :=
  string_of_list_ascii (replicate n "010"%char).

(** A text in which no line boundary starts. *)
Fixpoint one_line (s : string) : bool :=
  match s with
  | EmptyString => true
  | String _ r =>
      match PyText.after_break s with
      | Some _ => false
      | None => one_line r
      end
  end.

(** A text with a printable ASCII character other than the space. *)
Fixpoint has_visible (s : string) : bool :=
  match s with
  | EmptyString => false
  | String c r =>
      ((33 <=? N_of_ascii c)%N && (N_of_ascii c <=? 126)%N) || has_visible r
  end.

(** The number of tabs of a text. *)
Fixpoint count_tabs (s : string) : nat :=
  match s with
  | EmptyString => O
  | String c r => ((if Ascii.eqb c "009" then 1 else 0) + count_tabs r)%nat
  end.

(** What tmux knows of a pane and of a window, and the lines that it
    prints for them under the formats of [gather_session_context]. *)
Module Tmux.

Record pane := mk_pane {
  pane_title : string;
  pane_current_command : string;
  pane_current_path : string;
  pane_pid : string }.

Record window := mk_window {
  window_id : string;
  window_index : Z;
  window_name : string;
  panes : list pane }.

Definition tab : string := String "009" "".

Definition window_line (w : window) : string :=
  window_id w ++ tab ++ pretty (window_index w) ++ tab ++ window_name w.

Definition pane_line (p : pane) : string :=
  pane_title p ++ tab ++ pane_current_command p ++ tab ++
  pane_current_path p ++ tab ++ pane_pid p.

(** The lines, each followed by a newline. *)
Definition printed (lines : list string) : string :=
  String.concat "" (map (fun line => line ++ String "010" "") lines).

Definition list_windows (session_id : string) : list string :=
  [ "list-windows"; "-t"; session_id; "-F";
    "#{window_id}" ++ tab ++ "#{window_index}" ++ tab ++ "#{window_name}" ].

Definition list_panes (window_id : string) : list string :=
  [ "list-panes"; "-t"; window_id; "-F";
    "#{pane_title}" ++ tab ++ "#{pane_current_command}" ++ tab ++
    "#{pane_current_path}" ++ tab ++ "#{pane_pid}" ].

Definition display_path (session_id : string) : list string :=
  ["display-message"; "-t"; session_id; "-p"; "#{pane_current_path}"].

(** A pane and a window whose lines read back: no field holds a tab, no
    line boundary starts in the line, and the pid, or the id, is visible;
    the index of the window has at most 4300 digits, the most that [int]
    reads. *)
Definition pane_ok (p : pane) : Prop :=
  PyStr.contains "009" (pane_title p) = false
  ∧ PyStr.contains "009" (pane_current_command p) = false
  ∧ PyStr.contains "009" (pane_current_path p) = false
  ∧ PyStr.contains "009" (pane_pid p) = false
  ∧ has_visible (pane_pid p) = true
  ∧ one_line (pane_line p) = true.

Definition window_ok (w : window) : Prop :=
  PyStr.contains "009" (window_id w) = false
  ∧ PyStr.contains "009" (window_name w) = false
  ∧ has_visible (window_id w) = true
  ∧ one_line (window_line w) = true
  ∧ Forall pane_ok (panes w)
  ∧ Z.abs (window_index w) < 10 ^ 4300.

(** The snapshot of a pane and of a window, given the command line that
    [get_child_cmdline] finds for each pid. *)
Definition pane_context (full_hostname : string) (cmdline : string → string)
    (p : pane) : PaneContext.t :=
  PaneContext.mk (pane_current_command p) (cmdline (pane_pid p))
    (PyText.basename (pane_current_path p)) (pane_current_path p)
    (if bool_decide (pane_title p ∈ HOSTNAME_TITLES full_hostname)
     then "" else pane_title p).

Definition window_context (full_hostname : string) (cmdline : string → string)
    (w : window) : WindowContext.t :=
  WindowContext.mk (window_id w) (window_index w) (window_name w)
    (map (pane_context full_hostname cmdline) (panes w)).

End Tmux.

(** A tmux server with one session of two windows: an editor started
    from the shell of pid 100, and a shell of pid 200 whose pane title is
    the host name. *)
Definition example_windows : list Tmux.window :=
  [ Tmux.mk_window "@1" 0 "edit" [Tmux.mk_pane "notes" "nvim" "/home/u/doc" "100"];
    Tmux.mk_window "@2" 1 "" [Tmux.mk_pane "box" "bash" "/home/u" "200"] ].

Definition example_tmux (args : list string) : subprocess_result :=
  if bool_decide (args = Tmux.list_windows "$0")
  then Completed 0 (Tmux.printed (map Tmux.window_line example_windows))
  else if bool_decide (args = Tmux.list_panes "@1")
  then Completed 0 (Tmux.printed [Tmux.pane_line (Tmux.mk_pane "notes" "nvim" "/home/u/doc" "100")])
  else if bool_decide (args = Tmux.list_panes "@2")
  then Completed 0 (Tmux.printed [Tmux.pane_line (Tmux.mk_pane "box" "bash" "/home/u" "200")])
  else if bool_decide (args = Tmux.display_path "$0")
  then Completed 0 ("/home/u" ++ String "010" "")
  else Completed 1 "".

Definition example_pgrep (shell_pid : string) : subprocess_result :=
  if String.eqb shell_pid "100" then Completed 0 ("4242 nvim" ++ String "010" "")
  else Completed 1 "".

Definition example_ps (pid : string) : subprocess_result :=
  if String.eqb pid "4242" then Completed 0 ("nvim README.md" ++ String "010" "")
  else Completed 1 "".

Definition example_cmdline (pid : string) : string :=
  if String.eqb pid "100" then "nvim README.md" else "".

(** The lines that the loops of the snapshot do not skip. *)
Definition nonblank (lines : list string) : list string :=
  List.filter (fun line => negb (String.eqb (PyText.strip line) "")) lines.

(** A window of the snapshot read from a line of [list-windows]: the
    line has three fields, which are the id, the index and the name. *)
Definition window_of_line (line : string) (w : WindowContext.t) : Prop :=
  ∃ window_index,
    PyText.split_char "009" line =
      [WindowContext.id w; window_index; WindowContext.name w]
    ∧ PyInt.int window_index = Some (WindowContext.index w).

(** *** The files of the cache *)

(** A Unicode scalar value: a code point that is no surrogate. *)
Definition scalar (cp : Z) : bool :=
  (0 <=? cp) && (cp <? 1114112) && negb ((55296 <=? cp) && (cp <=? 57343)).

(** The UTF-8 of a sequence of code points. *)
Definition encode (cps : list Z) : string := String.concat "" (map Json.utf8 cps).

(** A [str] that is the UTF-8 of scalar values. *)
Definition is_text (s : string) : bool :=
  forallb scalar (JsonDump.code_points s)
  && String.eqb (encode (JsonDump.code_points s)) s.

(** A JSON value within the reach of the encoder as it is modelled: no
    float, every [int] short of the 4300 digits at which [str] gives up,
    every [str] the UTF-8 of scalar values, and the keys of a [dict]
    pairwise distinct, as they are in a [dict]. *)
Fixpoint storable (v : Json.t) : bool :=
  match v with
  | Json.JNull => true
  | Json.JBool _ => true
  | Json.JInt n => Z.abs n <? 10 ^ 4300
  | Json.JFloat _ => false
  | Json.JStr s => is_text s
  | Json.JList l => forallb storable l
  | Json.JDict m =>
      forallb (fun item => is_text item.1 && storable item.2) m
      && bool_decide (NoDup (map fst m))
  end.

(** A plan as the model writes it, with a name that is not ASCII. *)
Definition example_plan : Json.t :=
  Json.JDict
    [ ("session", Json.JStr "proj");
      ("windows",
       Json.JList
         [ Json.JDict [ ("id", Json.JStr "@1");
                        ("name", Json.JStr (Json.utf8 233 ++ "dition"));
                        ("index", Json.JInt 1) ];
           Json.JDict [ ("id", Json.JStr "@2"); ("name", Json.JStr "c");
                        ("index", Json.JInt 0) ] ]) ].

(** What follows a value in the text that [json.dumps] writes: nothing,
    a comma, or a closing bracket or brace. *)
Definition after_value (rest : string) : bool :=
  match rest with
  | EmptyString => true
  | String c _ => Ascii.eqb c "," || Ascii.eqb c "]" || Ascii.eqb c "}"
  end.

(** A value whose text, whatever follows it that may follow a value,
    decodes to the value and leaves what follows, with the fuel that
    [loads] gives for the text. *)
Definition decodes_back (float_repr : string → string) (v : Json.t) : Prop :=
  ∀ (rest : string) (f : nat),
    after_value rest = true →
    (2 * String.length (JsonDump.dumps float_repr v ++ rest) + 1 ≤ f)%nat →
    Json.scan_once f (JsonDump.dumps float_repr v ++ rest) = Some (v, rest).

(** The text of an item of a [dict]. *)
Definition item_text (float_repr : string → string) (item : string * Json.t) : string :=
  JsonDump.encode_basestring_ascii item.1 ++ ": " ++ JsonDump.dumps float_repr item.2.

(** *** What a run does to the session *)

(** The tmux commands of a run, in the order in which it issues them. *)
Definition commands_of (trace : list effect) : list tmux_cmd :=
  flat_map (fun e => match e with Tmux c => [c] | _ => [] end) trace.

(** *** The entries of [otop sessions] as [name.py] reads them *)

(** The pane target of an entry, when it has one that is a [str]. *)
Definition pane_of (entry : Json.t) : option string :=
  match entry with
  | Json.JDict m =>
      match Name.item "tmux_pane" m with
      | Some (Json.JStr pane_target) => Some pane_target
      | _ => None
      end
  | _ => None
  end.

(** The window index that an entry names in the session [session_name]. *)
Definition entry_window (session_name : string) (entry : Json.t) : option Z :=
  record_window session_name (OcSession.mk (pane_of entry) None).

(** The title of the session of an entry; the empty string when the entry
    has no session or the session no title. *)
Definition title_of (entry : Json.t) : Json.t :=
  match entry with
  | Json.JDict m =>
      match Name.item "session" m with
      | Some (Json.JDict session_data) =>
          default (Json.JStr "") (Name.item "title" session_data)
      | _ => Json.JStr ""
      end
  | _ => Json.JStr ""
  end.

(** An entry as [otop] prints it: an object whose pane target, when it is
    there, is a [str], and whose session, when it is there, is an
    object. *)
Definition entry_ok (entry : Json.t) : bool :=
  match entry with
  | Json.JDict m =>
      match Name.item "tmux_pane" m with
      | None | Some (Json.JStr _) => true
      | _ => false
      end
      && match Name.item "session" m with
         | None | Some (Json.JDict _) => true
         | _ => false
         end
  | _ => false
  end.

(** The first entry that names the window [window_index]. *)
Definition first_entry (session_name : string) (window_index : Z)
    (entries : list Json.t) : option Json.t :=
  List.find (fun entry =>
    bool_decide (entry_window session_name entry = Some window_index)) entries.

(** Two entries for the window 1 of the session [work], the first one
    without a title. *)
Definition example_entries : string :=
  "[{" ++ String "034" "tmux_pane" ++ String "034" ": " ++
  String "034" "work:1.0" ++ String "034" ", " ++
  String "034" "session" ++ String "034" ": {}}, {" ++
  String "034" "tmux_pane" ++ String "034" ": " ++
  String "034" "work:1.1" ++ String "034" ", " ++
  String "034" "session" ++ String "034" ": {" ++
  String "034" "title" ++ String "034" ": " ++
  String "034" "fix login" ++ String "034" "}}]".

(** *** The name that [name.py] gives *)

(** No character of [s] is [c]. *)
Definition free_of (c : ascii) (s : string) : Prop := PyStr.contains c s = false.

(** A window [@1] of the session [work] with one pane, as tmux answers
    the questions of [name.py] about it. *)
Definition name_tmux (args : list string) : subprocess_result :=
  match args with
  | ["display-message"; "-p"; "#{window_id}"] => Completed 0 ("@1" ++ String "010" "")
  | ["list-panes"; "-t"; "@1"; "-F"; "#{pane_pid}"] =>
      Completed 0 ("100" ++ String "010" "")
  | ["list-panes"; "-t"; "@1"; "-F"; "#{pane_current_path}"] =>
      Completed 0 ("/home/u/doc" ++ String "010" "")
  | ["list-panes"; "-t"; "@1"; "-F"; "#{pane_title}"] =>
      Completed 0 ("box" ++ String "010" "")
  | ["display-message"; "-t"; "@1"; "-p"; "#W"] => Completed 0 ("nvim" ++ String "010" "")
  | ["display-message"; "-p"; "#S"] => Completed 0 ("work" ++ String "010" "")
  | ["display-message"; "-p"; "#{window_index}"] => Completed 0 ("1" ++ String "010" "")
  | _ => Completed 0 ""
  end.

(** A model that fails, with a name on its standard output. *)
Definition name_opencode (prompt : string) : subprocess_result :=
  Completed 1 (" edit notes" ++ String "010" "").

(** A call of tmux that reads or shows something: a [display-message] or
    a [list-panes]. *)
Definition reads_only (args : list string) : bool :=
  match args with
  | command :: _ => String.eqb command "display-message" || String.eqb command "list-panes"
  | [] => false
  end.

(** *** Plans as [json.loads] returns them *)

(** An entry of a plan that has a string for its id and an integer for its
    index, as the [WindowPlan] it stands for; its name is the string under
    [name], if there is one. *)
Definition entry_plan (entry : Json.t) : option WindowPlan.t :=
  match entry with
  | Json.JDict m =>
      match Py.item "id" m, Py.item "index" m with
      | Some (Json.JStr id), Some (Json.JInt index) =>
          Some (WindowPlan.mk id
                  (match Py.item "name" m with
                   | Some (Json.JStr name) => name
                   | _ => ""
                   end) index)
      | _, _ => None
      end
  | _ => None
  end.

(** Floats for the examples: no lexeme is taken for a number. *)
Definition no_floats : Floats.t :=
  Floats.mk (fun _ => true) String.eqb (fun _ _ => false)
    (fun _ => Raise "OverflowError").

(** The plan for the session of one window, as an object; the same
    without its [session]; with the index of its window twice. *)
Definition one_window_plan_json : Json.t :=
  Json.JDict
    [ ("session", Json.JStr "proj");
      ("windows",
       Json.JList [Json.JDict [ ("id", Json.JStr "@1"); ("name", Json.JStr "code");
                                ("index", Json.JInt 0) ]]) ].

Definition plan_json_without_session : Json.t :=
  Json.JDict
    [ ("windows",
       Json.JList [Json.JDict [ ("id", Json.JStr "@1"); ("name", Json.JStr "code");
                                ("index", Json.JInt 0) ]]) ].

Definition plan_json_repeated_index : list (string * Json.t) :=
  [ ("session", Json.JStr "proj");
    ("windows",
     Json.JList [ Json.JDict [ ("id", Json.JStr "@1"); ("name", Json.JStr "code");
                               ("index", Json.JInt 0) ];
                  Json.JDict [ ("id", Json.JStr "@1"); ("index", Json.JInt 0) ] ]) ].

(** *** Numbers as tmux prints them *)

(** A text of ASCII characters. *)
Fixpoint ascii_text (s : string) : bool :=
  match s with
  | EmptyString => true
  | String c s' => (N_of_ascii c <? 128)%N && ascii_text s'
  end.

(** An integer that [int] reads back from its decimal digits: it has at
    most 4300 of them. *)
Definition short_integer (n : Z) : Prop := Z.abs n < 10 ^ 4300.
(** * Properties *)

(** ** SHA-256 on the test vectors of FIPS 180-4 *)

Example sha256_empty :
  SHA256.hexdigest "" =
  "e3b0c44298fc1c149afbf4c8996fb92427ae41e4649b934ca495991b7852b855".
Proof. vm_compute. reflexivity. Qed.

Example sha256_abc :
  SHA256.hexdigest "abc" =
  "ba7816bf8f01cfea414140de5dae2223b00361a396177a9cb410ff61f20015ad".
Proof. vm_compute. reflexivity. Qed.

Example sha256_two_blocks :
  SHA256.hexdigest "abcdbcdecdefdefgefghfghighijhijkijkljklmklmnlmnomnopnopq" =
  "248d6a61d20638b8e5c026930c3e6039a33ce45964ff2167f6ecedd419db06c1".
Proof. vm_compute. reflexivity. Qed.

(** ** The order of [sorted] *)

Lemma sorted_Permutation (l : list string) : PyStr.sorted l ≡ₚ l.
Proof. apply merge_sort_Permutation. Qed.

Lemma sorted_StronglySorted (l : list string) :
  StronglySorted String.le (PyStr.sorted l).
Proof. apply StronglySorted_merge_sort; apply _. Qed.

(** [sorted] does not depend on the order of its argument. *)
Lemma sorted_perm_eq (l1 l2 : list string) :
  l1 ≡ₚ l2 → PyStr.sorted l1 = PyStr.sorted l2.
Proof.
  intros Hp. apply (StronglySorted_unique String.le);
    try apply sorted_StronglySorted.
  rewrite !sorted_Permutation. exact Hp.
Qed.

Lemma sorted_nil_iff (l : list string) : PyStr.sorted l = [] ↔ l = [].
Proof.
  split; intros H.
  - apply Permutation_nil_r. rewrite <- H. symmetry. apply sorted_Permutation.
  - subst. reflexivity.
Qed.

(** ** The validator *)

Section validator.

Implicit Types (l : list Z) (windows : list WindowPlan.t)
  (context : SessionContext.t).

Lemma size_list_to_set_le l : (size (list_to_set l : gset Z) ≤ length l)%nat.
Proof.
  induction l as [|x l IH].
  - rewrite list_to_set_nil, size_empty. simpl. lia.
  - rewrite list_to_set_cons, size_union_alt, size_singleton. simpl.
    assert (size ((list_to_set l : gset Z) ∖ {[x]}) ≤ size (list_to_set l : gset Z))%nat
      by (apply subseteq_size; set_solver).
    lia.
Qed.

(** [len(l) != len(set(l))] tests for a repeated element. *)
Lemma length_size_NoDup l :
  length l = size (list_to_set l : gset Z) ↔ NoDup l.
Proof.
  split; [|intros H; symmetry; by apply size_list_to_set].
  induction l as [|x l IH]; intros Hlen; [constructor|].
  rewrite list_to_set_cons in Hlen. simpl in Hlen.
  destruct (decide (x ∈ l)) as [Hin|Hnin].
  - assert ({[x]} ∪ (list_to_set l : gset Z) = list_to_set l) as E by set_solver.
    rewrite E in Hlen. pose proof (size_list_to_set_le l). lia.
  - rewrite size_union, size_singleton in Hlen by set_solver.
    constructor; [exact Hnin|]. apply IH. lia.
Qed.

Lemma mismatch_part_named (label : string) (ids : gset string) :
  mismatch_part label ids = named label (PyStr.sorted (elements ids)).
Proof.
  unfold mismatch_part, named. case_bool_decide as He.
  - subst. rewrite elements_empty. reflexivity.
  - destruct (PyStr.sorted (elements ids)) eqn:Es; [|reflexivity].
    apply (proj1 (sorted_nil_iff _)) in Es. apply elements_empty_iff in Es.
    apply leibniz_equiv in Es. contradiction.
Qed.

Lemma elem_of_sorted_elements (x : string) (ids : gset string) :
  x ∈ PyStr.sorted (elements ids) ↔ x ∈ ids.
Proof. rewrite sorted_Permutation. apply elem_of_elements. Qed.

(** A plan without one of its two keys is rejected, whatever the context. *)
Lemma validate_plan_missing_keys (plan : OrganizePlan.t) context :
  OrganizePlan.session plan = None ∨ OrganizePlan.windows plan = None →
  validate_plan plan context = Some "missing session/windows keys".
Proof.
  unfold validate_plan. intros [-> | ->]; [reflexivity|].
  destruct (OrganizePlan.session plan); reflexivity.
Qed.

Lemma validate_plan_None_iff (session : string) windows context :
  validate_plan (OrganizePlan.mk (Some session) (Some windows)) context = None ↔
  context_ids context = plan_ids windows ∧ NoDup (map WindowPlan.index windows).
Proof.
  unfold validate_plan, context_ids, plan_ids. simpl.
  rewrite <- length_size_NoDup.
  repeat case_bool_decide; split; try discriminate; intros; tauto.
Qed.

(** Validation of a plan of records that has its two keys succeeds
    exactly when the ids of the plan and of the context are the same set
    and the plan's indices are pairwise distinct.  When the sets differ
    the diagnostic lists, sorted, the ids of the context that the plan
    misses and the ids of the plan that the context does not have; when
    only the indices repeat the diagnostic says so. *)
Lemma validate_plan_records (session : string) windows context :
  let plan := OrganizePlan.mk (Some session) (Some windows) in
  (validate_plan plan context = None ↔
     context_ids context = plan_ids windows ∧ NoDup (map WindowPlan.index windows))
  ∧ (context_ids context ≠ plan_ids windows →
     ∃ missing extra : list string,
       (∀ i, i ∈ missing ↔ i ∈ context_ids context ∧ i ∉ plan_ids windows)
       ∧ (∀ i, i ∈ extra ↔ i ∈ plan_ids windows ∧ i ∉ context_ids context)
       ∧ StronglySorted String.le missing ∧ StronglySorted String.le extra
       ∧ (missing ≠ [] ∨ extra ≠ [])
       ∧ validate_plan plan context =
           Some ("window id mismatch: " ++
                 String.concat "; " (named "missing" missing ++ named "extra" extra)%list))
  ∧ (context_ids context = plan_ids windows →
     ¬ NoDup (map WindowPlan.index windows) →
     validate_plan plan context = Some "duplicate indices").
Proof.
  intros plan. split; [apply validate_plan_None_iff|]. split.
  - intros Hne.
    exists (PyStr.sorted (elements (context_ids context ∖ plan_ids windows))),
           (PyStr.sorted (elements (plan_ids windows ∖ context_ids context))).
    split; [intros i; rewrite elem_of_sorted_elements; set_solver|].
    split; [intros i; rewrite elem_of_sorted_elements; set_solver|].
    split; [apply sorted_StronglySorted|].
    split; [apply sorted_StronglySorted|].
    split.
    + rewrite !sorted_nil_iff, !elements_empty_iff.
      destruct (decide (context_ids context ∖ plan_ids windows ≡ ∅)) as [E1|N1];
        [|left; exact N1].
      right. intros E2. apply Hne. apply leibniz_equiv.
      apply set_equiv. intros x.
      destruct (decide (x ∈ context_ids context));
        destruct (decide (x ∈ plan_ids windows)); set_solver.
    + unfold plan, validate_plan. simpl.
      fold (context_ids context). fold (plan_ids windows).
      rewrite bool_decide_true by exact Hne.
      rewrite !mismatch_part_named. reflexivity.
  - intros Heq Hdup. unfold plan, validate_plan. simpl.
    fold (context_ids context). fold (plan_ids windows).
    rewrite bool_decide_false by (intros Hc; apply Hc; exact Heq).
    rewrite bool_decide_true; [reflexivity|].
    rewrite length_size_NoDup. exact Hdup.
Qed.

End validator.

(** C9. A plan can name one window twice, at two indices, and pass
    validation, although it then has more entries than the session has
    windows: only the sets of ids are compared. *)
Theorem validate_plan_accepts_repeated_id :
  ∃ (plan : OrganizePlan.t) (context : SessionContext.t)
    (windows : list WindowPlan.t) (a b : WindowPlan.t),
    OrganizePlan.windows plan = Some windows
    ∧ windows !! 0%nat = Some a ∧ windows !! 1%nat = Some b
    ∧ WindowPlan.id a = WindowPlan.id b
    ∧ WindowPlan.index a ≠ WindowPlan.index b
    ∧ validate_plan plan context = None
    ∧ (length windows > length (SessionContext.windows context))%nat.
Proof.
  exists repeated_id_plan, one_window_context, repeated_id_windows,
    (WindowPlan.mk "@1" "code" 0), (WindowPlan.mk "@1" "code" 1).
  repeat split; try reflexivity; simpl; lia.
Qed.

(** ** The plan parser *)

Lemma forallb_seq_pairs (n : nat) (P : nat → nat → bool) :
  forallb (fun a => forallb (P a) (seq 0 (S n))) (seq 0 (S n)) = true →
  ∀ a b : nat, (a ≤ n)%nat → (b ≤ n)%nat → P a b = true.
Proof.
  intros H a b Ha Hb.
  rewrite forallb_forall in H.
  specialize (H a). rewrite forallb_forall in H.
  apply H; apply in_seq; lia.
Qed.

(** C10. The text [{"a":"}"}] is one JSON object, no other slice of it is
    an object, and its one string value holds a closing brace; the
    extraction returns nothing for it. *)
Theorem extract_json_brace_in_string :
  ∃ text : string,
    Json.loads text = Some (Json.JDict [("a", Json.JStr "}")])
    ∧ (∀ a b : nat, (a ≤ b ≤ String.length text)%nat →
         is_dict (Json.loads (PyStr.slice a b text)) = true →
         a = 0%nat ∧ b = String.length text)
    ∧ extract_json_from_output text = None.
Proof.
  exists brace_in_string. split; [vm_compute; reflexivity|].
  split; [|vm_compute; reflexivity].
  intros a b Hab Hd.
  pose proof (forallb_seq_pairs 9
    (fun a b => implb (is_dict (Json.loads (PyStr.slice a b brace_in_string)))
                  (Nat.eqb a 0 && Nat.eqb b 9))) as Hall.
  change (String.length brace_in_string) with 9%nat in *.
  specialize (Hall ltac:(vm_compute; reflexivity) a b ltac:(lia) ltac:(lia)).
  cbv beta in Hall. rewrite Hd in Hall. simpl in Hall.
  apply andb_true_iff in Hall. destruct Hall as [H0 H9].
  apply Nat.eqb_eq in H0, H9. auto.
Qed.

(** ** The enrichment lookup *)

Section enrichment.

Variable session_name : string.

Lemma before_no_sep (c : ascii) (s : string) :
  PyStr.contains c s = false → PyStr.before c s = s.
Proof.
  induction s as [|d s IH]; simpl; [reflexivity|].
  destruct (Ascii.eqb c d); [discriminate|]. intros H. by rewrite IH.
Qed.

(** The loop body in terms of [record_window]. *)
Lemma record_step_spec (ws : gmap Z SessionData.t) (r : OcSession.t) :
  record_step session_name ws r =
  match record_window session_name r with
  | Some window_idx =>
      if record_counts session_name r
      then <[window_idx := default SessionData.empty (OcSession.session r)]> ws
      else ws
  | None => ws
  end.
Proof.
  unfold record_step, record_counts, record_window.
  destruct (OcSession.tmux_pane r) as [pane_target|]; [|reflexivity].
  destruct (String.eqb pane_target "") eqn:He.
  { apply String.eqb_eq in He. subst. reflexivity. }
  destruct (PyStr.split_once ":" pane_target) as [[target_session rest]|];
    [|reflexivity].
  destruct (String.eqb target_session session_name); simpl; [|reflexivity].
  assert ((if PyStr.contains "." rest then PyStr.before "." rest else rest)
          = PyStr.before "." rest) as ->.
  { destruct (PyStr.contains "." rest) eqn:Hc; [reflexivity|].
    symmetry. by apply before_no_sep. }
  destruct (PyInt.int (PyStr.before "." rest)); reflexivity.
Qed.

Lemma fold_record_step_empty (records : list OcSession.t) (ws : gmap Z SessionData.t) :
  fold_left (record_step session_name) records ws = ∅ ↔
  ws = ∅ ∧ Forall (fun r => record_counts session_name r = false) records.
Proof.
  revert ws. induction records as [|r records IH]; intros ws; simpl.
  - split; [intros ->; by split|by intros [-> _]].
  - rewrite IH, record_step_spec, Forall_cons. unfold record_counts.
    destruct (record_window session_name r) as [idx|]; [|tauto].
    destruct (SessionData.truthy _); [|tauto].
    split; [intros [H _]; by apply insert_non_empty in H|intros [_ [H _]]; discriminate].
Qed.

Lemma context_line_nonempty (item : Z * SessionData.t) : context_line item ≠ "".
Proof. destruct item. discriminate. Qed.

Lemma concat_nonempty (sep : string) (l : list string) :
  l ≠ [] → Forall (fun s => s ≠ "") l → String.concat sep l ≠ "".
Proof.
  destruct l as [|x l]; [done|]. intros _ Hl. apply Forall_cons in Hl as [Hx _].
  destruct x as [|c x]; [done|]. destruct l; discriminate.
Qed.

(** The enrichment is empty exactly when no record counts. *)
Lemma build_opencode_context_empty_iff (records : list OcSession.t)
    (context : SessionContext.t) :
  build_opencode_context records context session_name = "" ↔
  Forall (fun r => record_counts session_name r = false) records.
Proof.
  unfold build_opencode_context. destruct records as [|r records]; [by split|].
  case_bool_decide as He.
  - apply fold_record_step_empty in He as [_ He]. by split.
  - split; intros H.
    + exfalso. revert H. apply concat_nonempty.
      * intros Hm. apply map_eq_nil in Hm.
        apply (f_equal (@length _)) in Hm.
        rewrite (Permutation_length (merge_sort_Permutation _ _)) in Hm.
        apply nil_length_inv, map_to_list_empty_iff in Hm. contradiction.
      * apply Forall_forall. intros s Hs.
        apply list_elem_of_In, in_map_iff in Hs as (item & <- & _).
        apply context_line_nonempty.
    + exfalso. apply He. apply fold_record_step_empty. by split.
Qed.

(** The enrichment without a record that counts.  When no record names a window of the session
    (its pane target is absent, has no colon, names another session, or
    has an index that does not parse), the enrichment is the empty
    string, whatever the windows of the context. *)
Theorem build_opencode_context_no_match (records : list OcSession.t)
    (context : SessionContext.t) :
  (∀ r, r ∈ records → record_window session_name r = None) →
  build_opencode_context records context session_name = "".
Proof.
  intros H. apply build_opencode_context_empty_iff, Forall_forall.
  intros r Hr. unfold record_counts. by rewrite (H r Hr).
Qed.

End enrichment.

Lemma build_opencode_context_no_match_witness :
  build_opencode_context unmatched_records one_window_context "work" = "".
Proof.
  apply (build_opencode_context_no_match "work").
  intros r Hr. unfold unmatched_records in Hr.
  repeat (apply elem_of_cons in Hr as [->|Hr]; [vm_compute; reflexivity|]).
  by apply elem_of_nil in Hr.
Defined.

(** C7.  A record that names a window the context does not have: the
    record matches no window of the context, and the enrichment reports
    it all the same, where the claim has the empty string. *)
Lemma build_opencode_context_other_window :
  (∀ r w, r ∈ [record_work_5] → w ∈ SessionContext.windows one_window_context →
     record_matches_window "work" r w = false)
  ∧ build_opencode_context [record_work_5] one_window_context "work" =
      "window 5 has opencode session: " ++ dq "'t'" ++
      " (unknown, 0 messages, model: ?)"
  ∧ build_opencode_context [record_work_5] one_window_context "work" ≠ "".
Proof.
  split; [|split; [vm_compute; reflexivity|vm_compute; discriminate]].
  intros r w Hr Hw. apply list_elem_of_singleton in Hr as ->.
  unfold one_window_context in Hw. simpl in Hw.
  apply list_elem_of_singleton in Hw as ->. vm_compute. reflexivity.
Qed.

(** ** The run of [main] *)

Section main_run.

Variables (session_id : string) (context : SessionContext.t)
  (opencode_context : string).

(** Every diagnostic of [validate_plan] is a non-empty string, so
    [if validation_error:] is taken for each of them. *)
Lemma validate_plan_error_nonempty (plan : OrganizePlan.t) :
  validate_plan plan context ≠ Some "".
Proof.
  unfold validate_plan.
  destruct (OrganizePlan.session plan), (OrganizePlan.windows plan);
    try discriminate.
  repeat case_bool_decide; unfold String.append; discriminate.
Qed.

Lemma validate_plan_error_truthy (plan : OrganizePlan.t) :
  truthy_str (validate_plan plan context) =
  negb (bool_decide (validate_plan plan context = None)).
Proof.
  pose proof (validate_plan_error_nonempty plan) as Hne.
  destruct (validate_plan plan context) as [[|c e]|]; try reflexivity.
  contradiction.
Qed.

(** Every command of the applier is a window or session command. *)
Lemma apply_organization_plan_mutations (plan : OrganizePlan.t) :
  Forall (fun c => is_mutation c = true) (apply_organization_plan session_id plan).1.
Proof.
  unfold apply_organization_plan.
  destruct (OrganizePlan.windows plan) as [windows|]; [|constructor].
  assert (∀ tail, Forall (fun c => is_mutation c = true) tail →
    Forall (fun c => is_mutation c = true)
      (map (fun window => rename_window (WindowPlan.id window) (WindowPlan.name window))
           windows ++
       map (fun '(i, window) =>
              move_window (WindowId (WindowPlan.id window))
                (SessionIndex session_id (900 + i))) (enumerate windows) ++
       map (fun '(i, window) =>
              move_window (SessionIndex session_id (900 + i))
                (SessionIndex session_id (WindowPlan.index window)))
           (enumerate windows) ++ tail)%list) as H.
  { intros tail Ht. repeat apply Forall_app_2; try exact Ht;
      apply Forall_forall; intros c Hc;
      apply list_elem_of_In, in_map_iff in Hc as (x & <- & _);
      try destruct x; reflexivity. }
  destruct (OrganizePlan.session plan).
  - simpl. apply H. repeat constructor.
  - simpl. specialize (H [] (Forall_nil_2 _)). by rewrite !app_nil_r in H.
Qed.

Lemma applied_effects_no_write (plan : OrganizePlan.t) :
  Forall (fun e => writes_cache e = false)
    (match apply_organization_plan session_id plan with
     | (cmds, None) => map Tmux cmds ++ [Tmux (unset_option session_id "@torganize")]
     | (cmds, Some e) => map Tmux cmds ++ [Uncaught e]
     end)%list.
Proof.
  destruct (apply_organization_plan session_id plan) as [cmds [e|]];
    (apply Forall_app_2; [|repeat constructor]);
    apply Forall_forall; intros e' He';
    apply list_elem_of_In, in_map_iff in He' as (c & <- & _); reflexivity.
Qed.

(** A plan that fails validation: the status is set and the run exits. *)
Lemma main_validate_apply_invalid (key : string) (is_cached : bool)
    (plan : OrganizePlan.t) :
  validate_plan plan context ≠ None →
  Forall quiet (main_validate_apply session_id context key is_cached (Some plan)).
Proof.
  intros Hv. unfold main_validate_apply.
  rewrite validate_plan_error_truthy, bool_decide_false by exact Hv.
  repeat constructor.
Qed.

(** A plan that passes validation: it is written unless it was read from
    the cache, then applied. *)
Lemma main_validate_apply_valid (key : string) (is_cached : bool)
    (plan : OrganizePlan.t) :
  validate_plan plan context = None →
  main_validate_apply session_id context key is_cached (Some plan) =
  ((if negb is_cached then [WriteCachedPlan key plan] else []) ++
   match apply_organization_plan session_id plan with
   | (cmds, None) => map Tmux cmds ++ [Tmux (unset_option session_id "@torganize")]
   | (cmds, Some e) => map Tmux cmds ++ [Uncaught e]
   end)%list.
Proof.
  intros Hv. unfold main_validate_apply.
  rewrite validate_plan_error_truthy, bool_decide_true by exact Hv.
  reflexivity.
Qed.

(** At most one plan is the plan of a run. *)
Lemma plan_of_run_unique (cached : option OrganizePlan.t)
    (asked : outcome (option OrganizePlan.t * option string))
    (p1 p2 : OrganizePlan.t) :
  plan_of_run cached asked p1 → plan_of_run cached asked p2 → p1 = p2.
Proof.
  unfold plan_of_run.
  intros [[H1 T1]|[C1 (e1 & A1 & _)]] [[H2 T2]|[C2 (e2 & A2 & _)]];
    try congruence.
  - destruct C2 as [C2|(p & C2 & T)]; congruence.
  - destruct C1 as [C1|(p & C1 & T)]; congruence.
Qed.

(** Either the run goes on with a plan, and continues with its validation
    (after the call of the model, if it was made), or it mutates nothing
    and writes nothing. *)
Lemma main_child_cases (cached : option OrganizePlan.t)
    (asked : outcome (option OrganizePlan.t * option string)) :
  (∃ plan pre,
     plan_of_run cached asked plan ∧ (pre = [] ∨ pre = [AskModel])
     ∧ main_child session_id context opencode_context cached asked =
       (pre ++ main_validate_apply session_id context
                 (build_cache_key context opencode_context)
                 (bool_decide (cached ≠ None)) (Some plan))%list)
  ∨ ((∀ plan, ¬ plan_of_run cached asked plan)
     ∧ Forall quiet (main_child session_id context opencode_context cached asked)).
Proof.
  unfold main_child, plan_of_run.
  destruct cached as [p|].
  - destruct (OrganizePlan.truthy p) eqn:Hp.
    { left. exists p, []. split; [left; by split|]. split; [by left|reflexivity]. }
    destruct asked as [[[plan|] error]|e].
    + destruct (truthy_str error) eqn:He.
      * right. split; [|repeat constructor].
        intros plan' [[[= ->] T]|[_ (e' & [= -> ->] & T)]]; congruence.
      * left. exists plan, [AskModel]. split; [|split; [by right|reflexivity]].
        right. split; [right; by exists p|by exists error].
    + right. split.
      * intros plan' [[[= ->] T]|[_ (e' & [=] & T)]]; congruence.
      * destruct (truthy_str error); repeat constructor.
    + right. split; [|repeat constructor].
      intros plan' [[[= ->] T]|[_ (e' & [=] & T)]]; congruence.
  - destruct asked as [[[plan|] error]|e].
    + destruct (truthy_str error) eqn:He.
      * right. split; [|repeat constructor].
        intros plan' [[[=] T]|[_ (e' & [= -> ->] & T)]]; congruence.
      * left. exists plan, [AskModel]. split; [|split; [by right|reflexivity]].
        right. split; [by left|by exists error].
    + right. split.
      * intros plan' [[[=] T]|[_ (e' & [=] & T)]].
      * destruct (truthy_str error); repeat constructor.
    + right. split; [|repeat constructor].
      intros plan' [[[=] T]|[_ (e' & [=] & T)]].
Qed.

(** C6. In every run of [main]: if the plan the run goes on with (read
    from the cache or proposed by the model) fails validation, no window
    or session command of the applier is run and the cache is not written;
    any such command, and any write of the cache, is preceded by a plan
    that passes validation; and the cache is written only with that plan,
    under the key of the context, when nothing was read from the cache. *)
Theorem invalid_plan_not_applied_not_cached (cached : option OrganizePlan.t)
    (asked : outcome (option OrganizePlan.t * option string)) :
  let trace := main session_id context opencode_context cached asked in
  (∀ plan, plan_of_run cached asked plan → validate_plan plan context ≠ None →
     Forall (fun e => applies e = false ∧ writes_cache e = false) trace)
  ∧ (∀ e, e ∈ trace → applies e = true ∨ writes_cache e = true →
     ∃ plan, plan_of_run cached asked plan ∧ validate_plan plan context = None)
  ∧ (∀ key plan, WriteCachedPlan key plan ∈ trace →
     cached = None ∧ plan_of_run cached asked plan
     ∧ validate_plan plan context = None
     ∧ key = build_cache_key context opencode_context).
Proof.
  intros trace. subst trace. unfold main.
  destruct (String.eqb session_id "").
  { split; [intros; repeat constructor|]. split.
    - intros e He Hm. repeat (apply elem_of_cons in He as [->|He]);
        try (by destruct Hm); by apply elem_of_nil in He.
    - intros key plan He. repeat (apply elem_of_cons in He as [[=]|He]).
      by apply elem_of_nil in He. }
  destruct (main_child_cases cached asked)
    as [(plan & pre & Hrun & Hpre & ->)|[Hnone Hquiet]].
  - assert (Forall quiet pre) as Hqpre
      by (destruct Hpre as [->| ->]; repeat constructor).
    split; [|split].
    + intros plan' Hrun' Hv. rewrite (plan_of_run_unique _ _ _ _ Hrun' Hrun) in Hv.
      do 2 (constructor; [by split|]).
      apply Forall_app_2; [exact Hqpre|]. by apply main_validate_apply_invalid.
    + intros e He Hm. exists plan. split; [exact Hrun|].
      destruct (validate_plan plan context) eqn:Hv; [exfalso|reflexivity].
      do 2 (apply elem_of_cons in He as [->|He]; [by destruct Hm|]).
      apply elem_of_app in He as [He|He].
      * rewrite Forall_forall in Hqpre. destruct (Hqpre e He). destruct Hm; congruence.
      * pose proof (main_validate_apply_invalid
          (build_cache_key context opencode_context) (bool_decide (cached ≠ None)) plan) as Hq.
        rewrite Hv in Hq. specialize (Hq ltac:(discriminate)).
        rewrite Forall_forall in Hq. destruct (Hq e He). destruct Hm; congruence.
    + intros key plan' He.
      do 2 (apply elem_of_cons in He as [[=]|He]).
      apply elem_of_app in He as [He|He].
      { rewrite Forall_forall in Hqpre. destruct (Hqpre _ He) as [_ [=]]. }
      destruct (validate_plan plan context) eqn:Hv.
      { pose proof (main_validate_apply_invalid
          (build_cache_key context opencode_context) (bool_decide (cached ≠ None)) plan) as Hq.
        rewrite Hv in Hq. specialize (Hq ltac:(discriminate)).
        rewrite Forall_forall in Hq. destruct (Hq _ He) as [_ [=]]. }
      rewrite (main_validate_apply_valid _ _ _ Hv) in He.
      apply elem_of_app in He as [He|He].
      * case_bool_decide as Hc; simpl in He; [by apply elem_of_nil in He|].
        apply list_elem_of_singleton in He as [= -> ->].
        split; [|by repeat split].
        destruct cached; [discriminate Hc|reflexivity].
      * pose proof (applied_effects_no_write plan) as Htail.
        rewrite Forall_forall in Htail. by specialize (Htail _ He).
  - split; [|split].
    + intros plan Hrun. by destruct (Hnone plan).
    + intros e He Hm. exfalso.
      do 2 (apply elem_of_cons in He as [->|He]; [by destruct Hm|]).
      rewrite Forall_forall in Hquiet. destruct (Hquiet e He). destruct Hm; congruence.
    + intros key plan He. exfalso.
      do 2 (apply elem_of_cons in He as [[=]|He]).
      rewrite Forall_forall in Hquiet. destruct (Hquiet _ He) as [_ [=]].
Qed.

Lemma filter_applies_commands (cmds : list tmux_cmd) :
  Forall (fun c => is_mutation c = true) cmds →
  List.filter applies (map Tmux cmds) = map Tmux cmds.
Proof.
  induction 1 as [|c cmds Hc _ IH]; simpl; [reflexivity|]. by rewrite Hc, IH.
Qed.

(** A plan of the run that passes validation is applied: the window and
    session commands of the run are those of the applier, in order. *)
Lemma valid_plan_applied (cached : option OrganizePlan.t)
    (asked : outcome (option OrganizePlan.t * option string))
    (plan : OrganizePlan.t) :
  session_id ≠ "" →
  plan_of_run cached asked plan → validate_plan plan context = None →
  List.filter applies (main session_id context opencode_context cached asked) =
  map Tmux (apply_organization_plan session_id plan).1.
Proof.
  intros Hsid Hrun Hv. unfold main.
  destruct (String.eqb_spec session_id ""); [contradiction|].
  destruct (main_child_cases cached asked)
    as [(plan' & pre & Hrun' & Hpre & ->)|[Hnone _]]; [|by destruct (Hnone plan)].
  rewrite (plan_of_run_unique _ _ _ _ Hrun' Hrun).
  rewrite (main_validate_apply_valid _ _ _ Hv).
  pose proof (apply_organization_plan_mutations plan) as Hm.
  cbn [List.filter applies is_mutation]. rewrite !List.filter_app.
  assert (List.filter applies pre = []) as -> by (by destruct Hpre as [-> | ->]).
  assert (List.filter applies
            (if negb (bool_decide (cached ≠ None))
             then [WriteCachedPlan (build_cache_key context opencode_context) plan]
             else []) = []) as -> by (by destruct (negb _)).
  destruct (apply_organization_plan session_id plan) as [cmds [e|]];
    simpl in Hm |- *;
    rewrite List.filter_app, (filter_applies_commands _ Hm); simpl;
    by rewrite app_nil_r.
Qed.

End main_run.

Lemma invalid_plan_not_applied_not_cached_witness :
  Forall quiet (main "$0" two_window_context "" (Some plan_to_duplicate) (Raise "unused")).
Proof.
  apply (proj1 (invalid_plan_not_applied_not_cached "$0" two_window_context ""
                  (Some plan_to_duplicate) (Raise "unused")) plan_to_duplicate).
  - left. split; reflexivity.
  - vm_compute. discriminate.
Defined.


(** ** The JSON decoder: the fuel of [loads] is enough *)

Section json_fuel.

Import Json.

Lemma skip_ws_length (s : string) :
  (String.length (skip_ws s) ≤ String.length s)%nat.
Proof.
  induction s as [|c s IH]; simpl; [lia|]. destruct (is_ws c); simpl; lia.
Qed.

Lemma span_digits_length (s d r : string) :
  span_digits s = (d, r) → (String.length r ≤ String.length s)%nat.
Proof.
  revert d r. induction s as [|c s IH]; simpl; intros d r.
  - intros [= <- <-]. simpl. lia.
  - destruct (is_digit c).
    + destruct (span_digits s) as [d' r'] eqn:E. intros [= <- <-].
      specialize (IH _ _ eq_refl). lia.
    + intros [= <- <-]. simpl. lia.
Qed.

Lemma scan_string_cons (c : ascii) (r : string) :
  scan_string (String c r) =
  if Ascii.eqb c "034" then Some (EmptyString, r)
  else if Ascii.eqb c "\" then
    match r with
    | EmptyString => None
    | String e r1 =>
        if Ascii.eqb e "u" then
          match r1 with
          | String a1 (String a2 (String a3 (String a4 r2))) =>
              match hex4 a1 a2 a3 a4 with
              | None => None
              | Some hi =>
                  match (if (55296 <=? hi) && (hi <=? 56319)
                         then low_surrogate r2 else None), r2 with
                  | Some lo,
                    String _ (String _ (String _ (String _ (String _ (String _ r3))))) =>
                      match scan_string r3 with
                      | Some (x, r') =>
                          Some (utf8 (65536 + Z.lor (Z.shiftl (hi - 55296) 10)
                                                    (lo - 56320)) ++ x, r')
                      | None => None
                      end
                  | _, _ =>
                      match scan_string r2 with
                      | Some (x, r') => Some (utf8 hi ++ x, r')
                      | None => None
                      end
                  end
              end
          | _ => None
          end
        else
          match simple_escape e with
          | Some c' =>
              match scan_string r1 with
              | Some (x, r') => Some (String c' x, r')
              | None => None
              end
          | None => None
          end
    end
  else if (N_of_ascii c <? 32)%N then None
  else match scan_string r with
       | Some (x, r') => Some (String c x, r')
       | None => None
       end.
Proof. reflexivity. Qed.

(** A string literal ends with its closing quote: scanning it consumes a
    character at least. *)
Lemma scan_string_length (s x r : string) :
  scan_string s = Some (x, r) → (String.length r < String.length s)%nat.
Proof.
  remember (String.length s) as n eqn:Hn. revert s Hn x r.
  induction n as [n IH] using lt_wf_ind. intros s -> x r.
  assert (∀ s' x' r', (String.length s' < String.length s)%nat →
            scan_string s' = Some (x', r') →
            (String.length r' < String.length s')%nat) as IH'.
  { intros s' x' r' Hlt. by apply (IH _ Hlt s'). }
  clear IH.
  destruct s as [|c r0]; [discriminate|]. rewrite scan_string_cons.
  destruct (Ascii.eqb c "034"); [intros [= <- <-]; simpl; lia|].
  destruct (Ascii.eqb c "\").
  - destruct r0 as [|e r1]; [discriminate|].
    destruct (Ascii.eqb e "u").
    + destruct r1 as [|a1 [|a2 [|a3 [|a4 r2]]]]; try discriminate.
      destruct (hex4 a1 a2 a3 a4) as [hi|]; [|discriminate].
      destruct (if (55296 <=? hi) && (hi <=? 56319) then low_surrogate r2 else None)
        as [lo|];
        [destruct r2 as [|b1 [|b2 [|b3 [|b4 [|b5 [|b6 r3]]]]]]|];
        match goal with
        | |- context [scan_string ?t] =>
            destruct (scan_string t) as [[x' r']|] eqn:E; [|discriminate];
            intros [= <- <-]; apply IH' in E; simpl in *; lia
        end.
    + destruct (simple_escape e); [|discriminate].
      destruct (scan_string r1) as [[x' r']|] eqn:E; [|discriminate].
      intros [= <- <-]. apply IH' in E; simpl in *; lia.
  - destruct (N_of_ascii c <? 32)%N; [discriminate|].
    destruct (scan_string r0) as [[x' r']|] eqn:E; [|discriminate].
    intros [= <- <-]. apply IH' in E; simpl in *; lia.
Qed.

Lemma strip_prefix_length (p s r : string) :
  strip_prefix p s = Some r →
  String.length s = (String.length p + String.length r)%nat.
Proof.
  revert s. induction p as [|a p IH]; intros [|b s]; simpl; try discriminate.
  - by intros [= <-].
  - by intros [= <-].
  - destruct (Ascii.eqb a b); [|discriminate]. intros H. by rewrite (IH _ H).
Qed.

Lemma scan_int_part_length (s i r : string) :
  scan_int_part s = Some (i, r) → (String.length r < String.length s)%nat.
Proof.
  unfold scan_int_part.
  assert (∀ sign s1, (String.length s1 ≤ String.length s)%nat →
    match s1 with
    | String c r0 =>
        if Ascii.eqb c "0" then Some (sign ++ "0", r0)
        else if is_digit c then
          let (d, r') := span_digits r0 in Some (sign ++ String c d, r')
        else None
    | EmptyString => None
    end = Some (i, r) → (String.length r < String.length s)%nat) as H.
  { intros sign [|c r0] Hle; [discriminate|]. simpl in Hle.
    destruct (Ascii.eqb c "0"); [intros [= <- <-]; lia|].
    destruct (is_digit c); [|discriminate].
    destruct (span_digits r0) as [d r'] eqn:E. intros [= <- <-].
    apply span_digits_length in E. lia. }
  destruct s as [|c s']; [apply (H "" ""); simpl; lia|].
  destruct (Ascii.eqb c "-"); [apply (H "-" s')|apply (H "" (String c s'))];
    simpl; lia.
Qed.

Lemma scan_frac_length (s f r : string) :
  scan_frac s = (f, r) → (String.length r ≤ String.length s)%nat.
Proof.
  unfold scan_frac. destruct s as [|c s']; [by intros [= <- <-]|].
  destruct (Ascii.eqb c "."); [|by intros [= <- <-]].
  destruct (span_digits s') as [[|d0 d] r'] eqn:E; intros [= <- <-]; [done|].
  apply span_digits_length in E. simpl. lia.
Qed.

Lemma scan_exp_length (s e r : string) :
  scan_exp s = (e, r) → (String.length r ≤ String.length s)%nat.
Proof.
  unfold scan_exp. destruct s as [|c s']; [by intros [= <- <-]|].
  destruct (Ascii.eqb c "e" || Ascii.eqb c "E"); [|by intros [= <- <-]].
  assert (∀ sign s2, (String.length s2 ≤ String.length s')%nat →
    match span_digits s2 with
    | (EmptyString, _) => ("", String c s')
    | (d, r0) => (String c sign ++ d, r0)
    end = (e, r) → (String.length r ≤ String.length (String c s'))%nat) as H.
  { intros sign s2 Hle. destruct (span_digits s2) as [[|d0 d] r'] eqn:E;
      intros [= <- <-]; [done|]. apply span_digits_length in E. simpl. lia. }
  destruct s' as [|c' s'']; [apply (H "" ""); simpl; lia|].
  destruct (Ascii.eqb c' "+"); [apply (H "+" s''); simpl; lia|].
  destruct (Ascii.eqb c' "-");
    [apply (H "-" s'')|apply (H "" (String c' s''))]; simpl; lia.
Qed.

Lemma scan_number_length (s : string) (v : t) (r : string) :
  scan_number s = Some (v, r) → (String.length r < String.length s)%nat.
Proof.
  unfold scan_number.
  destruct (scan_int_part s) as [[i r1]|] eqn:Ei; [|discriminate].
  destruct (scan_frac r1) as [f r2] eqn:Ef.
  destruct (scan_exp r2) as [e r3] eqn:Ee.
  apply scan_int_part_length in Ei. apply scan_frac_length in Ef.
  apply scan_exp_length in Ee.
  destruct f, e; intros [= <- <-]; lia.
Qed.

Lemma scan_constant_length (s : string) (v : t) (r : string) :
  scan_constant s = Some (v, r) → (String.length r < String.length s)%nat.
Proof.
  unfold scan_constant.
  repeat match goal with
  | |- context [strip_prefix ?p s] =>
      destruct (strip_prefix p s) as [r'|] eqn:E;
      [apply strip_prefix_length in E; intros [= <- <-]; simpl in E; lia|clear E]
  | |- context [scan_number s] =>
      destruct (scan_number s) as [[v' r']|] eqn:E;
      [apply scan_number_length in E; intros [= <- <-]; lia|clear E]
  end.
  discriminate.
Qed.


Lemma skip_ws_cons (s : string) (d : ascii) (r : string) :
  skip_ws s = String d r → (String.length r < String.length s)%nat.
Proof.
  intros H. pose proof (skip_ws_length s) as Hl. rewrite H in Hl. simpl in Hl. lia.
Qed.

Lemma scan_once_S (f : nat) (s : string) :
  scan_once (S f) s =
  match s with
  | EmptyString => None
  | String c r =>
      if Ascii.eqb c "034" then
        match scan_string r with
        | Some (x, r') => Some (JStr x, r')
        | None => None
        end
      else if Ascii.eqb c "{" then
        match skip_ws r with
        | EmptyString => None
        | String d r' =>
            if Ascii.eqb d "}" then Some (JDict [], r')
            else if Ascii.eqb d "034" then
              match object_items f r' [] with
              | Some (pairs, r'') => Some (JDict (dict_of_pairs pairs), r'')
              | None => None
              end
            else None
        end
      else if Ascii.eqb c "[" then
        match skip_ws r with
        | EmptyString => None
        | String d r' =>
            if Ascii.eqb d "]" then Some (JList [], r')
            else
              match array_items f (String d r') [] with
              | Some (l, r'') => Some (JList l, r'')
              | None => None
              end
        end
      else scan_constant s
  end.
Proof. reflexivity. Qed.

Lemma array_items_S (f : nat) (s : string) (acc : list t) :
  array_items (S f) s acc =
  match scan_once f s with
  | None => None
  | Some (v, r) =>
      match skip_ws r with
      | EmptyString => None
      | String d r' =>
          if Ascii.eqb d "]" then Some (rev (v :: acc), r')
          else if Ascii.eqb d "," then array_items f (skip_ws r') (v :: acc)
          else None
      end
  end.
Proof. reflexivity. Qed.

Lemma object_items_S (f : nat) (s : string) (acc : list (string * t)) :
  object_items (S f) s acc =
  match scan_string s with
  | None => None
  | Some (k, r) =>
      match skip_ws r with
      | EmptyString => None
      | String d r1 =>
          if Ascii.eqb d ":" then
            match scan_once f (skip_ws r1) with
            | None => None
            | Some (v, r2) =>
                match skip_ws r2 with
                | EmptyString => None
                | String d2 r3 =>
                    if Ascii.eqb d2 "}" then Some (rev ((k, v) :: acc), r3)
                    else if Ascii.eqb d2 "," then
                      match skip_ws r3 with
                      | EmptyString => None
                      | String d3 r4 =>
                          if Ascii.eqb d3 "034" then object_items f r4 ((k, v) :: acc)
                          else None
                      end
                    else None
                end
            end
          else None
      end
  end.
Proof. reflexivity. Qed.

(** Every value, and every run of items, consumes a character at least. *)
Lemma scan_progress (f : nat) :
  (∀ s v r, scan_once f s = Some (v, r) →
     (String.length r < String.length s)%nat)
  ∧ (∀ s acc l r, array_items f s acc = Some (l, r) →
       (String.length r < String.length s)%nat)
  ∧ (∀ s acc l r, object_items f s acc = Some (l, r) →
       (String.length r < String.length s)%nat).
Proof.
  induction f as [|f (IHv & IHa & IHo)]; [by repeat split|].
  split; [|split].
  - intros s v r. rewrite scan_once_S. destruct s as [|c r0]; [discriminate|].
    destruct (Ascii.eqb c "034").
    { destruct (scan_string r0) as [[x r']|] eqn:E; [|discriminate].
      intros [= <- <-]. apply scan_string_length in E. simpl. lia. }
    destruct (Ascii.eqb c "{").
    { destruct (skip_ws r0) as [|d r'] eqn:Ew; [discriminate|].
      apply skip_ws_cons in Ew.
      destruct (Ascii.eqb d "}"); [intros [= <- <-]; simpl; lia|].
      destruct (Ascii.eqb d "034"); [|discriminate].
      destruct (object_items f r' []) as [[pairs r'']|] eqn:E; [|discriminate].
      intros [= <- <-]. apply IHo in E. simpl. lia. }
    destruct (Ascii.eqb c "[").
    { destruct (skip_ws r0) as [|d r'] eqn:Ew; [discriminate|].
      pose proof (skip_ws_length r0) as Hl. rewrite Ew in Hl.
      destruct (Ascii.eqb d "]"); [intros [= <- <-]; simpl in *; lia|].
      destruct (array_items f (String d r') []) as [[l r'']|] eqn:E; [|discriminate].
      intros [= <- <-]. apply IHa in E. simpl in *. lia. }
    apply scan_constant_length.
  - intros s acc l r. rewrite array_items_S.
    destruct (scan_once f s) as [[v r1]|] eqn:E; [|discriminate]. apply IHv in E.
    destruct (skip_ws r1) as [|d r'] eqn:Ew; [discriminate|].
    apply skip_ws_cons in Ew.
    destruct (Ascii.eqb d "]"); [intros [= <- <-]; lia|].
    destruct (Ascii.eqb d ","); [|discriminate].
    intros Hrec. apply IHa in Hrec. pose proof (skip_ws_length r'). lia.
  - intros s acc l r. rewrite object_items_S.
    destruct (scan_string s) as [[k r0]|] eqn:Ek; [|discriminate].
    apply scan_string_length in Ek.
    destruct (skip_ws r0) as [|d r1] eqn:Ew; [discriminate|].
    apply skip_ws_cons in Ew.
    destruct (Ascii.eqb d ":"); [|discriminate].
    destruct (scan_once f (skip_ws r1)) as [[v r2]|] eqn:E; [|discriminate].
    apply IHv in E. pose proof (skip_ws_length r1).
    destruct (skip_ws r2) as [|d2 r3] eqn:Ew2; [discriminate|].
    apply skip_ws_cons in Ew2.
    destruct (Ascii.eqb d2 "}"); [intros [= <- <-]; lia|].
    destruct (Ascii.eqb d2 ","); [|discriminate].
    destruct (skip_ws r3) as [|d3 r4] eqn:Ew3; [discriminate|].
    apply skip_ws_cons in Ew3.
    destruct (Ascii.eqb d3 "034"); [|discriminate].
    intros Hrec. apply IHo in Hrec. lia.
Qed.

(** With two units of fuel per character and one more (two more for a run
    of items), the fuel does not count: more of it gives the same result. *)
Lemma scan_fuel_enough (n : nat) :
  ∀ s, (String.length s ≤ n)%nat →
    (∀ f f', (2 * String.length s + 1 ≤ f)%nat → (2 * String.length s + 1 ≤ f')%nat →
       scan_once f s = scan_once f' s)
    ∧ (∀ acc f f',
         (2 * String.length s + 2 ≤ f)%nat → (2 * String.length s + 2 ≤ f')%nat →
         array_items f s acc = array_items f' s acc)
    ∧ (∀ acc f f',
         (2 * String.length s + 2 ≤ f)%nat → (2 * String.length s + 2 ≤ f')%nat →
         object_items f s acc = object_items f' s acc).
Proof.
  induction n as [n IH] using lt_wf_ind. intros s Hn.
  assert (∀ s', (String.length s' < String.length s)%nat →
    (∀ f f', (2 * String.length s' + 1 ≤ f)%nat → (2 * String.length s' + 1 ≤ f')%nat →
       scan_once f s' = scan_once f' s')
    ∧ (∀ acc f f',
         (2 * String.length s' + 2 ≤ f)%nat → (2 * String.length s' + 2 ≤ f')%nat →
         array_items f s' acc = array_items f' s' acc)
    ∧ (∀ acc f f',
         (2 * String.length s' + 2 ≤ f)%nat → (2 * String.length s' + 2 ≤ f')%nat →
         object_items f s' acc = object_items f' s' acc)) as IH'.
  { intros s' Hlt. apply (IH (String.length s')); lia. }
  clear IH.
  assert (∀ f f', (2 * String.length s + 1 ≤ f)%nat → (2 * String.length s + 1 ≤ f')%nat →
    scan_once f s = scan_once f' s) as Hv.
  { intros [|f] [|f'] Hf Hf'; try lia. rewrite !scan_once_S.
    destruct s as [|c r0]; [reflexivity|]. simpl in Hf, Hf'.
    destruct (Ascii.eqb c "034"); [reflexivity|].
    destruct (Ascii.eqb c "{").
    { destruct (skip_ws r0) as [|d r'] eqn:Ew; [reflexivity|].
      apply skip_ws_cons in Ew.
      destruct (Ascii.eqb d "}"); [reflexivity|].
      destruct (Ascii.eqb d "034"); [|reflexivity].
      destruct (IH' r' ltac:(simpl; lia)) as (_ & _ & Ho).
      rewrite (Ho [] f f') by lia. reflexivity. }
    destruct (Ascii.eqb c "["); [|reflexivity].
    destruct (skip_ws r0) as [|d r'] eqn:Ew; [reflexivity|].
    pose proof (skip_ws_length r0) as Hl. rewrite Ew in Hl.
    destruct (Ascii.eqb d "]"); [reflexivity|].
    destruct (IH' (String d r') ltac:(simpl in *; lia)) as (_ & Ha & _).
    rewrite (Ha [] f f') by (simpl in *; lia). reflexivity. }
  split; [exact Hv|]. split.
  - intros acc [|f] [|f'] Hf Hf'; try lia. rewrite !array_items_S.
    rewrite (Hv f f') by lia.
    destruct (scan_once f' s) as [[v r1]|] eqn:E; [|reflexivity].
    apply (proj1 (scan_progress f')) in E.
    destruct (skip_ws r1) as [|d r'] eqn:Ew; [reflexivity|].
    apply skip_ws_cons in Ew.
    destruct (Ascii.eqb d "]"); [reflexivity|].
    destruct (Ascii.eqb d ","); [|reflexivity].
    pose proof (skip_ws_length r').
    destruct (IH' (skip_ws r') ltac:(lia)) as (_ & Ha & _).
    apply Ha; lia.
  - intros acc [|f] [|f'] Hf Hf'; try lia. rewrite !object_items_S.
    destruct (scan_string s) as [[k r0]|] eqn:Ek; [|reflexivity].
    apply scan_string_length in Ek.
    destruct (skip_ws r0) as [|d r1] eqn:Ew; [reflexivity|].
    apply skip_ws_cons in Ew.
    destruct (Ascii.eqb d ":"); [|reflexivity].
    pose proof (skip_ws_length r1).
    destruct (IH' (skip_ws r1) ltac:(lia)) as (Hv' & _ & _).
    rewrite (Hv' f f') by lia.
    destruct (scan_once f' (skip_ws r1)) as [[v r2]|] eqn:E; [|reflexivity].
    apply (proj1 (scan_progress f')) in E.
    destruct (skip_ws r2) as [|d2 r3] eqn:Ew2; [reflexivity|].
    apply skip_ws_cons in Ew2.
    destruct (Ascii.eqb d2 "}"); [reflexivity|].
    destruct (Ascii.eqb d2 ","); [|reflexivity].
    destruct (skip_ws r3) as [|d3 r4] eqn:Ew3; [reflexivity|].
    apply skip_ws_cons in Ew3.
    destruct (Ascii.eqb d3 "034"); [|reflexivity].
    destruct (IH' r4 ltac:(lia)) as (_ & _ & Ho).
    apply Ho; lia.
Qed.

(** The fuel of [loads] is enough: a decoder with more fuel returns what
    [loads] returns. *)
Lemma loads_fuel (s : string) (fuel : nat) :
  (2 * String.length s + 2 ≤ fuel)%nat →
  match scan_once fuel (skip_ws s) with
  | Some (v, r) =>
      match skip_ws r with
      | EmptyString => Some v
      | _ => None
      end
  | None => None
  end = loads s.
Proof.
  intros Hf. unfold loads. pose proof (skip_ws_length s).
  destruct (scan_fuel_enough _ (skip_ws s) (le_n _)) as (Hv & _ & _).
  rewrite (Hv fuel (2 * String.length s + 2)%nat) by lia. reflexivity.
Qed.

End json_fuel.
(** ** The decoder with the limits of the interpreter *)

Section decoder.

Lemma agrees_None {A} : agrees (A := A) (Raise "JSONDecodeError") None.
Proof. by left. Qed.

Lemma scan_constant_agrees (s : string) :
  agrees (Decoder.scan_constant s) (Json.scan_constant s).
Proof.
  unfold Decoder.scan_constant.
  destruct (Json.scan_constant s) as [[v r]|]; [|apply agrees_None].
  destruct v; try reflexivity.
  destruct (10 ^ Decoder.max_str_digits <=? Z.abs n); [right; by left|reflexivity].
Qed.

Lemma scan_agrees (f : nat) :
  (∀ depth s, agrees (Decoder.scan_once f depth s) (Json.scan_once f s))
  ∧ (∀ depth s acc,
       agrees (Decoder.array_items f depth s acc) (Json.array_items f s acc))
  ∧ (∀ depth s acc,
       agrees (Decoder.object_items f depth s acc) (Json.object_items f s acc)).
Proof.
  induction f as [|f (IHv & IHa & IHo)].
  { repeat split; intros; apply agrees_None. }
  split; [|split].
  - intros depth s. cbn [Decoder.scan_once Json.scan_once].
    destruct s as [|c r]; [apply agrees_None|].
    destruct (Ascii.eqb c "034").
    { destruct (Json.scan_string r) as [[x r']|]; [reflexivity|apply agrees_None]. }
    destruct (Ascii.eqb c "{").
    { destruct depth as [|depth]; [right; by right|].
      destruct (Json.skip_ws r) as [|d r']; [apply agrees_None|].
      destruct (Ascii.eqb d "}"); [reflexivity|].
      destruct (Ascii.eqb d "034"); [|apply agrees_None].
      specialize (IHo depth r' []).
      destruct (Decoder.object_items f depth r' []) as [[pairs r'']|e];
        simpl in IHo |- *.
      - by rewrite IHo.
      - destruct IHo as [[-> ->]|IHo]; [by left|by right]. }
    destruct (Ascii.eqb c "[").
    { destruct depth as [|depth]; [right; by right|].
      destruct (Json.skip_ws r) as [|d r']; [apply agrees_None|].
      destruct (Ascii.eqb d "]"); [reflexivity|].
      specialize (IHa depth (String d r') []).
      destruct (Decoder.array_items f depth (String d r') []) as [[l r'']|e];
        simpl in IHa |- *.
      - by rewrite IHa.
      - destruct IHa as [[-> ->]|IHa]; [by left|by right]. }
    apply scan_constant_agrees.
  - intros depth s acc. cbn [Decoder.array_items Json.array_items].
    specialize (IHv depth s).
    destruct (Decoder.scan_once f depth s) as [[v r]|e]; simpl in IHv |- *.
    + rewrite IHv. destruct (Json.skip_ws r) as [|d r']; [apply agrees_None|].
      destruct (Ascii.eqb d "]"); [reflexivity|].
      destruct (Ascii.eqb d ","); [apply IHa|apply agrees_None].
    + destruct IHv as [[-> ->]|IHv]; [by left|by right].
  - intros depth s acc. cbn [Decoder.object_items Json.object_items].
    destruct (Json.scan_string s) as [[k r]|]; [|apply agrees_None].
    destruct (Json.skip_ws r) as [|d r1]; [apply agrees_None|].
    destruct (Ascii.eqb d ":"); [|apply agrees_None].
    specialize (IHv depth (Json.skip_ws r1)).
    destruct (Decoder.scan_once f depth (Json.skip_ws r1)) as [[v r2]|e];
      simpl in IHv |- *.
    + rewrite IHv. destruct (Json.skip_ws r2) as [|d2 r3]; [apply agrees_None|].
      destruct (Ascii.eqb d2 "}"); [reflexivity|].
      destruct (Ascii.eqb d2 ","); [|apply agrees_None].
      destruct (Json.skip_ws r3) as [|d3 r4]; [apply agrees_None|].
      destruct (Ascii.eqb d3 "034"); [apply IHo|apply agrees_None].
    + destruct IHv as [[-> ->]|IHv]; [by left|by right].
Qed.

(** What [Decoder.loads] gives is what [Json.loads] gives, unless a limit
    of the interpreter is met: the fuel never decides. *)
Lemma loads_agrees (max_depth : nat) (s : string) :
  agrees (Decoder.loads max_depth s) (Json.loads s).
Proof.
  unfold Decoder.loads, Json.loads.
  destruct (scan_agrees (2 * String.length s + 2)) as (Hv & _ & _).
  specialize (Hv max_depth (Json.skip_ws s)).
  destruct (Decoder.scan_once _ max_depth (Json.skip_ws s)) as [[v r]|e];
    simpl in Hv |- *.
  - rewrite Hv. destruct (Json.skip_ws r); [reflexivity|apply agrees_None].
  - destruct Hv as [[-> ->]|Hv]; [by left|by right].
Qed.

End decoder.

(** ** The enrichment source *)

(** C8.  The failures of [otop sessions] that the query absorbs, and the
    ones that it lets through.  When the executable is absent, the run
    times out, the exit status is not zero, or [json.loads] rejects the
    output with [JSONDecodeError], the query raises nothing and returns the
    empty list, which is what it returns when otop reports no session, and
    the enrichment built from no record is empty.  The query raises
    exactly when the run raises another exception, or when the run
    succeeds and [json.loads] raises another exception on its output,
    which is then the [ValueError] of a long integer or the
    [RecursionError] of a deep nesting. *)
Theorem query_opencode_sessions_failure (max_depth : nat) (result : subprocess_result)
    (context : SessionContext.t) (session_name : string) :
  (otop_failed max_depth result →
     query_opencode_sessions max_depth result = Ret (Json.JList [])
     ∧ (max_depth ≠ 0%nat →
        query_opencode_sessions max_depth result
        = query_opencode_sessions max_depth (Completed 0 "[]"))
     ∧ build_opencode_context [] context session_name = "")
  ∧ (∀ e, query_opencode_sessions max_depth result = Raise e ↔
       result = OtherError e
       ∨ ∃ stdout, result = Completed 0 stdout
           ∧ Decoder.loads max_depth stdout = Raise e
           ∧ (e = "ValueError" ∨ e = "RecursionError")).
Proof.
  split.
  - intros Hf.
    assert (query_opencode_sessions max_depth result = Ret (Json.JList [])) as E.
    { destruct result as [rc out| | |e]; simpl in *; try reflexivity; [|done].
      destruct (rc =? 0) eqn:Hrc; simpl; [|reflexivity].
      destruct Hf as [Hne|Hbad]; [apply Z.eqb_eq in Hrc; contradiction|].
      rewrite Hbad. reflexivity. }
    split; [exact E|]. split; [|reflexivity].
    intros Hd. rewrite E. destruct max_depth as [|d]; [done|].
    vm_compute. reflexivity.
  - intros e. destruct result as [rc out| | |e']; simpl.
    + destruct (Z.eqb_spec rc 0) as [->|Hrc]; simpl.
      * pose proof (loads_agrees max_depth out) as Ha.
        destruct (Decoder.loads max_depth out) as [v|e0] eqn:Hl; simpl in Ha.
        { split; [discriminate|]. intros [[=]|(stdout & [= <-] & Hr & _)].
          rewrite Hl in Hr. discriminate Hr. }
        destruct (String.eqb_spec e0 "JSONDecodeError") as [->|Hne].
        { split; [discriminate|]. intros [[=]|(stdout & [= <-] & Hr & He)].
          rewrite Hl in Hr. injection Hr as <-. by destruct He. }
        split.
        { intros [= <-]. right. exists out. split; [reflexivity|].
          split; [exact Hl|]. destruct Ha as [[-> _]|Ha]; [done|exact Ha]. }
        { intros [[=]|(stdout & [= <-] & Hr & _)]. rewrite Hl in Hr. exact Hr. }
      * split; [discriminate|]. intros [[=]|(stdout & [= Hz _] & _)]. contradiction.
    + split; [discriminate|]. by intros [[=]|(stdout & [=] & _)].
    + split; [discriminate|]. by intros [[=]|(stdout & [=] & _)].
    + split.
      * intros [= ->]. by left.
      * intros [[= ->]|(stdout & [=] & _)]. reflexivity.
Qed.

Lemma query_opencode_sessions_failure_witness :
  query_opencode_sessions 1000 (Completed 0 "not json") = Ret (Json.JList [])
  ∧ query_opencode_sessions 1000 (Completed 0 "not json")
    = query_opencode_sessions 1000 (Completed 0 "[]")
  ∧ build_opencode_context [] one_window_context "work" = "".
Proof.
  destruct (proj1 (query_opencode_sessions_failure 1000 (Completed 0 "not json")
                     one_window_context "work")) as (H1 & H2 & H3).
  - right. vm_compute. reflexivity.
  - split; [exact H1|]. split; [apply H2; discriminate|exact H3].
Defined.

(** The claim fails for an output that is not UTF-8, for which the run
    raises [UnicodeDecodeError], and for an output with an integer of 4301
    digits, at which [json.loads] raises [ValueError]: the query lets both
    through to its caller. *)
Lemma query_opencode_sessions_escalates :
  query_opencode_sessions 1000 (OtherError "UnicodeDecodeError")
  = Raise "UnicodeDecodeError"
  ∧ query_opencode_sessions 1000 (Completed 0 long_integer_output)
    = Raise "ValueError".
Proof. split; [reflexivity|vm_compute; reflexivity]. Qed.
(** ** The validator on the plan that [json.loads] returns *)

Section raw_validator.

Variable floats : Floats.t.

Lemma distinct_step (seen : list Z) (n : Z) :
  existsb (Py.same floats (Json.JInt n)) (map Json.JInt seen) = bool_decide (n ∈ seen).
Proof.
  induction seen as [|m seen IH]; [reflexivity|]. simpl. rewrite IH.
  destruct (Z.eqb_spec n m) as [->|Hne].
  - symmetry. apply bool_decide_eq_true. left.
  - simpl. apply bool_decide_ext. rewrite elem_of_cons. tauto.
Qed.

(** The elements of a list of integers as a set: its distinct elements. *)
Lemma distinct_integers (l seen : list Z) :
  NoDup seen →
  ∃ out, fold_left (fun seen x => if existsb (Py.same floats x) seen then seen
                                  else (seen ++ [x])%list)
           (map Json.JInt l) (map Json.JInt seen) = map Json.JInt out
         ∧ NoDup out ∧ ∀ n, n ∈ out ↔ n ∈ seen ∨ n ∈ l.
Proof.
  revert seen. induction l as [|x l IH]; intros seen Hseen.
  - exists seen. split; [reflexivity|]. split; [exact Hseen|]. intros n.
    rewrite elem_of_nil. tauto.
  - simpl. rewrite distinct_step. case_bool_decide as Hx.
    + destruct (IH seen Hseen) as (out & E & Hnd & Hout). exists out.
      split; [exact E|]. split; [exact Hnd|]. intros n. rewrite Hout, elem_of_cons.
      split; [tauto|]. intros [H|[->|H]]; tauto.
    + destruct (IH (seen ++ [x])%list) as (out & E & Hnd & Hout).
      { apply NoDup_app. split; [exact Hseen|]. split; [|apply NoDup_singleton].
        intros y Hy ->%list_elem_of_singleton. contradiction. }
      exists out. rewrite map_app in E. split; [exact E|]. split; [exact Hnd|].
      intros n. rewrite Hout, elem_of_app, list_elem_of_singleton, elem_of_cons. tauto.
Qed.

Lemma length_distinct_integers (l : list Z) :
  length (Py.distinct floats (map Json.JInt l)) = size (list_to_set l : gset Z).
Proof.
  unfold Py.distinct.
  destruct (distinct_integers l [] (NoDup_nil_2)) as (out & E & Hnd & Hout).
  cbn [map] in E. rewrite E, length_map.
  rewrite <- (size_list_to_set (C := gset Z) out) by exact Hnd. f_equal.
  apply set_eq. intros n. rewrite !elem_of_list_to_set, Hout, elem_of_nil. tauto.
Qed.

Lemma each_ids (entries : list Json.t) (windows : list WindowPlan.t) :
  Forall2 (fun entry window => entry_plan entry = Some window) entries windows →
  each Raw.id_of entries = Ret (map (fun w => Json.JStr (WindowPlan.id w)) windows)
  ∧ each (fun w => Py.getitem w "index") entries
    = Ret (map (fun w => Json.JInt (WindowPlan.index w)) windows).
Proof.
  induction 1 as [|entry window entries windows He _ [IH1 IH2]]; [done|].
  cbn [each map]. rewrite IH1, IH2. unfold entry_plan in He.
  destruct entry as [| | | | | |m]; try discriminate.
  unfold Raw.id_of, Py.getitem.
  destruct (Py.item "id" m) as [[| | | |id| |]|]; try discriminate.
  destruct (Py.item "index" m) as [[| |index| | | |]|]; try discriminate.
  injection He as <-. done.
Qed.

Lemma each_texts (ids : list string) :
  each (fun id => match Raw.text_of id with
                  | Some s => Ret s
                  | None => Raise "TypeError"
                  end) (map Json.JStr ids) = Ret ids.
Proof. induction ids as [|id ids IH]; [done|]. cbn [each map Raw.text_of]. by rewrite IH. Qed.

(** On a plan with its two keys whose entries have a string id and an
    integer index, the validator is the validator of the records. *)
Lemma validate_plan_of_records (plan : list (string * Json.t)) (context : SessionContext.t)
    (entries : list Json.t) (windows : list WindowPlan.t) :
  Py.item "session" plan ≠ None →
  Py.item "windows" plan = Some (Json.JList entries) →
  Forall2 (fun entry window => entry_plan entry = Some window) entries windows →
  Raw.validate_plan floats (Json.JDict plan) context
  = Ret (validate_plan (OrganizePlan.mk (Some "") (Some windows)) context).
Proof.
  intros Hs Hw He. unfold Raw.validate_plan, validate_plan.
  cbn [Py.contains Py.getitem mbind outcome_bind OrganizePlan.session
       OrganizePlan.windows].
  destruct (Py.item "session" plan); [|contradiction]. rewrite Hw.
  cbn [andb negb Py.iterate mbind outcome_bind].
  destruct (each_ids entries windows He) as [-> ->].
  cbn [mbind outcome_bind].
  rewrite <- (map_map WindowPlan.id Json.JStr), each_texts.
  rewrite <- (map_map WindowPlan.index Json.JInt).
  case_bool_decide; [reflexivity|].
  assert (forallb Py.hashable (map Json.JInt (map WindowPlan.index windows)) = true)
    as ->.
  { apply forallb_forall. intros x [n [<- _]]%in_map_iff. reflexivity. }
  cbn [negb]. rewrite length_distinct_integers, !length_map.
  repeat case_bool_decide; reflexivity || (exfalso; rewrite !length_map in *; tauto).
Qed.

(** C2, as the code has it.  A plan that lacks one of its two keys is
    rejected for that.  For a plan that has them and whose entries have a
    string for their id and an integer for their index, validation succeeds
    exactly when the ids of the plan and of the context are the same set
    and the plan's indices are pairwise distinct.  When the sets differ
    the diagnostic lists, sorted, the ids of the context that the plan
    misses and the ids of the plan that the context does not have; when
    only the indices repeat the diagnostic says so. *)
Theorem validate_plan_complete (plan : list (string * Json.t))
    (context : SessionContext.t) :
  (Py.item "session" plan = None ∨ Py.item "windows" plan = None →
   Raw.validate_plan floats (Json.JDict plan) context
   = Ret (Some "missing session/windows keys"))
  ∧ ∀ (entries : list Json.t) (windows : list WindowPlan.t),
      Py.item "session" plan ≠ None →
      Py.item "windows" plan = Some (Json.JList entries) →
      Forall2 (fun entry window => entry_plan entry = Some window) entries windows →
      (Raw.validate_plan floats (Json.JDict plan) context = Ret None ↔
         context_ids context = plan_ids windows
         ∧ NoDup (map WindowPlan.index windows))
      ∧ (context_ids context ≠ plan_ids windows →
         ∃ missing extra : list string,
           (∀ i, i ∈ missing ↔ i ∈ context_ids context ∧ i ∉ plan_ids windows)
           ∧ (∀ i, i ∈ extra ↔ i ∈ plan_ids windows ∧ i ∉ context_ids context)
           ∧ StronglySorted String.le missing ∧ StronglySorted String.le extra
           ∧ (missing ≠ [] ∨ extra ≠ [])
           ∧ Raw.validate_plan floats (Json.JDict plan) context =
               Ret (Some ("window id mismatch: " ++
                          String.concat "; "
                            (named "missing" missing ++ named "extra" extra)%list)))
      ∧ (context_ids context = plan_ids windows →
         ¬ NoDup (map WindowPlan.index windows) →
         Raw.validate_plan floats (Json.JDict plan) context
         = Ret (Some "duplicate indices")).
Proof.
  split.
  - intros Hmissing. unfold Raw.validate_plan.
    cbn [Py.contains mbind outcome_bind].
    destruct (Py.item "session" plan); [|reflexivity].
    destruct Hmissing as [[=]| ->]. reflexivity.
  - intros entries windows Hs Hw He.
    rewrite (validate_plan_of_records plan context entries windows Hs Hw He).
    destruct (validate_plan_records "" windows context) as (H1 & H2 & H3).
    split; [|split].
    + rewrite <- H1. split; [by intros [= ->]|by intros ->].
    + intros Hne. destruct (H2 Hne) as (missing & extra & ? & ? & ? & ? & ? & ->).
      by exists missing, extra.
    + intros Heq Hdup. by rewrite (H3 Heq Hdup).
Qed.

End raw_validator.

Lemma validate_plan_complete_witness :
  Raw.validate_plan no_floats (Json.JDict plan_json_repeated_index) one_window_context
  = Ret (Some "duplicate indices").
Proof.
  apply (proj2 (proj2 (proj2 (validate_plan_complete no_floats plan_json_repeated_index
                                one_window_context)
                         _ [WindowPlan.mk "@1" "code" 0; WindowPlan.mk "@1" "" 0]
                         ltac:(discriminate) eq_refl
                         ltac:(repeat constructor)))).
  - vm_compute. reflexivity.
  - intros H. apply NoDup_cons in H as [H _]. apply H. simpl. left.
Defined.

(** The claim fails for a plan that lacks the key [session]: its ids are
    the ids of the context and its indices are pairwise distinct, and it is
    rejected, for a cause that is none of the three. *)
Lemma validate_plan_rejects_missing_session :
  plan_json_without_session
  = Json.JDict [("windows", Json.JList [Raw.window_json (WindowPlan.mk "@1" "code" 0)])]
  ∧ context_ids one_window_context = plan_ids [WindowPlan.mk "@1" "code" 0]
  ∧ NoDup (map WindowPlan.index [WindowPlan.mk "@1" "code" 0])
  ∧ Raw.validate_plan no_floats plan_json_without_session one_window_context
    = Ret (Some "missing session/windows keys").
Proof.
  split; [reflexivity|]. split; [vm_compute; reflexivity|].
  split; [|reflexivity]. repeat constructor. apply not_elem_of_nil.
Qed.
(** ** The plan parser: the span that is parsed *)

Section extraction.

Lemma app_cons (c : ascii) (s t : string) : String c s ++ t = String c (s ++ t).
Proof. reflexivity. Qed.

Lemma app_nil_r (s : string) : s ++ "" = s.
Proof. induction s as [|c s IH]; [reflexivity|]. by rewrite app_cons, IH. Qed.

Lemma app_assoc (s t u : string) : (s ++ t) ++ u = s ++ t ++ u.
Proof. induction s as [|c s IH]; [reflexivity|]. by rewrite !app_cons, IH. Qed.

Lemma length_app (s t : string) :
  String.length (s ++ t) = (String.length s + String.length t)%nat.
Proof. induction s as [|c s IH]; [reflexivity|]. rewrite app_cons. simpl. by rewrite IH. Qed.

Lemma brace_depth_app (s t : string) :
  brace_depth (s ++ t) = brace_depth s + brace_depth t.
Proof.
  induction s as [|c s IH]; [reflexivity|]. rewrite app_cons. simpl. rewrite IH. lia.
Qed.

Lemma substring_prefix (s t : string) :
  String.substring 0 (String.length s) (s ++ t) = s.
Proof.
  induction s as [|c s IH]; simpl.
  - destruct t; reflexivity.
  - by rewrite IH.
Qed.

(** [text[len(pre) : len(pre) + len(span)]] of [pre + span + post]. *)
Lemma slice_middle (pre span post : string) :
  PyStr.slice (String.length pre) (String.length pre + String.length span)
    (pre ++ span ++ post) = span.
Proof.
  unfold PyStr.slice.
  replace (String.length pre + String.length span - String.length pre)%nat
    with (String.length span) by lia.
  induction pre as [|c pre IH]; [exact (substring_prefix span post)|].
  rewrite app_cons. simpl. exact IH.
Qed.

Lemma contains_cons (c d : ascii) (s : string) :
  PyStr.contains c (String d s) = if Ascii.eqb c d then true else PyStr.contains c s.
Proof. reflexivity. Qed.

Lemma find_cons (c d : ascii) (s : string) :
  find c (String d s) = if Ascii.eqb c d then Some O else option_map S (find c s).
Proof. reflexivity. Qed.

Lemma find_app (pre r : string) :
  PyStr.contains "{" pre = false →
  find "{" (pre ++ String "{" r) = Some (String.length pre)
  ∧ drop_chars (String.length pre) (pre ++ String "{" r) = String "{" r.
Proof.
  intros Hpre. induction pre as [|c pre IH]; [by split|].
  rewrite app_cons, find_cons. rewrite contains_cons in Hpre.
  destruct (Ascii.eqb "{" c); [discriminate Hpre|].
  destruct (IH Hpre) as [-> Hd]. by split.
Qed.

Lemma find_Some (text : string) (start : nat) :
  find "{" text = Some start →
  ∃ pre r, text = pre ++ String "{" r ∧ PyStr.contains "{" pre = false
    ∧ start = String.length pre
    ∧ drop_chars start text = String "{" r.
Proof.
  revert start. induction text as [|c text IH]; intros start; [discriminate|].
  rewrite find_cons.
  destruct (Ascii.eqb_spec "{" c) as [<-|Hc].
  - intros [= <-]. by exists "", text.
  - destruct (find "{" text) as [n|]; [|discriminate]. intros [= <-].
    destruct (IH n eq_refl) as (pre & r & -> & Hpre & -> & Hd).
    exists (String c pre), r. rewrite contains_cons.
    destruct (Ascii.eqb_spec "{" c); [done|]. by repeat split.
Qed.

Lemma brace_depth_snoc (s : string) (c : ascii) :
  brace_depth (s ++ String c "") = brace_depth s + brace_step c.
Proof. rewrite brace_depth_app. simpl. unfold brace_step. lia. Qed.

(** One turn of the loop of [extract_json_from_output]. *)
Lemma scan_braces_step (text : string) (start : nat) (c : ascii) (rest : string)
    (i : nat) (depth : Z) :
  scan_braces text start (String c rest) i depth =
  if Ascii.eqb c "}" && (depth + brace_step c =? 0)
  then Json.loads (PyStr.slice start (i + 1) text)
  else scan_braces text start rest (i + 1) (depth + brace_step c).
Proof.
  simpl. unfold brace_step.
  destruct (Ascii.eqb_spec c "{") as [->|Hn]; simpl.
  - replace (depth + 1) with (depth + 1) by lia. reflexivity.
  - destruct (Ascii.eqb c "}"); simpl.
    + replace (depth - 1) with (depth + -1) by lia. reflexivity.
    + replace (depth + 0) with depth by lia. reflexivity.
Qed.

Lemma prefix_of_snoc (seen : string) (c : ascii) (p q : string) :
  seen ++ String c "" = p ++ q → q ≠ "" → ∃ q', seen = p ++ q'.
Proof.
  revert p. induction seen as [|d seen IH]; intros p H Hq.
  - destruct p as [|x p]; [by exists ""|].
    rewrite app_cons in H. injection H as -> H.
    destruct p; [|discriminate]. by destruct q.
  - destruct p as [|x p]; [by eexists|].
    rewrite !app_cons in H. injection H as -> H.
    destruct (IH p H Hq) as [q' ->]. by exists q'.
Qed.

(** The loop, once it is inside a balanced span, runs to the end of the
    span and parses it. *)
Lemma scan_braces_balanced (text : string) (start : nat) (span post : string) :
  balanced_span span →
  ∀ rest seen,
    span = seen ++ rest → rest ≠ "" →
    scan_braces text start (rest ++ post) (start + String.length seen)
      (brace_depth seen)
    = Json.loads (PyStr.slice start (start + String.length span) text).
Proof.
  intros ([r Hopen] & Hzero & Hpos).
  induction rest as [|c rest IH]; intros seen Hspan Hne; [done|].
  rewrite app_cons, scan_braces_step, <- brace_depth_snoc.
  assert (span = (seen ++ String c "") ++ rest) as Hspan'
    by (by rewrite app_assoc).
  destruct (Ascii.eqb c "}" && (brace_depth (seen ++ String c "") =? 0)) eqn:Hret.
  - apply andb_true_iff in Hret as [_ Hd]. apply Z.eqb_eq in Hd.
    destruct rest as [|c' rest].
    + rewrite Hspan, length_app. simpl. do 2 f_equal. lia.
    + specialize (Hpos _ _ Hspan' ltac:(by destruct seen) ltac:(done)). lia.
  - assert (rest ≠ "") as Hrest.
    { intros ->. rewrite app_nil_r in Hspan'. rewrite <- Hspan' in Hret.
      rewrite Hzero in Hret. simpl in Hret. rewrite andb_true_r in Hret.
      destruct seen as [|d seen].
      - simpl in Hspan. rewrite Hspan in Hopen. injection Hopen as -> _.
        rewrite Hspan in Hzero. discriminate Hzero.
      - specialize (Hpos (String d seen) (String c "") Hspan ltac:(done) ltac:(done)).
        rewrite Hspan, brace_depth_snoc in Hzero. unfold brace_step in Hzero.
        destruct (Ascii.eqb c "{"); [lia|]. rewrite Hret in Hzero. lia. }
    specialize (IH (seen ++ String c "") Hspan' Hrest).
    rewrite length_app in IH. simpl in IH.
    replace (start + String.length seen + 1)%nat
      with (start + (String.length seen + 1))%nat by lia.
    exact IH.
Qed.

(** When the loop returns a value, it has run to the end of a balanced
    span. *)
Lemma scan_braces_Some (text : string) (start : nat) (v : Json.t) :
  ∀ rest seen i depth,
    (seen = "" → ∃ r, rest = String "{" r) →
    (seen ≠ "" → ∃ r', seen = String "{" r') →
    (∀ p q, seen = p ++ q → p ≠ "" → 0 < brace_depth p) →
    depth = brace_depth seen →
    scan_braces text start rest i depth = Some v →
    ∃ span post, seen ++ rest = span ++ post ∧ balanced_span span.
Proof.
  induction rest as [|c rest IH]; intros seen i depth Hfirst Hopen Hpos -> Hv;
    [discriminate|].
  rewrite scan_braces_step, <- brace_depth_snoc in Hv.
  assert (seen ≠ "" → 0 < brace_depth seen) as Hdone.
  { intros Hne. apply (Hpos seen ""); [by rewrite app_nil_r|exact Hne]. }
  assert (∃ r', seen ++ String c "" = String "{" r') as Hopen'.
  { destruct seen as [|d seen].
    - destruct (Hfirst eq_refl) as [r [= -> ->]]. by eexists.
    - destruct (Hopen ltac:(done)) as [r' [= -> ->]]. by eexists. }
  destruct (Ascii.eqb c "}" && (brace_depth (seen ++ String c "") =? 0)) eqn:Hret.
  - apply andb_true_iff in Hret as [_ Hd]. apply Z.eqb_eq in Hd.
    exists (seen ++ String c ""), rest. split; [by rewrite app_assoc|].
    split; [exact Hopen'|]. split; [exact Hd|].
    intros p q Hpq Hp Hq. destruct (prefix_of_snoc _ _ _ _ Hpq Hq) as [q' ->].
    by apply (Hpos p q').
  - destruct (IH (seen ++ String c "") (i + 1)%nat (brace_depth (seen ++ String c "")))
      as (span & post & Heq & Hbal); try done.
    + intros He. by destruct seen.
    + intros p q Hpq Hp.
      destruct q as [|x q].
      * rewrite app_nil_r in Hpq. subst p.
        rewrite brace_depth_snoc in Hret |- *. unfold brace_step in Hret |- *.
        destruct seen as [|d seen].
        { destruct (Hfirst eq_refl) as [r [= -> ->]]. simpl. lia. }
        specialize (Hdone ltac:(done)).
        destruct (Ascii.eqb c "{") eqn:E1; [lia|].
        destruct (Ascii.eqb c "}") eqn:E2; [|lia].
        apply andb_false_iff in Hret as [[=]|Hret].
        apply Z.eqb_neq in Hret. lia.
      * destruct (prefix_of_snoc _ _ _ _ Hpq ltac:(done)) as [q' ->].
        by apply (Hpos p q').
    + exists span, post. split; [|exact Hbal]. by rewrite <- Heq, app_assoc.
Qed.


(** [balanced_span] by one pass over the span. *)
Lemma balanced_span_check_sound (span : string) :
  (∃ r, span = String "{" r) → balanced_span_check span 0 = true →
  balanced_span span.
Proof.
  intros Hopen Hcheck. split; [exact Hopen|].
  cut (∀ rest seen,
    span = seen ++ rest →
    balanced_span_check rest (brace_depth seen) = true →
    (∀ p q, seen = p ++ q → p ≠ "" → 0 < brace_depth p) →
    brace_depth span = 0
    ∧ ∀ p q, span = p ++ q → p ≠ "" → q ≠ "" → 0 < brace_depth p).
  { intros H. apply (H span ""); [reflexivity|exact Hcheck|].
    intros p q Hpq Hp. by destruct p. }
  induction rest as [|c rest IH]; intros seen Hspan Hc Hpos; [discriminate|].
  assert (span = (seen ++ String c "") ++ rest) as Hspan'
    by (by rewrite app_assoc).
  simpl in Hc. fold (brace_step c) in Hc. rewrite <- brace_depth_snoc in Hc.
  destruct rest as [|c' rest].
  - apply Z.eqb_eq in Hc. rewrite app_nil_r in Hspan'. split; [by rewrite Hspan'|].
    intros p q Hpq Hp Hq. rewrite Hspan' in Hpq.
    destruct (prefix_of_snoc _ _ _ _ Hpq Hq) as [q' ->]. by apply (Hpos p q').
  - apply andb_true_iff in Hc as [Hd Hc]. apply Z.ltb_lt in Hd.
    apply (IH (seen ++ String c "")); [exact Hspan'|exact Hc|].
    intros p q Hpq Hp. destruct q as [|x q].
    + rewrite app_nil_r in Hpq. by subst p.
    + destruct (prefix_of_snoc _ _ _ _ Hpq ltac:(done)) as [q' ->].
      by apply (Hpos p q').
Qed.

(** The one span of the extraction.  The extraction parses one span: the one from
    the first opening brace to the character at which the count of braces
    is first back to zero, whatever prose is around it, and returns its
    value, or nothing when it is not JSON; when the text has no such span
    it returns nothing.  Nothing is reported as [no json in model output].
    For the example of the specification the value is the plan. *)
Theorem extract_json_first_span :
  (∀ pre span post,
     PyStr.contains "{" pre = false → balanced_span span →
     extract_json_from_output (pre ++ span ++ post) = Json.loads span)
  ∧ (∀ text,
       (∀ pre span post, text = pre ++ span ++ post →
          PyStr.contains "{" pre = false → ¬ balanced_span span) →
       extract_json_from_output text = None)
  ∧ (∀ returncode stdout,
       extract_json_from_output stdout = None →
       ask_model_for_plan (Completed returncode stdout) =
         Ret (None, Some "no json in model output"))
  ∧ extract_json_from_output example_output =
      Some (Json.JDict [("session", Json.JStr "x"); ("windows", Json.JList [])]).
Proof.
  split; [|split; [|split]].
  - intros pre span post Hpre Hbal.
    pose proof Hbal as ([r ->] & _ & _).
    unfold extract_json_from_output.
    change (pre ++ String "{" r ++ post) with (pre ++ String "{" (r ++ post)).
    destruct (find_app pre (r ++ post) Hpre) as [Hf Hd].
    rewrite Hf, Hd.
    pose proof (scan_braces_balanced (pre ++ String "{" (r ++ post))
      (String.length pre) (String "{" r) post Hbal (String "{" r) "" eq_refl
      ltac:(done)) as Hs.
    change (brace_depth "") with 0 in Hs.
    change (String.length "") with 0%nat in Hs.
    rewrite Nat.add_0_r in Hs.
    change (String "{" r ++ post) with (String "{" (r ++ post)) in Hs.
    rewrite Hs. f_equal. apply (slice_middle pre (String "{" r) post).
  - intros text Hnone. unfold extract_json_from_output.
    destruct (find "{" text) as [start|] eqn:Hf; [|reflexivity].
    destruct (find_Some _ _ Hf) as (pre & r & -> & Hpre & -> & Hd).
    rewrite Hd.
    destruct (scan_braces (pre ++ String "{" r) (String.length pre) (String "{" r)
                (String.length pre) 0) as [v|] eqn:Hs; [exfalso|reflexivity].
    destruct (scan_braces_Some _ _ _ (String "{" r) "" _ 0
                ltac:(intros _; by eexists) ltac:(done)
                ltac:(intros p q Hpq Hp; by destruct p) eq_refl Hs)
      as (span & post & Heq & Hbal).
    apply (Hnone pre span post); [|exact Hpre|exact Hbal].
    change ("" ++ String "{" r) with (String "{" r) in Heq. by rewrite Heq.
  - intros returncode stdout H. simpl. by rewrite H.
  - vm_compute. reflexivity.
Qed.

Lemma extract_json_first_span_witness :
  extract_json_from_output example_output = Json.loads example_object.
Proof.
  apply (proj1 extract_json_first_span "here's the plan: " example_object " thanks!").
  - vm_compute. reflexivity.
  - apply balanced_span_check_sound; [by eexists|vm_compute; reflexivity].
Defined.

(** C5.  A brace-delimited span that is not JSON before the plan: the
    first span balances and does not parse, the plan is a balanced span
    that parses, and the extraction returns nothing, where the claim has
    the plan. *)
Lemma extract_json_misses_later_object :
  prose_with_braces = "{x} " ++ example_object
  ∧ balanced_span "{x}" ∧ Json.loads "{x}" = None
  ∧ balanced_span example_object
  ∧ Json.loads example_object =
      Some (Json.JDict [("session", Json.JStr "x"); ("windows", Json.JList [])])
  ∧ extract_json_from_output prose_with_braces = None
  ∧ ask_model_for_plan (Completed 0 prose_with_braces) =
      Ret (None, Some "no json in model output").
Proof.
  split; [reflexivity|]. split.
  { apply balanced_span_check_sound; [by eexists|vm_compute; reflexivity]. }
  split; [vm_compute; reflexivity|]. split.
  { apply balanced_span_check_sound; [by eexists|vm_compute; reflexivity]. }
  repeat split; vm_compute; reflexivity.
Qed.

End extraction.

(** ** The plan cache: the fingerprint *)

Section fingerprint.

Lemma length_string_of_list_ascii (l : list ascii) :
  String.length (string_of_list_ascii l) = length l.
Proof. induction l as [|c l IH]; simpl; [reflexivity|]. by rewrite IH. Qed.

Lemma hex_digit_is_hex (n : Z) : is_hex (SHA256.hex_digit n) = true.
Proof.
  destruct n as [|p|p]; try reflexivity.
  do 4 (destruct p as [p|p|]; try reflexivity).
Qed.

Lemma hex32_is_hex (w : Z) : Forall (fun c => is_hex c = true) (SHA256.hex32 w).
Proof. unfold SHA256.hex32. repeat constructor; apply hex_digit_is_hex. Qed.

(** The first sixteen characters of the digest are the first two words of
    the chaining value, in hexadecimal. *)
Lemma prefix_16_hexdigest (s : string) :
  PyStr.prefix 16 (SHA256.hexdigest s) =
  string_of_list_ascii
    (SHA256.hex32 (SHA256.sa (SHA256.digest (PyStr.bytes s))) ++
     SHA256.hex32 (SHA256.sb (SHA256.digest (PyStr.bytes s)))).
Proof.
  unfold SHA256.hexdigest. generalize (SHA256.digest (PyStr.bytes s)).
  intros [a b c d e f g h]. reflexivity.
Qed.

Lemma stable_part_spec (window : WindowContext.t) :
  ∃ descriptors,
    descriptors ≡ₚ map pane_fingerprint (WindowContext.panes window)
    ∧ StronglySorted String.le descriptors
    ∧ stable_part window =
        WindowContext.name window ++ "|" ++ String.concat "|" descriptors.
Proof.
  exists (PyStr.sorted (map pane_fingerprint (WindowContext.panes window))).
  split; [apply sorted_Permutation|]. split; [apply sorted_StronglySorted|].
  reflexivity.
Qed.




(** *** What the fingerprint depends on *)

Lemma stable_part_pane_order (w w' : WindowContext.t) :
  WindowContext.name w = WindowContext.name w' →
  WindowContext.panes w ≡ₚ WindowContext.panes w' →
  stable_part w = stable_part w'.
Proof.
  intros Hn Hp. unfold stable_part. rewrite Hn. do 3 f_equal.
  apply sorted_perm_eq. by apply Permutation_map.
Qed.

Lemma app_inv_tail (s1 s2 t : string) : s1 ++ t = s2 ++ t → s1 = s2.
Proof.
  revert s2. induction s1 as [|c s1 IH]; intros [|d s2] H.
  - reflexivity.
  - apply (f_equal String.length) in H. rewrite !length_app in H. simpl in H. lia.
  - apply (f_equal String.length) in H. rewrite !length_app in H. simpl in H. lia.
  - rewrite !app_cons in H. injection H as -> H. f_equal. by apply IH.
Qed.

(** Two texts without the separator, each followed by the separator, are
    told apart by what precedes the first separator. *)
Lemma split_at_sep (c : ascii) (x y r1 r2 : string) :
  PyStr.contains c x = false → PyStr.contains c y = false →
  x ++ String c r1 = y ++ String c r2 → x = y ∧ r1 = r2.
Proof.
  revert y. induction x as [|a x IH]; intros [|b y] Hx Hy H.
  - by injection H as ->.
  - rewrite app_cons in H. injection H as <- _.
    rewrite contains_cons, Ascii.eqb_refl in Hy. discriminate.
  - rewrite app_cons in H. injection H as -> _.
    rewrite contains_cons, Ascii.eqb_refl in Hx. discriminate.
  - rewrite !app_cons in H. injection H as -> H.
    rewrite contains_cons in Hx, Hy.
    destruct (Ascii.eqb c b); [discriminate|].
    destruct (IH y Hx Hy H) as [-> ->]. by split.
Qed.

Lemma concat_cons2 (sep x y : string) (l : list string) :
  String.concat sep (x :: y :: l) = x ++ sep ++ String.concat sep (y :: l).
Proof. reflexivity. Qed.

(** [sep.join] is injective on lists of one length whose elements do not
    hold the separator. *)
Lemma concat_sep_inj (c : ascii) (l1 l2 : list string) :
  length l1 = length l2 →
  Forall (fun s => PyStr.contains c s = false) l1 →
  Forall (fun s => PyStr.contains c s = false) l2 →
  String.concat (String c "") l1 = String.concat (String c "") l2 → l1 = l2.
Proof.
  revert l2. induction l1 as [|x l1 IH]; intros [|y l2] Hlen H1 H2 H;
    try discriminate; [reflexivity|].
  apply Forall_cons in H1 as [Hx H1]. apply Forall_cons in H2 as [Hy H2].
  destruct l1 as [|x' l1], l2 as [|y' l2]; try discriminate.
  - simpl in H. by subst.
  - rewrite !concat_cons2 in H.
    destruct (split_at_sep c x y _ _ Hx Hy H) as [-> Hr].
    f_equal. apply IH; [|done|done|exact Hr].
    simpl in Hlen |- *. lia.
Qed.

Lemma raw_key_inj (path oc : string) (sid sid' : string)
    (ws ws' : list WindowContext.t) :
  raw_key (SessionContext.mk sid path ws) oc =
  raw_key (SessionContext.mk sid' path ws') oc →
  String.concat ";" (map stable_part ws) = String.concat ";" (map stable_part ws').
Proof.
  unfold raw_key. simpl. intros H.
  apply (inj (String.append path)) in H. apply (inj (String.append ";")) in H.
  by apply app_inv_tail in H.
Qed.

(** C4, as the code has it.  The key is a function of its arguments; it
    does not change when the panes of windows are permuted; it does not
    change either when the windows are permuted and their parts, in order,
    are the same as before; and when the parts in order are not the same,
    and none holds a semicolon, the text that is hashed is not the same. *)
Theorem build_cache_key_invariance :
  (∀ context opencode_context,
     build_cache_key context opencode_context =
     build_cache_key context opencode_context)
  ∧ (∀ sid sid' path ws ws' opencode_context,
       Forall2 (fun w w' =>
                  WindowContext.name w = WindowContext.name w'
                  ∧ WindowContext.panes w ≡ₚ WindowContext.panes w') ws ws' →
       build_cache_key (SessionContext.mk sid path ws) opencode_context =
       build_cache_key (SessionContext.mk sid' path ws') opencode_context)
  ∧ (∀ sid path ws ws' opencode_context,
       ws ≡ₚ ws' → map stable_part ws = map stable_part ws' →
       build_cache_key (SessionContext.mk sid path ws) opencode_context =
       build_cache_key (SessionContext.mk sid path ws') opencode_context)
  ∧ (∀ sid path ws ws' opencode_context,
       ws ≡ₚ ws' → map stable_part ws ≠ map stable_part ws' →
       Forall (fun w => PyStr.contains ";" (stable_part w) = false) ws →
       raw_key (SessionContext.mk sid path ws) opencode_context ≠
       raw_key (SessionContext.mk sid path ws') opencode_context).
Proof.
  split; [reflexivity|]. split; [|split].
  - intros sid sid' path ws ws' oc H.
    assert (map stable_part ws = map stable_part ws') as E.
    { induction H as [|w w' ws ws' [Hn Hp] _ IH]; [reflexivity|].
      simpl. f_equal; [by apply stable_part_pane_order|exact IH]. }
    unfold build_cache_key, raw_key. simpl. by rewrite E.
  - intros sid path ws ws' oc _ H. unfold build_cache_key, raw_key. simpl.
    by rewrite H.
  - intros sid path ws ws' oc Hperm Hne Hsep Hraw. apply Hne.
    apply raw_key_inj in Hraw.
    apply (concat_sep_inj ";"); [| | |exact Hraw].
    + rewrite !length_map. by apply Permutation_length.
    + apply Forall_forall. intros s Hs.
      apply list_elem_of_In, in_map_iff in Hs as (w & <- & Hw).
      rewrite Forall_forall in Hsep. by apply Hsep, list_elem_of_In.
    + apply Forall_forall. intros s Hs.
      apply list_elem_of_In, in_map_iff in Hs as (w & <- & Hw).
      rewrite Forall_forall in Hsep. apply Hsep, list_elem_of_In.
      by apply (Permutation_in _ (Permutation_sym Hperm)).
Qed.

Lemma build_cache_key_invariance_witness :
  raw_key (SessionContext.mk "$0" "/home/u" editor_shell_windows) "" ≠
  raw_key (SessionContext.mk "$0" "/home/u" (rev editor_shell_windows)) "".
Proof.
  apply (proj2 (proj2 (proj2 build_cache_key_invariance))).
  - apply Permutation_rev.
  - vm_compute. discriminate.
  - repeat constructor.
Defined.

(** For these two windows the key itself changes with their order. *)
Example build_cache_key_window_order :
  build_cache_key (SessionContext.mk "$0" "/home/u" editor_shell_windows) "" ≠
  build_cache_key (SessionContext.mk "$0" "/home/u" (rev editor_shell_windows)) "".
Proof. vm_compute. discriminate. Qed.

(** The claim fails on two windows with one name and the same panes:
    exchanging them is a permutation that is not the identity, and the key
    is the same. *)
Lemma build_cache_key_swap_equal_windows :
  rev (SessionContext.windows two_window_context)
    ≡ₚ SessionContext.windows two_window_context
  ∧ rev (SessionContext.windows two_window_context)
    ≠ SessionContext.windows two_window_context
  ∧ build_cache_key
      (SessionContext.mk "$0" "/home/u" (rev (SessionContext.windows two_window_context))) ""
    = build_cache_key two_window_context "".
Proof.
  split; [symmetry; apply Permutation_rev|]. split; [discriminate|].
  vm_compute. reflexivity.
Qed.

End fingerprint.

(** ** The plan applier *)

Section applier.

Implicit Types (s : Live.session) (c : tmux_cmd) (cmds : list tmux_cmd)
  (windows : list WindowPlan.t).

Lemma occupied_false (idx : Z) (ws : list Live.window) :
  Live.occupied idx ws = false ↔ Forall (fun w => Live.index w ≠ idx) ws.
Proof.
  unfold Live.occupied. induction ws as [|w ws IH]; simpl.
  - split; [constructor|reflexivity].
  - rewrite Forall_cons, orb_false_iff, IH, Z.eqb_neq. reflexivity.
Qed.

Lemma collision_free_app cmds1 cmds2 s :
  Live.collision_free (cmds1 ++ cmds2) s =
  Live.collision_free cmds1 s && Live.collision_free cmds2 (Live.run cmds1 s).
Proof.
  revert s. induction cmds1 as [|c cmds1 IH]; intros s; simpl; [reflexivity|].
  rewrite IH, andb_assoc. reflexivity.
Qed.

(** A run under an invariant indexed by the number of commands done. *)
Lemma collision_free_inv (Inv : nat → Live.session → Prop) cmds s :
  (∀ k c s', cmds !! k = Some c → Inv k s' →
     Live.collides c s' = false ∧ Inv (S k) (Live.exec c s')) →
  Inv O s →
  Live.collision_free cmds s = true ∧ Inv (length cmds) (Live.run cmds s).
Proof.
  revert Inv s. induction cmds as [|c cmds IH]; intros Inv s Hstep H0.
  - by split.
  - destruct (Hstep O c s eq_refl H0) as [Hc Hi].
    destruct (IH (fun k => Inv (S k)) (Live.exec c s)) as [Hf Hl].
    + intros k c' s' Hk. apply (Hstep (S k)). exact Hk.
    + exact Hi.
    + simpl. rewrite Hc. by split.
Qed.

(** [enumerate] numbers the elements from zero. *)
Lemma enumerate_lookup {A} (l : list A) (k : nat) (i : Z) (x : A) :
  enumerate l !! k = Some (i, x) → i = Z.of_nat k ∧ l !! k = Some x.
Proof.
  unfold enumerate.
  cut (∀ start, combine (map Z.of_nat (seq start (length l))) l !! k = Some (i, x) →
         i = Z.of_nat (start + k) ∧ l !! k = Some x).
  { intros H. apply (H O). }
  revert k. induction l as [|y l IH]; intros k start; [done|].
  destruct k as [|k]; simpl.
  - intros [= <- <-]. split; [f_equal; lia|reflexivity].
  - intros H. destruct (IH k (S start) H) as [-> Hl]. split; [f_equal; lia|exact Hl].
Qed.

Lemma lookup_map_Some {A B} (f : A → B) (l : list A) (k : nat) (y : B) :
  map f l !! k = Some y → ∃ x, l !! k = Some x ∧ y = f x.
Proof.
  revert k. induction l as [|x l IH]; intros [|k]; simpl; try done.
  - intros [= <-]. by exists x.
  - apply IH.
Qed.

(** The windows after a move onto a free slot of the session. *)
Lemma exec_move_free s (src : target) (idx : Z) :
  Live.occupied idx (Live.windows s) = false →
  Live.session_id (Live.exec (move_window src (SessionIndex (Live.session_id s) idx)) s)
    = Live.session_id s
  ∧ Live.windows (Live.exec (move_window src (SessionIndex (Live.session_id s) idx)) s)
    = map (fun w => if Live.is_source (Live.session_id s) src w
                    then Live.mk_window (Live.id w) idx (Live.name w) else w)
          (Live.windows s).
Proof.
  intros Hfree. simpl. rewrite String.eqb_refl, Hfree. by split.
Qed.

(** *** The session keeps its indices pairwise distinct *)

Lemma NoDup_map_inj_on {A B} (f : A → B) (l : list A) (x y : A) :
  NoDup (map f l) → x ∈ l → y ∈ l → f x = f y → x = y.
Proof.
  induction l as [|z l IH]; simpl; intros Hnd Hx Hy Hf; [by apply elem_of_nil in Hx|].
  apply NoDup_cons in Hnd as [Hz Hnd].
  apply elem_of_cons in Hx as [->|Hx]; apply elem_of_cons in Hy as [->|Hy].
  - reflexivity.
  - exfalso. apply Hz. rewrite Hf. apply list_elem_of_In, in_map. by apply list_elem_of_In.
  - exfalso. apply Hz. rewrite <- Hf. apply list_elem_of_In, in_map. by apply list_elem_of_In.
  - by apply IH.
Qed.

(** Moving the one window that answers to [P] onto a free index. *)
Lemma move_one_keeps_distinct (P : Live.window → bool) (idx : Z)
    (ws : list Live.window) :
  (∀ w1 w2, w1 ∈ ws → w2 ∈ ws → P w1 = true → P w2 = true → w1 = w2) →
  NoDup (map Live.index ws) → idx ∉ map Live.index ws →
  NoDup (map Live.index
           (map (fun w => if P w then Live.mk_window (Live.id w) idx (Live.name w) else w)
                ws)).
Proof.
  induction ws as [|w ws IH]; intros Hone Hnd Hfree; [constructor|].
  simpl in *. apply NoDup_cons in Hnd as [Hw Hnd].
  apply not_elem_of_cons in Hfree as [Hne Hfree].
  assert (∀ w', w' ∈ ws → Live.index w' ≠ Live.index w) as Hother.
  { intros w' Hw' He. apply Hw. rewrite <- He.
    apply list_elem_of_In, in_map. by apply list_elem_of_In. }
  destruct (P w) eqn:HP; simpl.
  - (* no other window answers to [P] *)
    assert (map (fun w => if P w then Live.mk_window (Live.id w) idx (Live.name w) else w) ws
            = ws) as ->.
    { rewrite <- (map_id ws) at 2. apply map_ext_in. intros w' Hw'.
      apply list_elem_of_In in Hw'.
      destruct (P w') eqn:HP'; [|reflexivity]. exfalso.
      apply (Hother w' Hw'). f_equal. apply Hone; try done.
      + apply elem_of_cons. by right.
      + apply elem_of_cons. by left. }
    by constructor.
  - constructor.
    + intros Hin. apply list_elem_of_In, in_map_iff in Hin as (w' & He & Hw').
      apply in_map_iff in Hw' as (w0 & <- & Hw0). apply list_elem_of_In in Hw0.
      destruct (P w0); simpl in He; [congruence|]. by apply (Hother w0).
    + apply IH; [|exact Hnd|exact Hfree].
      intros w1 w2 H1 H2. apply Hone; apply elem_of_cons; by right.
Qed.

(** Each command leaves the ids of the windows as they are and their
    indices pairwise distinct. *)
Lemma exec_keeps_distinct c s :
  NoDup (map Live.id (Live.windows s)) →
  NoDup (map Live.index (Live.windows s)) →
  map Live.id (Live.windows (Live.exec c s)) = map Live.id (Live.windows s)
  ∧ NoDup (map Live.index (Live.windows (Live.exec c s))).
Proof.
  intros Hid Hidx. destruct c as [t n|src [i|sid' idx]|t n|t o v|t o]; simpl;
    try (by split).
  - split.
    + rewrite map_map. apply map_ext. intros w. by destruct (String.eqb _ _).
    + rewrite map_map. erewrite map_ext; [exact Hidx|].
      intros w. by destruct (String.eqb _ _).
  - destruct (String.eqb sid' (Live.session_id s)); simpl; [|by split].
    destruct (Live.occupied idx (Live.windows s)) eqn:Hocc; simpl; [by split|].
    split.
    + rewrite map_map. apply map_ext. intros w. by destruct (Live.is_source _ _ _).
    + apply move_one_keeps_distinct; [|exact Hidx|].
      * intros w1 w2 H1 H2 P1 P2. destruct src as [i|sid'' idx']; simpl in P1, P2.
        -- apply String.eqb_eq in P1, P2.
           apply (NoDup_map_inj_on Live.id (Live.windows s)); congruence.
        -- apply andb_true_iff in P1 as [_ P1], P2 as [_ P2].
           apply Z.eqb_eq in P1, P2.
           apply (NoDup_map_inj_on Live.index (Live.windows s)); congruence.
      * apply occupied_false in Hocc. rewrite Forall_forall in Hocc.
        intros Hin. apply list_elem_of_In, in_map_iff in Hin as (w & He & Hw).
        apply (Hocc w); [by apply list_elem_of_In|exact He].
  - destruct (String.eqb t (Live.session_id s)); by split.
Qed.

(** So does every run of commands: no state of a run has two windows at
    one index. *)
Lemma run_keeps_distinct cmds s :
  NoDup (map Live.id (Live.windows s)) →
  NoDup (map Live.index (Live.windows s)) →
  map Live.id (Live.windows (Live.run cmds s)) = map Live.id (Live.windows s)
  ∧ NoDup (map Live.index (Live.windows (Live.run cmds s))).
Proof.
  revert s. induction cmds as [|c cmds IH]; intros s Hid Hidx; [by split|].
  destruct (exec_keeps_distinct c s Hid Hidx) as [E Hnd].
  destruct (IH (Live.exec c s)) as [E' Hnd']; [by rewrite E|exact Hnd|].
  split; [by rewrite <- E|exact Hnd'].
Qed.

(** *** The three phases *)

Variables (sid : string) (windows : list WindowPlan.t).

(** Phase 1: the renames move nothing. *)
Lemma renames_keep_slots s (P : Live.window → Prop) :
  (∀ w n, P w → P (Live.mk_window (Live.id w) (Live.index w) n)) →
  Live.session_id s = sid → Forall P (Live.windows s) →
  let cmds := map (fun window =>
                     rename_window (WindowPlan.id window) (WindowPlan.name window))
                  windows in
  Live.collision_free cmds s = true
  ∧ Live.session_id (Live.run cmds s) = sid
  ∧ Forall P (Live.windows (Live.run cmds s)).
Proof.
  intros HP Hsid HF cmds.
  destruct (collision_free_inv
    (fun _ s' => Live.session_id s' = sid ∧ Forall P (Live.windows s')) cmds s)
    as [Hf Hi]; [|by split|by split].
  intros k c s' Hk [Hs HF']. subst cmds.
  apply lookup_map_Some in Hk as (wp & _ & ->). split; [reflexivity|].
  simpl. split; [exact Hs|].
  apply Forall_forall. intros w Hw.
  apply list_elem_of_In, in_map_iff in Hw as (w0 & <- & Hw0).
  rewrite Forall_forall in HF'. apply list_elem_of_In in Hw0.
  destruct (String.eqb (Live.id w0) (WindowPlan.id wp)); [apply HP|]; by apply HF'.
Qed.

Lemma phase2_step (k : nat) c s :
  map (fun '(i, window) =>
         move_window (WindowId (WindowPlan.id window)) (SessionIndex sid (900 + i)))
      (enumerate windows) !! k = Some c →
  phase2_inv sid windows k s →
  Live.collides c s = false ∧ phase2_inv sid windows (S k) (Live.exec c s).
Proof.
  intros Hk [Hs HF]. apply lookup_map_Some in Hk as ([i wp] & Hk & ->).
  apply enumerate_lookup in Hk as [-> Hwp].
  assert (k < length windows)%nat as HkN by (by apply lookup_lt_Some in Hwp).
  assert (Live.occupied (900 + Z.of_nat k) (Live.windows s) = false) as Hfree.
  { apply occupied_false. eapply Forall_impl; [exact HF|].
    intros w [_ [Ht|[_ Ht]]] He; unfold temp_slot in *; simpl in *; lia. }
  split; [simpl; by rewrite Hfree, andb_false_r|].
  destruct (exec_move_free s (WindowId (WindowPlan.id wp)) _ Hfree) as [Hs' Hw'].
  rewrite Hs in Hs', Hw'. split; [exact Hs'|]. rewrite Hw'.
  apply Forall_forall. intros w Hw.
  apply list_elem_of_In, in_map_iff in Hw as (w0 & <- & Hw0).
  rewrite Forall_forall in HF. apply list_elem_of_In in Hw0.
  specialize (HF w0 Hw0). rewrite (take_S_r _ _ _ Hwp), map_app.
  unfold Live.is_source.
  destruct HF as [Hplan HF].
  destruct (String.eqb_spec (Live.id w0) (WindowPlan.id wp)) as [He|Hne].
  - split; [exact Hplan|]. left. unfold temp_slot. simpl. lia.
  - split; [exact Hplan|]. destruct HF as [Ht|[Hid Ht]].
    + left. unfold temp_slot in *. lia.
    + right. split; [|exact Ht]. rewrite elem_of_app. simpl.
      rewrite list_elem_of_singleton. by intros [?|?].
Qed.

Lemma phase3_step (k : nat) c s :
  NoDup (map WindowPlan.index windows) →
  Forall (fun window => ¬ temp_slot (length windows) (WindowPlan.index window))
    windows →
  map (fun '(i, window) =>
         move_window (SessionIndex sid (900 + i))
                     (SessionIndex sid (WindowPlan.index window)))
      (enumerate windows) !! k = Some c →
  phase3_inv sid windows k s →
  Live.collides c s = false ∧ phase3_inv sid windows (S k) (Live.exec c s).
Proof.
  intros Hnd Hout Hk [Hs HF]. apply lookup_map_Some in Hk as ([i wp] & Hk & ->).
  apply enumerate_lookup in Hk as [-> Hwp].
  assert (Live.occupied (WindowPlan.index wp) (Live.windows s) = false) as Hfree.
  { apply occupied_false. eapply Forall_impl; [exact HF|].
    intros w [Ht|Hin] He; simpl in *.
    - rewrite Forall_forall in Hout. apply (Hout wp); [|by rewrite <- He].
      by apply list_elem_of_lookup_2 in Hwp.
    - (* a target is not one of the targets before it *)
      rewrite <- (take_drop k windows), map_app in Hnd.
      apply NoDup_app in Hnd as (_ & Hdis & _).
      apply (Hdis _ Hin). rewrite He.
      apply list_elem_of_In, in_map. apply list_elem_of_In.
      apply list_elem_of_lookup. exists O. by rewrite lookup_drop, Nat.add_0_r. }
  split; [simpl; by rewrite Hfree, andb_false_r|].
  destruct (exec_move_free s (SessionIndex sid (900 + Z.of_nat k)) _ Hfree)
    as [Hs' Hw'].
  rewrite Hs in Hs', Hw'. split; [exact Hs'|]. rewrite Hw'.
  apply Forall_forall. intros w Hw.
  apply list_elem_of_In, in_map_iff in Hw as (w0 & <- & Hw0).
  rewrite Forall_forall in HF. apply list_elem_of_In in Hw0.
  specialize (HF w0 Hw0). rewrite (take_S_r _ _ _ Hwp), map_app.
  destruct (Live.is_source sid (SessionIndex sid (900 + Z.of_nat k)) w0).
  - right. simpl. rewrite elem_of_app, list_elem_of_singleton. by right.
  - destruct HF as [Ht|Hin]; [by left|]. right. rewrite elem_of_app. by left.
Qed.


Lemma length_enumerate {A} (l : list A) : length (enumerate l) = length l.
Proof. unfold enumerate. rewrite length_combine, length_map, length_seq. lia. Qed.

End applier.

(** Outside the temporary slots.  For a plan that passes validation against the
    snapshot of the session, when no window of the session and no target of
    the plan is in one of the temporary slots [900 .. 900 + N - 1] of the
    [N] windows of the plan, no move of [apply_organization_plan] is issued
    onto a slot that holds a window. *)
Theorem apply_plan_collision_free (s : Live.session) (context : SessionContext.t)
    (session : string) (windows : list WindowPlan.t) :
  let plan := OrganizePlan.mk (Some session) (Some windows) in
  validate_plan plan context = None →
  map WindowContext.id (SessionContext.windows context) = Live.snapshot_ids s →
  Forall (fun w => ¬ temp_slot (length windows) (Live.index w)) (Live.windows s) →
  Forall (fun window => ¬ temp_slot (length windows) (WindowPlan.index window))
    windows →
  Live.collision_free (apply_organization_plan (Live.session_id s) plan).1 s = true.
Proof.
  intros plan Hvalid Hsnap Hlive Htargets.
  apply validate_plan_None_iff in Hvalid as [Hids Hnd].
  set (sid := Live.session_id s). simpl.
  (* every window of the session is a window of the plan *)
  assert (Forall (fun w => Live.id w ∈ map WindowPlan.id windows
                           ∧ ¬ temp_slot (length windows) (Live.index w))
            (Live.windows s)) as H0.
  { apply Forall_forall. intros w Hw. split.
    - assert (Live.id w ∈ plan_ids windows) as Hin; [|by apply elem_of_list_to_set in Hin].
      rewrite <- Hids. apply elem_of_list_to_set. rewrite Hsnap.
      apply list_elem_of_In, in_map. by apply list_elem_of_In.
    - rewrite Forall_forall in Hlive. by apply Hlive. }
  rewrite !collision_free_app.
  (* phase 1 *)
  destruct (renames_keep_slots sid windows s
              (fun w => Live.id w ∈ map WindowPlan.id windows
                        ∧ ¬ temp_slot (length windows) (Live.index w))
              ltac:(intros w n Hw; exact Hw) eq_refl H0) as (Hf1 & Hs1 & H1).
  rewrite Hf1. simpl andb.
  set (s1 := Live.run _ s) in *.
  (* phase 2 *)
  destruct (collision_free_inv (phase2_inv sid windows) _ s1
              (fun k c s' => phase2_step sid windows k c s')) as [Hf2 [Hs2 H2]].
  { split; [exact Hs1|]. eapply Forall_impl; [exact H1|].
    intros w [Hin Ht]. split; [exact Hin|]. right. split; [|exact Ht].
    rewrite take_0. apply not_elem_of_nil. }
  rewrite Hf2. simpl andb.
  rewrite length_map, (length_enumerate windows) in H2.
  set (s2 := Live.run _ s1) in *.
  (* phase 3 *)
  destruct (collision_free_inv (phase3_inv sid windows) _ s2
              (fun k c s' => phase3_step sid windows k c s' Hnd Htargets))
    as [Hf3 _].
  { split; [exact Hs2|]. eapply Forall_impl; [exact H2|].
    intros w [Hin [Ht|[Hnin _]]]; [by left|].
    rewrite take_ge in Hnin by lia. contradiction. }
  rewrite Hf3. reflexivity.
Qed.

Lemma apply_plan_collision_free_witness :
  Live.collision_free
    (apply_organization_plan (Live.session_id two_window_session) swap_plan).1
    two_window_session = true.
Proof.
  apply (apply_plan_collision_free two_window_session two_window_context "proj"
           [WindowPlan.mk "@1" "code" 1; WindowPlan.mk "@2" "c" 0]).
  - vm_compute. reflexivity.
  - reflexivity.
  - repeat constructor; unfold temp_slot; simpl; lia.
  - repeat constructor; unfold temp_slot; simpl; lia.
Defined.

(** C1.  The applier at a target in the temporary slots, and at a
    window that is in one.  In the first run the plan passes validation
    against the snapshot of the session, and the move of the first window
    from its temporary slot 900 to its target 901 is issued while the
    second window is in 901, its own temporary slot: the move fails, and
    the run leaves the first window at 900, not at its target.  In the
    second run the move of the first window to the temporary slot 900 is
    issued while the second window, not yet moved, is at 900. *)
Lemma apply_plan_collides_in_temp_slots :
  (validate_plan plan_to_901 two_window_context = None
   ∧ map WindowContext.id (SessionContext.windows two_window_context)
     = Live.snapshot_ids two_window_session
   ∧ Live.collision_free
       (apply_organization_plan (Live.session_id two_window_session) plan_to_901).1
       two_window_session = false
   ∧ Live.collides (move_window (SessionIndex "$0" 900) (SessionIndex "$0" 901))
       (Live.run
          [ rename_window "@1" "code"; rename_window "@2" "c";
            move_window (WindowId "@1") (SessionIndex "$0" 900);
            move_window (WindowId "@2") (SessionIndex "$0" 901) ]
          two_window_session) = true
   ∧ Live.run
       (apply_organization_plan (Live.session_id two_window_session) plan_to_901).1
       two_window_session
     = Live.mk_session "$0" "proj"
         [Live.mk_window "@1" 900 "code"; Live.mk_window "@2" 0 "c"])
  ∧ (validate_plan swap_plan context_with_900 = None
     ∧ map WindowContext.id (SessionContext.windows context_with_900)
       = Live.snapshot_ids session_with_900
     ∧ Live.collision_free
         (apply_organization_plan (Live.session_id session_with_900) swap_plan).1
         session_with_900 = false
     ∧ Live.collides (move_window (WindowId "@1") (SessionIndex "$0" 900))
         (Live.run [rename_window "@1" "code"; rename_window "@2" "c"]
            session_with_900) = true).
Proof. repeat split; vm_compute; reflexivity. Qed.

(** The end-to-end example of the specification: the two windows end at
    the planned slots under the planned names, and the session is renamed. *)
Example apply_swap_plan :
  Live.run (apply_organization_plan "$0" swap_plan).1 two_window_session =
  Live.mk_session "$0" "proj"
    [Live.mk_window "@1" 1 "code"; Live.mk_window "@2" 0 "c"].
Proof. vm_compute. reflexivity. Qed.
(** ** Where the applier puts the windows *)

Section placement.

Implicit Types (s : Live.session) (windows : list WindowPlan.t).

Lemma run_app (cmds1 cmds2 : list tmux_cmd) s :
  Live.run (cmds1 ++ cmds2) s = Live.run cmds2 (Live.run cmds1 s).
Proof. apply fold_left_app. Qed.

Lemma last_entry_snoc {A} (key : A → string) (l : list A) (x : A) (id : string) :
  last_entry key (l ++ [x]) id =
  if String.eqb (key x) id then Some x else last_entry key l id.
Proof.
  induction l as [|y l IH]; simpl; [reflexivity|]. rewrite IH.
  destruct (String.eqb (key x) id); reflexivity.
Qed.

Lemma last_entry_Some {A} (key : A → string) (l : list A) (id : string) (x : A) :
  last_entry key l id = Some x → x ∈ l ∧ key x = id.
Proof.
  induction l as [|y l IH]; simpl; [discriminate|].
  destruct (last_entry key l id) as [z|].
  - intros [= ->]. destruct (IH eq_refl). split; [by apply elem_of_cons; right|done].
  - destruct (String.eqb_spec (key y) id); [|discriminate].
    intros [= ->]. split; [by apply elem_of_cons; left|done].
Qed.

Lemma last_entry_is_Some {A} (key : A → string) (l : list A) (id : string) :
  id ∈ map key l → is_Some (last_entry key l id).
Proof.
  induction l as [|y l IH]; simpl; [by intros ?%elem_of_nil|].
  intros [->|Hin]%elem_of_cons.
  - destruct (last_entry key l (key y)); [by eexists|].
    rewrite String.eqb_refl. by eexists.
  - destruct (IH Hin) as [z ->]. by eexists.
Qed.

Lemma last_entry_map {A B} (f : A → B) (key : B → string) (l : list A) (id : string) :
  last_entry key (map f l) id = option_map f (last_entry (fun x => key (f x)) l id).
Proof.
  induction l as [|y l IH]; simpl; [reflexivity|]. rewrite IH.
  destruct (last_entry _ l id); simpl; [reflexivity|].
  destruct (String.eqb (key (f y)) id); reflexivity.
Qed.

Lemma map_snd_enumerate {A} (l : list A) : map snd (enumerate l) = l.
Proof.
  unfold enumerate. generalize O.
  induction l as [|x l IH]; intros start; simpl; [reflexivity|]. by rewrite IH.
Qed.

Lemma elem_of_enumerate {A} (l : list A) (j : Z) (x : A) :
  (j, x) ∈ enumerate l → ∃ k : nat, j = Z.of_nat k ∧ l !! k = Some x.
Proof.
  intros (k & Hk)%list_elem_of_lookup. exists k. by apply enumerate_lookup.
Qed.

Lemma enumerate_lookup_Some {A} (l : list A) (k : nat) (x : A) :
  l !! k = Some x → enumerate l !! k = Some (Z.of_nat k, x).
Proof.
  intros Hx. assert (k < length (enumerate l))%nat as Hlt.
  { rewrite length_enumerate. by apply lookup_lt_Some in Hx. }
  apply lookup_lt_is_Some in Hlt as [[j y] Hjy].
  destruct (enumerate_lookup _ _ _ _ Hjy) as [-> Hy]. congruence.
Qed.

Lemma last_entry_enumerate (windows : list WindowPlan.t) (id : string) :
  last_entry WindowPlan.id windows id =
  option_map snd (last_entry entry_id (enumerate windows) id).
Proof.
  rewrite <- (map_snd_enumerate windows) at 1.
  exact (last_entry_map snd WindowPlan.id (enumerate windows) id).
Qed.

(** Phase 1: each window gets the name of its last entry. *)
Lemma run_renames windows s :
  Live.run
    (map (fun window => rename_window (WindowPlan.id window) (WindowPlan.name window))
         windows) s =
  Live.mk_session (Live.session_id s) (Live.session_name s)
    (map (fun w => match last_entry WindowPlan.id windows (Live.id w) with
                   | Some window =>
                       Live.mk_window (Live.id w) (Live.index w) (WindowPlan.name window)
                   | None => w
                   end) (Live.windows s)).
Proof.
  revert s. induction windows as [|e windows IH]; intros s; simpl.
  - destruct s. simpl. by rewrite map_id.
  - change (Live.run ?c (Live.exec ?x s)) with (Live.run c (Live.exec x s)).
    unfold Live.run in IH |- *. rewrite IH. simpl. f_equal.
    rewrite map_map. apply map_ext. intros w.
    rewrite (String.eqb_sym (WindowPlan.id e)).
    destruct (String.eqb (Live.id w) (WindowPlan.id e)); simpl;
      destruct (last_entry WindowPlan.id windows (Live.id w)); reflexivity.
Qed.

(** A move onto a free slot of the session. *)
Lemma exec_move_onto_free (sid name : string) (ws : list Live.window)
    (src : target) (idx : Z) :
  Live.occupied idx ws = false →
  Live.exec (move_window src (SessionIndex sid idx)) (Live.mk_session sid name ws) =
  Live.mk_session sid name
    (map (fun w => if Live.is_source sid src w
                   then Live.mk_window (Live.id w) idx (Live.name w) else w) ws).
Proof. intros Hfree. simpl. by rewrite String.eqb_refl, Hfree. Qed.

Variables (sid : string) (windows : list WindowPlan.t).

Lemma phase2_places (ws : list Live.window) (name : string) (k : nat) c s :
  Forall (fun w => ¬ temp_slot (length windows) (Live.index w)) ws →
  map (fun '(i, window) =>
         move_window (WindowId (WindowPlan.id window)) (SessionIndex sid (900 + i)))
      (enumerate windows) !! k = Some c →
  s = Live.mk_session sid name (map (in_phase2 windows k) ws) →
  Live.collides c s = false
  ∧ Live.exec c s = Live.mk_session sid name (map (in_phase2 windows (S k)) ws).
Proof.
  intros Hlive Hk ->. apply lookup_map_Some in Hk as ([i wp] & Hk & ->).
  pose proof Hk as Hk'. apply enumerate_lookup in Hk' as [-> Hwp].
  assert (k < length windows)%nat as HkN by (by apply lookup_lt_Some in Hwp).
  assert (Live.occupied (900 + Z.of_nat k) (map (in_phase2 windows k) ws) = false) as Hfree.
  { apply occupied_false, Forall_forall. intros w Hw.
    apply list_elem_of_In, in_map_iff in Hw as (w0 & <- & Hw0).
    apply list_elem_of_In in Hw0. rewrite Forall_forall in Hlive.
    specialize (Hlive w0 Hw0). unfold in_phase2.
    destruct (last_entry _ _ _) as [[j e]|] eqn:Hl.
    - apply last_entry_Some in Hl as [Hin _].
      apply list_elem_of_lookup in Hin as (i & Hi).
      apply lookup_take_Some in Hi as [Hi Hlt].
      apply enumerate_lookup in Hi as [-> _]. simpl. lia.
    - unfold temp_slot in Hlive. lia. }
  split; [simpl; by rewrite Hfree, andb_false_r|].
  rewrite (exec_move_onto_free _ _ _ _ _ Hfree). f_equal.
  rewrite map_map. apply map_ext. intros w. unfold in_phase2.
  rewrite (take_S_r _ _ _ Hk), last_entry_snoc.
  change (entry_id (Z.of_nat k, wp)) with (WindowPlan.id wp).
  rewrite (String.eqb_sym (WindowPlan.id wp)). unfold Live.is_source.
  destruct (last_entry entry_id (take k (enumerate windows)) (Live.id w))
    as [[j e]|]; cbn [Live.id Live.name];
    destruct (String.eqb (Live.id w) (WindowPlan.id wp)); reflexivity.
Qed.

Lemma phase3_places (ws : list Live.window) (name : string) (k : nat) c s :
  NoDup (map WindowPlan.index windows) →
  Forall (fun window => ¬ temp_slot (length windows) (WindowPlan.index window))
    windows →
  Forall (fun w => Live.id w ∈ map WindowPlan.id windows) ws →
  map (fun '(i, window) =>
         move_window (SessionIndex sid (900 + i))
                     (SessionIndex sid (WindowPlan.index window)))
      (enumerate windows) !! k = Some c →
  s = Live.mk_session sid name (map (in_phase3 windows k) ws) →
  Live.collides c s = false
  ∧ Live.exec c s = Live.mk_session sid name (map (in_phase3 windows (S k)) ws).
Proof.
  intros Hnd Hout Hplan Hk ->. apply lookup_map_Some in Hk as ([i wp] & Hk & ->).
  apply enumerate_lookup in Hk as [-> Hwp].
  assert (k < length windows)%nat as HkN by (by apply lookup_lt_Some in Hwp).
  rewrite Forall_forall in Hout.
  assert (∀ w j e, last_entry entry_id (enumerate windows) (Live.id w) = Some (j, e) →
            ∃ i : nat, j = Z.of_nat i ∧ windows !! i = Some e) as Hentry.
  { intros w j e [Hin _]%last_entry_Some. by apply elem_of_enumerate. }
  assert (∀ (i : nat) e, windows !! i = Some e → i ≠ k →
            WindowPlan.index e ≠ WindowPlan.index wp) as Hdistinct.
  { intros i e Hi Hne He. apply Hne.
    apply (NoDup_lookup (map WindowPlan.index windows) i k (WindowPlan.index e));
      [exact Hnd| |]; rewrite list_lookup_fmap.
    - change (WindowPlan.index <$> windows !! i = Some (WindowPlan.index e)).
      by rewrite Hi.
    - change (WindowPlan.index <$> windows !! k = Some (WindowPlan.index e)).
      by rewrite Hwp, He. }
  assert (∀ w, Live.id w ∈ map WindowPlan.id windows →
            is_Some (last_entry entry_id (enumerate windows) (Live.id w))) as Hsome.
  { intros w Hin.
    pose proof (last_entry_is_Some WindowPlan.id windows (Live.id w) Hin) as Hs.
    rewrite last_entry_enumerate in Hs.
    destruct (last_entry entry_id (enumerate windows) _) eqn:E; [by eexists|].
    simpl in Hs. by destruct Hs. }
  assert (Live.occupied (WindowPlan.index wp) (map (in_phase3 windows k) ws) = false) as Hfree.
  { apply occupied_false, Forall_forall. intros w Hw.
    apply list_elem_of_In, in_map_iff in Hw as (w0 & <- & Hw0).
    apply list_elem_of_In in Hw0.
    destruct (Hsome w0) as [[j e] Hl].
    { rewrite Forall_forall in Hplan. by apply Hplan. }
    unfold in_phase3.
    rewrite Hl. destruct (Hentry _ _ _ Hl) as (i & -> & Hi). simpl.
    destruct (Z.ltb_spec (Z.of_nat i) (Z.of_nat k)).
    - apply (Hdistinct i e Hi). lia.
    - intros He. apply (Hout wp); [by apply list_elem_of_lookup_2 in Hwp|].
      rewrite <- He. apply lookup_lt_Some in Hi. unfold temp_slot. lia. }
  split; [simpl; by rewrite Hfree, andb_false_r|].
  rewrite (exec_move_onto_free _ _ _ _ _ Hfree). f_equal.
  rewrite map_map. apply map_ext_in. intros w Hw. apply list_elem_of_In in Hw.
  rewrite Forall_forall in Hplan. destruct (Hsome w (Hplan w Hw)) as [[j e] Hl].
  unfold in_phase3. rewrite Hl.
  destruct (Hentry _ _ _ Hl) as (i & -> & Hi).
  unfold Live.is_source. cbn [Live.id Live.name Live.index]. rewrite String.eqb_refl.
  cbn [andb].
  destruct (Z.ltb_spec (Z.of_nat i) (Z.of_nat k));
    destruct (Z.ltb_spec (Z.of_nat i) (Z.of_nat (S k))); try lia.
  - destruct (Z.eqb_spec (WindowPlan.index e) (900 + Z.of_nat k)) as [He|]; [|done].
    exfalso. apply (Hout e); [by apply list_elem_of_lookup_2 in Hi|].
    unfold temp_slot. lia.
  - assert (i = k) as -> by lia. rewrite Z.eqb_refl. congruence.
  - destruct (Z.eqb_spec (900 + Z.of_nat i) (900 + Z.of_nat k)); [lia|done].
Qed.

End placement.

(** The three phases and the rename of the session, from a session whose
    windows the plan names. *)
Lemma applier_run (sid name0 session : string) (ws0 : list Live.window)
    (windows : list WindowPlan.t) :
  Forall (fun w => Live.id w ∈ map WindowPlan.id windows) ws0 →
  NoDup (map WindowPlan.index windows) →
  Forall (fun w => ¬ temp_slot (length windows) (Live.index w)) ws0 →
  Forall (fun window => ¬ temp_slot (length windows) (WindowPlan.index window))
    windows →
  Live.run
    (apply_organization_plan sid (OrganizePlan.mk (Some session) (Some windows))).1
    (Live.mk_session sid name0 ws0)
  = Live.mk_session sid session (map (placed windows) ws0).
Proof.
  intros Hplan Hnd Hlive Htargets. simpl.
  rewrite !run_app, run_renames. simpl.
  set (ws1 := map _ ws0).
  assert (map Live.id ws1 = map Live.id ws0 ∧ map Live.index ws1 = map Live.index ws0)
    as [Hid1 Hidx1].
  { subst ws1. rewrite !map_map. split; apply map_ext; intros w;
      by destruct (last_entry _ _ _). }
  assert (Forall (fun w => ¬ temp_slot (length windows) (Live.index w)) ws1) as Hlive1.
  { apply Forall_forall. intros w Hw.
    assert (Live.index w ∈ map Live.index ws0) as Hin.
    { rewrite <- Hidx1. apply list_elem_of_In, in_map. by apply list_elem_of_In. }
    apply list_elem_of_In, in_map_iff in Hin as (w0 & <- & Hw0).
    rewrite Forall_forall in Hlive. by apply Hlive, list_elem_of_In. }
  assert (Forall (fun w => Live.id w ∈ map WindowPlan.id windows) ws1) as Hplan1.
  { apply Forall_forall. intros w Hw.
    assert (Live.id w ∈ map Live.id ws0) as Hin.
    { rewrite <- Hid1. apply list_elem_of_In, in_map. by apply list_elem_of_In. }
    apply list_elem_of_In, in_map_iff in Hin as (w0 & <- & Hw0).
    rewrite Forall_forall in Hplan. by apply Hplan, list_elem_of_In. }
  (* phase 2 *)
  destruct (collision_free_inv
              (fun k s' => s' = Live.mk_session sid name0 (map (in_phase2 windows k) ws1))
              (map (fun '(i, window) =>
                      move_window (WindowId (WindowPlan.id window))
                        (SessionIndex sid (900 + i))) (enumerate windows))
              (Live.mk_session sid name0 ws1)) as [_ H2].
  { intros k c s' Hk Hs'. by apply (phase2_places sid windows ws1 name0). }
  { f_equal. rewrite <- (map_id ws1) at 1. apply map_ext. intros w.
    unfold in_phase2. by rewrite take_0. }
  rewrite H2, length_map, (length_enumerate windows). clear H2.
  (* phase 3 *)
  assert (∀ w j e, last_entry entry_id (enumerate windows) (Live.id w) = Some (j, e) →
            ∃ i : nat, j = Z.of_nat i ∧ windows !! i = Some e) as Hentry.
  { intros w j e [Hin _]%last_entry_Some. by apply elem_of_enumerate. }
  destruct (collision_free_inv
              (fun k s' => s' = Live.mk_session sid name0 (map (in_phase3 windows k) ws1))
              (map (fun '(i, window) =>
                      move_window (SessionIndex sid (900 + i))
                        (SessionIndex sid (WindowPlan.index window)))
                   (enumerate windows))
              (Live.mk_session sid name0 (map (in_phase2 windows (length windows)) ws1)))
    as [_ H3].
  { intros k c s' Hk Hs'. by apply (phase3_places sid windows ws1 name0). }
  { f_equal. apply map_ext. intros w. unfold in_phase2, in_phase3.
    rewrite take_ge by (rewrite length_enumerate; lia).
    destruct (last_entry entry_id (enumerate windows) (Live.id w)) as [[j e]|] eqn:Hl;
      [|reflexivity].
    destruct (Hentry _ _ _ Hl) as (i & -> & _).
    destruct (Z.ltb_spec (Z.of_nat i) (Z.of_nat 0)); [lia|reflexivity]. }
  rewrite H3, length_map, (length_enumerate windows). clear H3.
  (* the session is renamed last *)
  simpl. rewrite String.eqb_refl. f_equal.
  subst ws1. rewrite map_map. apply map_ext. intros w. unfold in_phase3, placed.
  assert (Live.id
            match last_entry WindowPlan.id windows (Live.id w) with
            | Some window =>
                Live.mk_window (Live.id w) (Live.index w) (WindowPlan.name window)
            | None => w
            end = Live.id w) as -> by (by destruct (last_entry _ _ _)).
  rewrite last_entry_enumerate.
  destruct (last_entry entry_id (enumerate windows) (Live.id w)) as [[j e]|] eqn:Hl;
    [|reflexivity].
  destruct (Hentry _ _ _ Hl) as (i & -> & Hi). apply lookup_lt_Some in Hi.
  simpl. destruct (Z.ltb_spec (Z.of_nat i) (Z.of_nat (length windows))); [reflexivity|lia].
Qed.

(** The plan names every window of a session that it was validated
    against. *)
Lemma validated_plan_names_windows (s : Live.session) (context : SessionContext.t)
    (windows : list WindowPlan.t) :
  context_ids context = plan_ids windows →
  map WindowContext.id (SessionContext.windows context) = Live.snapshot_ids s →
  Forall (fun w => Live.id w ∈ map WindowPlan.id windows) (Live.windows s).
Proof.
  intros Hids Hsnap. apply Forall_forall. intros w Hw.
  assert (Live.id w ∈ plan_ids windows) as Hin; [|by apply elem_of_list_to_set in Hin].
  rewrite <- Hids. apply elem_of_list_to_set. rewrite Hsnap.
  apply list_elem_of_In, in_map. by apply list_elem_of_In.
Qed.


(** The windows where the plan wants them are where a second run of the
    plan wants them. *)
Lemma placed_again (windows : list WindowPlan.t) (ws : list Live.window) :
  Forall (fun window => ¬ temp_slot (length windows) (WindowPlan.index window))
    windows →
  Forall (fun w => Live.id w ∈ map WindowPlan.id windows) ws →
  Forall (fun w => Live.id w ∈ map WindowPlan.id windows) (map (placed windows) ws)
  ∧ Forall (fun w => ¬ temp_slot (length windows) (Live.index w))
      (map (placed windows) ws)
  ∧ map (placed windows) (map (placed windows) ws) = map (placed windows) ws.
Proof.
  intros Htargets Hplan.
  assert (∀ w, Live.id (placed windows w) = Live.id w) as Hid.
  { intros w. unfold placed. by destruct (last_entry _ _ _). }
  split; [|split].
  - apply Forall_forall. intros w' Hw'.
    apply list_elem_of_In, in_map_iff in Hw' as (w & <- & Hw). rewrite Hid.
    rewrite Forall_forall in Hplan. by apply Hplan, list_elem_of_In.
  - apply Forall_forall. intros w' Hw'.
    apply list_elem_of_In, in_map_iff in Hw' as (w & <- & Hw).
    rewrite Forall_forall in Hplan. apply list_elem_of_In in Hw.
    destruct (last_entry_is_Some WindowPlan.id windows (Live.id w) (Hplan w Hw))
      as [e He].
    unfold placed. rewrite He. simpl.
    apply last_entry_Some in He as [Hin _].
    rewrite Forall_forall in Htargets. by apply Htargets.
  - rewrite map_map. apply map_ext. intros w. unfold placed at 1. rewrite Hid.
    unfold placed. by destruct (last_entry _ _ _).
Qed.



(** ** The status indicator and the model call of [main] *)

Section main_status.

Variables (session_id : string) (context : SessionContext.t)
  (opencode_context : string).

Lemma status_after_app (status : option string) (t1 t2 : list effect) :
  fold_left status_step (t1 ++ t2) status =
  fold_left status_step t2 (fold_left status_step t1 status).
Proof. apply fold_left_app. Qed.

(** The commands of the applier leave the option as it is. *)
Lemma status_after_mutations (cmds : list tmux_cmd) (status : option string) :
  Forall (fun c => is_mutation c = true) cmds →
  fold_left status_step (map Tmux cmds) status = status.
Proof.
  induction 1 as [|c cmds Hc _ IH]; simpl; [reflexivity|].
  destruct c; try discriminate; exact IH.
Qed.

Lemma quiet_mutations_free (cmds : list tmux_cmd) :
  Forall quiet (map Tmux cmds) → Forall (fun c => is_mutation c = false) cmds.
Proof.
  intros H. apply Forall_forall. intros c Hc. rewrite Forall_forall in H.
  destruct (H (Tmux c)) as [Ha _]; [|exact Ha].
  apply list_elem_of_In, in_map. by apply list_elem_of_In.
Qed.

(** The applier raises nothing on a plan that passed validation. *)
Lemma apply_validated_plan (plan : OrganizePlan.t) :
  validate_plan plan context = None →
  (apply_organization_plan session_id plan).2 = None.
Proof.
  unfold validate_plan, apply_organization_plan.
  destruct (OrganizePlan.session plan), (OrganizePlan.windows plan);
    try discriminate. reflexivity.
Qed.

(** The run from the validation on, for a plan that passes it. *)
Lemma main_validate_apply_cleared (key : string) (is_cached : bool)
    (plan : OrganizePlan.t) (status : option string) :
  validate_plan plan context = None →
  let tail := main_validate_apply session_id context key is_cached (Some plan) in
  last tail = Some (Tmux (unset_option session_id "@torganize"))
  ∧ fold_left status_step tail status = None.
Proof.
  intros Hv tail. subst tail. rewrite (main_validate_apply_valid _ _ _ _ _ Hv).
  pose proof (apply_validated_plan plan Hv) as He.
  pose proof (apply_organization_plan_mutations session_id plan) as Hm.
  destruct (apply_organization_plan session_id plan) as [cmds e]. simpl in He, Hm.
  subst e. split.
  - rewrite !List.app_assoc. apply last_snoc.
  - rewrite !status_after_app, (status_after_mutations _ _ Hm). reflexivity.
Qed.

(** The run from the validation on, for a plan that fails it. *)
Lemma main_validate_apply_reported (key : string) (is_cached : bool)
    (plan : OrganizePlan.t) (status : option string) :
  validate_plan plan context ≠ None →
  let tail := main_validate_apply session_id context key is_cached (Some plan) in
  ∃ message, message ≠ "" ∧ validate_plan plan context = Some message
    ∧ tail = [Tmux (set_option session_id "@torganize" message); Exit 1].
Proof.
  intros Hv tail. subst tail. unfold main_validate_apply.
  rewrite validate_plan_error_truthy, bool_decide_false by exact Hv.
  pose proof (validate_plan_error_nonempty context plan) as Hne.
  destruct (validate_plan plan context) as [message|]; [|contradiction].
  exists message. split; [congruence|]. by split.
Qed.

Lemma truthy_str_message (error : option string) :
  truthy_str error = true → default "" error ≠ "".
Proof. by destruct error as [[|c e]|]. Qed.


(** The empty [dict] is the one plan that is false. *)
Lemma truthy_false_iff (plan : OrganizePlan.t) :
  OrganizePlan.truthy plan = false ↔ plan = OrganizePlan.mk None None.
Proof.
  destruct plan as [[s|] [w|]]; unfold OrganizePlan.truthy; simpl;
    split; intros H; try discriminate H; reflexivity.
Qed.


End main_status.


(** ** The lines of the enrichment *)

Section enrichment_lines.

Variable session_name : string.

(** The table after the loop: the last record that counts for a window
    is the one that stays. *)
Lemma fold_record_step_lookup (records : list OcSession.t)
    (ws : gmap Z SessionData.t) (window_idx : Z) :
  fold_left (record_step session_name) records ws !! window_idx =
  match last_record session_name records window_idx with
  | Some session_data => Some session_data
  | None => ws !! window_idx
  end.
Proof.
  revert ws. induction records as [|r records IH]; intros ws; simpl; [reflexivity|].
  rewrite IH. destruct (last_record session_name records window_idx); [reflexivity|].
  rewrite record_step_spec. unfold record_counts.
  destruct (record_window session_name r) as [idx|]; simpl; [|reflexivity].
  destruct (SessionData.truthy _); simpl; [|reflexivity].
  case_bool_decide as He.
  - injection He as ->. apply lookup_insert_eq.
  - apply lookup_insert_ne. congruence.
Qed.

(** The items of the table in the order of their keys. *)
Lemma sorted_items (ws : gmap Z SessionData.t) :
  let items := merge_sort key_le (map_to_list ws) in
  StronglySorted Z.lt (map fst items)
  ∧ ∀ idx d, (idx, d) ∈ items ↔ ws !! idx = Some d.
Proof.
  intros items.
  assert (items ≡ₚ map_to_list ws) as Hperm by apply merge_sort_Permutation.
  assert (NoDup (map fst items)) as Hnd.
  { rewrite Hperm. apply NoDup_fst_map_to_list. }
  split.
  - assert (StronglySorted key_le items) as Hs.
    { apply StronglySorted_merge_sort.
      - intros [a x] [b y] [c z]. unfold key_le. simpl. lia.
      - intros [a x] [b y]. unfold key_le. simpl. lia. }
    clear Hperm. induction Hs as [|[a x] l Hs IH Hall]; simpl; [constructor|].
    simpl in Hnd. apply NoDup_cons in Hnd as [Hnotin Hnd].
    constructor; [by apply IH|].
    apply Forall_forall. intros b Hb.
    apply list_elem_of_In, in_map_iff in Hb as ([b' y] & <- & Hy).
    rewrite Forall_forall in Hall. apply list_elem_of_In in Hy.
    specialize (Hall _ Hy). unfold key_le in Hall. simpl in *.
    assert (a ≠ b'); [|lia]. intros ->. apply Hnotin.
    apply list_elem_of_In, in_map_iff. exists (b', y). split; [reflexivity|].
    by apply list_elem_of_In.
  - intros idx d. rewrite Hperm. apply elem_of_map_to_list.
Qed.


End enrichment_lines.

(** The lines for the records of [work]: one line per window, in the
    order of the indices, with the last record of window 2. *)
Example build_opencode_context_of_work :
  build_opencode_context records_of_work one_window_context "work" =
  "window 1 has opencode session: " ++ String "034" "other" ++ String "034" ""
  ++ " (idle, 3 messages, model: ?)" ++ String "010" ""
  ++ "window 2 has opencode session: " ++ String "034" "second" ++ String "034" ""
  ++ " (unknown, 0 messages, model: ?)".
Proof. vm_compute. reflexivity. Qed.
(** ** What the model call returns *)

Section model_call.

Import Json.

(** A text that opens with a brace decodes to a [dict] or not at all. *)
Lemma loads_brace_is_dict (r : string) (v : Json.t) :
  loads (String "{" r) = Some v → ∃ m, v = JDict m.
Proof.
  unfold loads. change (skip_ws (String "{" r)) with (String "{" r).
  set (fuel := (2 * String.length (String "{" r) + 2)%nat).
  assert (∃ f, fuel = S f) as [f ->] by (exists (2 * String.length (String "{" r) + 1)%nat; lia).
  rewrite scan_once_S.
  change (Ascii.eqb "{" "034") with false. change (Ascii.eqb "{" "{") with true.
  cbv iota.
  destruct (skip_ws r) as [|d r']; [discriminate|].
  destruct (Ascii.eqb d "}").
  { destruct (skip_ws r'); [|discriminate]. intros [= <-]. by eexists. }
  destruct (Ascii.eqb d "034"); [|discriminate].
  destruct (object_items f r' []) as [[pairs r'']|]; [|discriminate].
  destruct (skip_ws r''); [|discriminate]. intros [= <-]. by eexists.
Qed.

(** What the scan decodes is a slice that opens where the scan started. *)
Lemma scan_braces_slice (text : string) (start : nat) (v : Json.t) :
  ∀ rest i depth,
    (start ≤ i)%nat →
    scan_braces text start rest i depth = Some v →
    ∃ j, (start < j)%nat ∧ loads (PyStr.slice start j text) = Some v.
Proof.
  induction rest as [|c rest IH]; intros i depth Hi; [discriminate|].
  rewrite scan_braces_step.
  destruct (Ascii.eqb c "}" && (depth + brace_step c =? 0)).
  - intros H. exists (i + 1)%nat. split; [lia|exact H].
  - apply IH. lia.
Qed.

Lemma substring_cons (n : nat) (c : ascii) (s : string) :
  String.substring 0 (S n) (String c s) = String c (String.substring 0 n s).
Proof. reflexivity. Qed.

Lemma substring_skip (pre s : string) (n : nat) :
  String.substring (String.length pre) n (pre ++ s) = String.substring 0 n s.
Proof.
  induction pre as [|c pre IH]; [reflexivity|]. rewrite app_cons. simpl. exact IH.
Qed.


End model_call.
(** ** What the cache key does not see *)

Section stale_entries.

Lemma stable_part_same_layout (w w' : WindowContext.t) :
  same_layout w w' → stable_part w = stable_part w'.
Proof.
  intros [Hn Hp]. unfold stable_part. rewrite Hn. do 3 f_equal.
  by apply sorted_perm_eq.
Qed.

(** X6. Entries of the cache that have gone stale.  The cache key is
    made of the session path, of the names of the windows and of the
    fingerprints of their panes: it does not see the ids of the windows,
    their indices or the titles of their panes.  So a snapshot that agrees
    with an earlier one on these, window by window, has the key of the
    earlier one; and if its window ids are not the same set, a plan that
    passed validation against the earlier snapshot and is read from the
    cache fails validation now: the run reports the mismatch of the ids and
    exits without asking the model for another plan. *)
Theorem stale_cache_entry_rejected (earlier now : SessionContext.t)
    (opencode_context session_id : string) (plan : OrganizePlan.t)
    (asked : outcome (option OrganizePlan.t * option string)) :
  SessionContext.session_path now = SessionContext.session_path earlier →
  Forall2 same_layout (SessionContext.windows now) (SessionContext.windows earlier) →
  context_ids now ≠ context_ids earlier →
  validate_plan plan earlier = None →
  session_id ≠ "" →
  build_cache_key now opencode_context = build_cache_key earlier opencode_context
  ∧ ∃ ids,
      main session_id now opencode_context (Some plan) asked =
      [ Tmux (set_option session_id "@torganize" "organizing...");
        Fork;
        Tmux (set_option session_id "@torganize" ("window id mismatch: " ++ ids));
        Exit 1 ].
Proof.
  intros Hpath Hlayout Hids Hvalid Hsid. split.
  - assert (map stable_part (SessionContext.windows now) =
            map stable_part (SessionContext.windows earlier)) as E.
    { induction Hlayout as [|w w' ws ws' Hw _ IH]; simpl; [reflexivity|].
      f_equal; [by apply stable_part_same_layout|exact IH]. }
    unfold build_cache_key, raw_key. by rewrite Hpath, E.
  - destruct plan as [[session|] [windows|]];
      try (simpl in Hvalid; discriminate Hvalid).
    apply validate_plan_None_iff in Hvalid as [Hearlier _].
    set (plan := OrganizePlan.mk (Some session) (Some windows)).
    assert (∃ ids, validate_plan plan now = Some ("window id mismatch: " ++ ids))
      as [ids Hv].
    { unfold validate_plan, plan. simpl.
      fold (context_ids now). fold (plan_ids windows).
      rewrite bool_decide_true by congruence. by eexists. }
    exists ids. unfold main.
    destruct (String.eqb_spec session_id ""); [contradiction|].
    unfold main_child. change (OrganizePlan.truthy plan) with true. cbv iota.
    destruct (main_validate_apply_reported session_id now
                (build_cache_key now opencode_context)
                (bool_decide (Some plan ≠ None)) plan None) as (m & _ & E & ->).
    { rewrite Hv. discriminate. }
    congruence.
Qed.

End stale_entries.

Lemma stale_cache_entry_rejected_witness :
  build_cache_key two_window_context_later "" = build_cache_key two_window_context ""
  ∧ ∃ ids,
      main "$3" two_window_context_later "" (Some swap_plan) (Raise "unused") =
      [ Tmux (set_option "$3" "@torganize" "organizing...");
        Fork;
        Tmux (set_option "$3" "@torganize" ("window id mismatch: " ++ ids));
        Exit 1 ].
Proof.
  apply (stale_cache_entry_rejected two_window_context two_window_context_later
           "" "$3" swap_plan (Raise "unused")).
  - reflexivity.
  - repeat constructor.
  - intros H. apply (f_equal (fun ids => bool_decide ("@1" ∈ ids))) in H.
    vm_compute in H. discriminate H.
  - vm_compute. reflexivity.
  - discriminate.
Defined.
(** ** Texts: newlines, line boundaries, white space, fields *)

Section texts.

Import PyText.

Lemma newlines_S (n : nat) : newlines (S n) = String "010" (newlines n).
Proof. reflexivity. Qed.

Lemma snoc_nonempty (x : string) (c : ascii) : x ++ String c "" ≠ "".
Proof. by destruct x. Qed.

Lemma snoc_inj (x y : string) (c d : ascii) :
  x ++ String c "" = y ++ String d "" → x = y ∧ c = d.
Proof.
  revert y. induction x as [|a x IH]; intros [|b y]; rewrite ?app_cons; simpl.
  - by intros [= ->].
  - intros [= -> H]. symmetry in H. by apply snoc_nonempty in H.
  - intros [= -> H]. by apply snoc_nonempty in H.
  - intros [= -> H]. destruct (IH _ H) as [-> ->]. by split.
Qed.

Lemma cons_eq_snoc (d : ascii) (r x : string) (c : ascii) :
  String d r = x ++ String c "" →
  (x = "" ∧ r = "" ∧ d = c) ∨ (∃ x', x = String d x' ∧ r = x' ++ String c "").
Proof.
  destruct x as [|a x'].
  - change ("" ++ String c "") with (String c ""). intros [= -> ->]. by left.
  - rewrite app_cons. intros [= -> ->]. right. by exists x'.
Qed.

(** [rstrip_char c] takes the [c]s off the end, and nothing else. *)
Lemma rstrip_char_spec (c : ascii) (s : string) :
  ∃ k, s = rstrip_char c s ++ string_of_list_ascii (replicate k c)
       ∧ ∀ x, rstrip_char c s ≠ x ++ String c "".
Proof.
  induction s as [|d r (k & Hr & Hend)].
  { exists O. split; [reflexivity|]. intros x H. symmetry in H.
    by apply snoc_nonempty in H. }
  simpl. destruct (rstrip_char c r) as [|e R] eqn:E.
  - change ("" ++ string_of_list_ascii (replicate k c))
      with (string_of_list_ascii (replicate k c)) in Hr.
    destruct (Ascii.eqb_spec d c) as [->|Hne].
    + exists (S k). split; [simpl; by rewrite Hr at 1|].
      intros x H. symmetry in H. by apply snoc_nonempty in H.
    + exists k. split; [rewrite app_cons; by rewrite Hr at 1|].
      intros x [(_ & _ & ->)|(x' & _ & H)]%cons_eq_snoc; [done|].
      symmetry in H. by apply snoc_nonempty in H.
  - exists k. split; [rewrite app_cons; by rewrite Hr at 1|].
    intros x [(_ & [=] & _)|(x' & _ & H)]%cons_eq_snoc. by apply (Hend x').
Qed.

Lemma rstrip_char_snoc (c : ascii) (s : string) :
  rstrip_char c (s ++ String c "") = rstrip_char c s.
Proof.
  induction s as [|d r IH].
  - change ("" ++ String c "") with (String c ""). simpl. by rewrite Ascii.eqb_refl.
  - rewrite app_cons. simpl. by rewrite IH.
Qed.

Lemma rstrip_char_id (c : ascii) (s : string) :
  (∀ x, s ≠ x ++ String c "") → rstrip_char c s = s.
Proof.
  induction s as [|d r IH]; [reflexivity|]. intros Hend. simpl.
  destruct r as [|e r'].
  - simpl. destruct (Ascii.eqb_spec d c) as [->|]; [|reflexivity].
    by destruct (Hend "").
  - rewrite IH; [reflexivity|]. intros x Hx. apply (Hend (String d x)).
    by rewrite app_cons, <- Hx.
Qed.

(** X7. What [run] returns.  When the run of tmux completes, [run]
    returns its standard output without the newlines at its end, whatever
    its exit status: the output is the result followed by newlines only,
    and the result ends with no newline, so tabs and spaces at either end
    stay.  When the run raises, [run] raises. *)
Theorem run_strips_final_newlines (result : subprocess_result) :
  match run result with
  | Ret out =>
      ∃ returncode stdout k,
        result = Completed returncode stdout
        ∧ stdout = out ++ newlines k
        ∧ ∀ x, out ≠ x ++ String "010" ""
  | Raise e =>
      ∀ returncode stdout, result ≠ Completed returncode stdout
  end.
Proof.
  destruct result as [returncode stdout| | |e]; simpl; try discriminate.
  destruct (rstrip_char_spec "010" stdout) as (k & Hk & Hend).
  by exists returncode, stdout, k.
Qed.

(** *** Prefixes *)

Lemma strip_prefix_cons (a b : ascii) (p s : string) :
  Json.strip_prefix (String a p) (String b s) =
  if Ascii.eqb a b then Json.strip_prefix p s else None.
Proof. reflexivity. Qed.

Lemma strip_prefix_Some (p s r : string) :
  Json.strip_prefix p s = Some r → s = p ++ r.
Proof.
  revert s. induction p as [|a p IH]; intros s; simpl.
  - by intros [= ->].
  - destruct s as [|b s]; [discriminate|].
    destruct (Ascii.eqb_spec a b) as [->|]; [|discriminate].
    intros H. rewrite app_cons. f_equal. by apply IH.
Qed.

Lemma strip_prefix_app (p r : string) : Json.strip_prefix p (p ++ r) = Some r.
Proof.
  induction p as [|a p IH]; [reflexivity|]. rewrite app_cons. simpl.
  by rewrite Ascii.eqb_refl.
Qed.

Lemma first_prefix_Some (ps : list string) (s r : string) :
  first_prefix ps s = Some r → ∃ p, p ∈ ps ∧ s = p ++ r.
Proof.
  induction ps as [|p ps IH]; simpl; [discriminate|].
  destruct (Json.strip_prefix p s) as [r'|] eqn:E.
  - intros [= ->]. exists p. split; [by apply elem_of_cons; left|].
    by apply strip_prefix_Some.
  - intros (q & Hq & Hs)%IH. exists q. split; [by apply elem_of_cons; right|done].
Qed.

Lemma first_prefix_None (ps : list string) (s : string) :
  first_prefix ps s = None ↔ Forall (fun p => Json.strip_prefix p s = None) ps.
Proof.
  induction ps as [|p ps IH]; simpl; [by split; [constructor|]|].
  rewrite Forall_cons, <- IH.
  destruct (Json.strip_prefix p s); split; try done; by intros [? ?].
Qed.

(** A text that starts with [p] starts with it whatever follows. *)
Lemma strip_prefix_more (p s r t : string) :
  Json.strip_prefix p s = Some r → Json.strip_prefix p (s ++ t) = Some (r ++ t).
Proof.
  intros ->%strip_prefix_Some. rewrite app_assoc. apply strip_prefix_app.
Qed.

(** A prefix that holds no newline and does not open [q] does not open
    [q] followed by a newline. *)
Lemma strip_prefix_newline (p q rest : string) :
  PyStr.contains "010" p = false →
  Json.strip_prefix p q = None →
  Json.strip_prefix p (q ++ String "010" rest) = None.
Proof.
  revert q. induction p as [|a p IH]; intros q Hp; simpl; [discriminate|].
  rewrite contains_cons in Hp.
  destruct (Ascii.eqb_spec "010"%char a) as [<-|Hne]; [discriminate|].
  destruct q as [|b q].
  - intros _. change ("" ++ String "010" rest) with (String "010" rest). simpl.
    destruct (Ascii.eqb_spec a "010"); [congruence|reflexivity].
  - rewrite app_cons. destruct (Ascii.eqb a b); [|reflexivity]. by apply IH.
Qed.

(** *** Line boundaries *)

Lemma line_breaks_tails :
  Forall (fun p => ∃ a t, p = String a t ∧ PyStr.contains "010" t = false)
    (map Json.utf8 line_breaks).
Proof. vm_compute. repeat constructor; by eexists _, _. Qed.

Lemma after_break_newline (rest : string) :
  after_break (String "010" rest) = Some rest.
Proof. reflexivity. Qed.

Lemma strip_prefixes_newline (ps : list string) (b : ascii) (q rest : string) :
  Forall (fun p => ∃ a t, p = String a t ∧ PyStr.contains "010" t = false) ps →
  Forall (fun p => Json.strip_prefix p (String b q) = None) ps →
  Forall (fun p => Json.strip_prefix p (String b (q ++ String "010" rest)) = None) ps.
Proof.
  induction 1 as [|p ps (a & t & -> & Ht) _ IH]; [constructor|].
  intros [Hp Hps]%Forall_cons. constructor; [|by apply IH].
  rewrite strip_prefix_cons in Hp |- *. destruct (Ascii.eqb a b); [|reflexivity].
  by apply strip_prefix_newline.
Qed.

(** No boundary at the head of a text, none when a newline follows it. *)
Lemma after_break_app (q rest : string) :
  q ≠ "" → after_break q = None → after_break (q ++ String "010" rest) = None.
Proof.
  intros Hq. unfold after_break.
  destruct (Json.strip_prefix (String "013" (String "010" "")) q) eqn:Hcrlf;
    [discriminate|].
  intros Hnone. pose proof Hnone as Hall. apply first_prefix_None in Hall.
  destruct q as [|b q]; [done|]. rewrite app_cons.
  assert (Json.strip_prefix (String "013" (String "010" ""))
            (String b (q ++ String "010" rest)) = None) as ->.
  { rewrite strip_prefix_cons.
    destruct (Ascii.eqb_spec "013"%char b) as [<-|]; [|reflexivity].
    exfalso. apply Forall_forall with (x := String "013" "") in Hall.
    - discriminate Hall.
    - vm_compute. do 3 (apply elem_of_cons; right). by apply elem_of_cons; left. }
  apply first_prefix_None.
  by apply strip_prefixes_newline; [apply line_breaks_tails|].
Qed.

Lemma after_break_length (s r : string) :
  after_break s = Some r → (String.length r < String.length s)%nat.
Proof.
  unfold after_break.
  destruct (Json.strip_prefix _ s) as [r'|] eqn:E.
  - intros [= ->]. apply strip_prefix_Some in E as ->. rewrite length_app. simpl. lia.
  - intros (p & Hp & ->)%first_prefix_Some. rewrite length_app.
    assert (p ≠ "") as Hne.
    { intros ->. revert Hp. vm_compute.
      intros H. repeat (apply elem_of_cons in H as [[=]|H]). by apply elem_of_nil in H. }
    destruct p; [done|]. simpl. lia.
Qed.

Lemma splitlines_fuel_cons (f : nat) (c : ascii) (r line : string) :
  splitlines_fuel (S f) (String c r) line =
  match after_break (String c r) with
  | Some rest => line :: splitlines_fuel f rest ""
  | None => splitlines_fuel f r (line ++ String c "")
  end.
Proof. reflexivity. Qed.

Lemma splitlines_fuel_enough (f f' : nat) (s line : string) :
  (String.length s < f)%nat → (String.length s < f')%nat →
  splitlines_fuel f s line = splitlines_fuel f' s line.
Proof.
  revert f' s line. induction f as [|f IH]; intros f' s line Hf Hf'; [lia|].
  destruct f' as [|f']; [lia|].
  destruct s as [|c r]; [reflexivity|]. simpl in Hf, Hf'.
  rewrite !splitlines_fuel_cons.
  destruct (after_break (String c r)) as [rest|] eqn:E.
  - apply after_break_length in E. simpl in E. f_equal. apply IH; lia.
  - apply IH; lia.
Qed.

(** A line and the newline after it. *)
Lemma splitlines_fuel_line (l : string) :
  one_line l = true →
  ∀ fuel rest line,
    (String.length l + String.length rest + 1 < fuel)%nat →
    splitlines_fuel fuel (l ++ String "010" rest) line =
    (line ++ l) :: splitlines rest.
Proof.
  induction l as [|c l IH]; intros Hl fuel rest line Hfuel.
  - change ("" ++ String "010" rest) with (String "010" rest).
    destruct fuel as [|f]; [lia|].
    rewrite splitlines_fuel_cons, after_break_newline, app_nil_r. f_equal.
    apply splitlines_fuel_enough; simpl in *; lia.
  - simpl in Hl. destruct (after_break (String c l)) eqn:E; [discriminate|].
    destruct fuel as [|f]; [lia|]. rewrite app_cons, splitlines_fuel_cons.
    assert (String c l ≠ "") as Hq by discriminate.
    rewrite <- app_cons, (after_break_app _ rest Hq E).
    rewrite (IH Hl) by (simpl in Hfuel; lia).
    by rewrite app_assoc.
Qed.

(** The last line, which no newline follows. *)
Lemma splitlines_fuel_last (l : string) :
  one_line l = true →
  ∀ fuel line,
    (String.length l < fuel)%nat → line ++ l ≠ "" →
    splitlines_fuel fuel l line = [line ++ l].
Proof.
  induction l as [|c l IH]; intros Hl fuel line Hfuel Hne.
  - destruct fuel as [|f]; [lia|]. simpl. rewrite app_nil_r in Hne |- *.
    destruct (String.eqb_spec line ""); [contradiction|reflexivity].
  - simpl in Hl. destruct (after_break (String c l)) eqn:E; [discriminate|].
    destruct fuel as [|f]; [lia|]. rewrite splitlines_fuel_cons, E.
    rewrite (IH Hl) by (simpl in Hfuel; try lia; rewrite app_assoc; exact Hne).
    by rewrite app_assoc.
Qed.

Lemma one_line_no_final_newline (l x : string) :
  one_line l = true → l ≠ x ++ String "010" "".
Proof.
  intros Hl ->. induction x as [|c x IH].
  - discriminate Hl.
  - rewrite app_cons in Hl. simpl in Hl.
    destruct (after_break _); [discriminate|]. by apply IH.
Qed.

Lemma concat_cons_cons (sep x y : string) (l : list string) :
  String.concat sep (x :: y :: l) = x ++ sep ++ String.concat sep (y :: l).
Proof. reflexivity. Qed.

(** Lines joined by newlines are the lines that [splitlines] reads. *)
Lemma splitlines_joined (lines : list string) :
  Forall (fun l => one_line l = true ∧ l ≠ "") lines →
  splitlines (String.concat (String "010" "") lines) = lines.
Proof.
  induction 1 as [|l lines [Hl Hne] Hrest IH]; [reflexivity|].
  destruct lines as [|l' lines].
  - simpl String.concat. unfold splitlines.
    rewrite (splitlines_fuel_last l Hl) by (try lia; exact Hne). reflexivity.
  - rewrite concat_cons_cons. unfold splitlines at 1.
    change (String "010" "" ++ ?x) with (String "010" x).
    rewrite (splitlines_fuel_line l Hl).
    + by rewrite IH.
    + rewrite length_app. simpl. lia.
Qed.

Lemma app_snoc_end (u t x : string) (c : ascii) :
  u ++ t = x ++ String c "" → t ≠ "" → ∃ x', t = x' ++ String c "".
Proof.
  revert x. induction u as [|a u IH]; intros x Hx Ht.
  - by exists x.
  - rewrite app_cons in Hx.
    apply cons_eq_snoc in Hx as [(_ & Hu & _)|(x0 & _ & Hu)].
    + destruct u; [|discriminate Hu]. by destruct t.
    + by apply (IH x0).
Qed.

Lemma concat_last_line (l : string) (lines : list string) :
  Forall (fun l => one_line l = true ∧ l ≠ "") (l :: lines) →
  ∃ pre last, String.concat (String "010" "") (l :: lines) = pre ++ last
              ∧ one_line last = true ∧ last ≠ "".
Proof.
  revert l. induction lines as [|l' lines IH]; intros l Hlines.
  - apply Forall_cons in Hlines as [[Hl Hne] _]. by exists "", l.
  - apply Forall_cons in Hlines as [_ Hlines].
    destruct (IH l' Hlines) as (pre & last & E & Hl & Hne).
    exists (l ++ String "010" "" ++ pre), last.
    rewrite concat_cons_cons, E, !app_assoc. by split.
Qed.

Lemma printed_cons (l : string) (lines : list string) :
  Tmux.printed (l :: lines) = l ++ String "010" (Tmux.printed lines).
Proof.
  unfold Tmux.printed. destruct lines as [|l' lines].
  - reflexivity.
  - change (map ?f (l :: ?t)) with (f l :: map f t).
    change (map ?f (l' :: ?t)) with (f l' :: map f t).
    rewrite concat_cons_cons.
    change ("" ++ ?x) with x. by rewrite app_assoc.
Qed.

(** What tmux prints, as [run] returns it. *)
Lemma rstrip_printed (lines : list string) :
  Forall (fun l => one_line l = true ∧ l ≠ "") lines →
  rstrip_char "010" (Tmux.printed lines) = String.concat (String "010" "") lines.
Proof.
  intros Hlines. destruct lines as [|l lines]; [reflexivity|].
  assert (Tmux.printed (l :: lines) =
          String.concat (String "010" "") (l :: lines) ++ String "010" "") as ->.
  { clear Hlines. revert l. induction lines as [|l' lines IH]; intros l.
    - reflexivity.
    - rewrite printed_cons, IH, concat_cons_cons, !app_assoc. reflexivity. }
  rewrite rstrip_char_snoc. apply rstrip_char_id.
  intros x Hx. destruct (concat_last_line l lines Hlines) as (pre & last & E & Hl & Hne).
  rewrite E in Hx. apply app_snoc_end in Hx as [x' ->]; [|exact Hne].
  by apply (one_line_no_final_newline _ x') in Hl.
Qed.
(** *** Fields *)

Lemma split_char_cons (c d : ascii) (r : string) :
  split_char c (String d r) =
  if Ascii.eqb d c then "" :: split_char c r
  else match split_char c r with
       | w :: ws => String d w :: ws
       | [] => [String d ""]
       end.
Proof. reflexivity. Qed.

Lemma split_char_no_sep (c : ascii) (a : string) :
  PyStr.contains c a = false → split_char c a = [a].
Proof.
  induction a as [|d a IH]; [reflexivity|]. rewrite contains_cons, split_char_cons.
  rewrite Ascii.eqb_sym. destruct (Ascii.eqb d c); [discriminate|].
  intros H. by rewrite (IH H).
Qed.

Lemma split_char_app (c : ascii) (a rest : string) :
  PyStr.contains c a = false →
  split_char c (a ++ String c rest) = a :: split_char c rest.
Proof.
  induction a as [|d a IH].
  - intros _. change ("" ++ String c rest) with (String c rest).
    by rewrite split_char_cons, Ascii.eqb_refl.
  - rewrite contains_cons, app_cons, split_char_cons, Ascii.eqb_sym.
    destruct (Ascii.eqb d c); [discriminate|]. intros H. by rewrite (IH H).
Qed.

Lemma length_split_char (s : string) :
  length (split_char "009" s) = S (count_tabs s).
Proof.
  induction s as [|d r IH]; [reflexivity|]. rewrite split_char_cons. simpl count_tabs.
  destruct (Ascii.eqb d "009"); simpl; [by rewrite IH|].
  destruct (split_char "009" r); simpl in *; lia.
Qed.

(** *** White space *)

Lemma has_visible_app (p r : string) :
  has_visible (p ++ r) = has_visible p || has_visible r.
Proof.
  induction p as [|c p IH]; [reflexivity|]. rewrite app_cons. simpl.
  by rewrite IH, orb_assoc.
Qed.

Lemma whitespace_invisible :
  Forall (fun p => has_visible p = false) (map Json.utf8 whitespace).
Proof. vm_compute. repeat constructor. Qed.

Lemma after_space_visible (s r : string) :
  after_space s = Some r → has_visible s = has_visible r.
Proof.
  intros (p & Hp & ->)%first_prefix_Some. rewrite has_visible_app.
  pose proof whitespace_invisible as H. rewrite Forall_forall in H.
  by rewrite (H p Hp).
Qed.

Lemma lstrip_fuel_visible (fuel : nat) (s : string) :
  has_visible (lstrip_fuel fuel s) = has_visible s.
Proof.
  revert s. induction fuel as [|f IH]; intros s; simpl; [reflexivity|].
  destruct (after_space s) as [r|] eqn:E; [|reflexivity].
  rewrite IH. symmetry. by apply after_space_visible.
Qed.

(** A line with a visible character is no blank line. *)
Lemma strip_visible (s : string) : has_visible s = true → strip s ≠ "".
Proof.
  intros Hs. unfold strip.
  assert (has_visible (lstrip s) = true) as H1
    by (unfold lstrip; by rewrite lstrip_fuel_visible).
  assert (has_visible (lstrip (lstrip s)) = true) as H2
    by (unfold lstrip at 1; by rewrite lstrip_fuel_visible).
  destruct (lstrip s) as [|c r]; [discriminate|].
  simpl rstrip. destruct (String.eqb_spec (lstrip (String c r)) "") as [E|]; [|done].
  by rewrite E in H2.
Qed.

(** *** Numbers *)

Lemma pretty_N_go_app (x : N) (s : string) :
  pretty_N_go x s = pretty_N_go x "" ++ s.
Proof.
  revert s. induction (N.lt_wf_0 x) as [x _ IH]; intros s.
  destruct (decide (0 < x)%N) as [Hx|Hx].
  - assert (x `div` 10 < x)%N as Hlt by (by apply N.div_lt).
    rewrite !(pretty_N_go_step x) by done.
    rewrite (IH _ Hlt (String _ s)), (IH _ Hlt (String _ "")).
    by rewrite app_assoc.
  - assert (x = 0%N) as -> by lia. by rewrite !pretty_N_go_0.
Qed.

Lemma pretty_N_char_digit (d : N) :
  (d < 10)%N →
  Json.is_digit (pretty_N_char d) = true
  ∧ Json.digit_val (pretty_N_char d) = Z.of_N d
  ∧ pretty_N_char d ≠ "_"%char.
Proof.
  intros Hd.
  assert (d = 0 ∨ d = 1 ∨ d = 2 ∨ d = 3 ∨ d = 4 ∨ d = 5 ∨ d = 6 ∨ d = 7 ∨ d = 8 ∨ d = 9)%N
    as H by lia.
  repeat (destruct H as [->|H]; [by vm_compute|]). subst. by vm_compute.
Qed.

Lemma digits_cons (c : ascii) (s : string) (acc : Z) (after_digit : bool) :
  Json.is_digit c = true →
  PyInt.digits (String c s) acc after_digit =
  PyInt.digits s (acc * 10 + Json.digit_val c) true.
Proof. intros H. simpl. by rewrite H. Qed.

(** The digits that [pretty] writes read back. *)
Lemma digits_pretty_N_go (x : N) :
  (0 < x)%N →
  ∃ k : Z, ∀ (t : string) (acc : Z) (after_digit : bool),
    PyInt.digits (pretty_N_go x "" ++ t) acc after_digit =
    PyInt.digits t (acc * k + Z.of_N x) true.
Proof.
  induction (N.lt_wf_0 x) as [x _ IH]. intros Hx.
  rewrite (pretty_N_go_step x), pretty_N_go_app by done.
  destruct (pretty_N_char_digit (x `mod` 10)%N) as (Hd & Hv & _);
    [by apply N.mod_lt|].
  destruct (decide (0 < x `div` 10)%N) as [Hq|Hq].
  - destruct (IH (x `div` 10)%N) as [k Hk]; [by apply N.div_lt|done|].
    exists (k * 10). intros t acc after_digit.
    rewrite app_assoc, Hk, app_cons. change ("" ++ t) with t.
    rewrite digits_cons, Hv by done. f_equal.
    assert (Z.of_N x = 10 * Z.of_N (x `div` 10) + Z.of_N (x `mod` 10)) as Hdm
      by (rewrite (N.div_mod x 10) at 1 by done;
          by rewrite N2Z.inj_add, N2Z.inj_mul).
    rewrite Hdm. ring.
  - assert (x `div` 10 = 0)%N as E
      by (apply N.le_0_r, N.nlt_ge; exact Hq). rewrite E, pretty_N_go_0.
    exists 10. intros t acc after_digit.
    change ("" ++ ?y) with y. rewrite app_cons. change ("" ++ t) with t.
    rewrite digits_cons, Hv by done. f_equal.
    assert (Z.of_N x = 10 * Z.of_N (x `div` 10) + Z.of_N (x `mod` 10)) as Hdm
      by (rewrite (N.div_mod x 10) at 1 by done;
          by rewrite N2Z.inj_add, N2Z.inj_mul).
    rewrite Hdm, E. ring.
Qed.

Lemma pretty_N_go_head (x : N) :
  (0 < x)%N →
  ∃ c r, pretty_N_go x "" = String c r ∧ Json.is_digit c = true.
Proof.
  induction (N.lt_wf_0 x) as [x _ IH]. intros Hx.
  rewrite (pretty_N_go_step x), pretty_N_go_app by done.
  destruct (decide (0 < x `div` 10)%N) as [Hq|Hq].
  - destruct (IH (x `div` 10)%N) as (c & r & -> & Hc); [by apply N.div_lt|done|].
    rewrite app_cons. by eexists _, _.
  - assert (x `div` 10 = 0)%N as E
      by (apply N.le_0_r, N.nlt_ge; exact Hq). rewrite E, pretty_N_go_0.
    change ("" ++ ?y) with y.
    destruct (pretty_N_char_digit (x `mod` 10)%N) as (Hd & _); [by apply N.mod_lt|].
    by eexists _, _.
Qed.

Lemma digit_not_space_sign (c : ascii) :
  Json.is_digit c = true →
  PyInt.is_space c = false ∧ c ≠ "-"%char ∧ c ≠ "+"%char.
Proof.
  unfold Json.is_digit, PyInt.is_space. intros [H1 H2]%andb_true_iff.
  apply N.leb_le in H1, H2. split; [|split].
  - apply orb_false_iff. split.
    + apply andb_false_iff. right. apply N.leb_gt. lia.
    + apply N.eqb_neq. lia.
  - intros ->. vm_compute in H2. by apply H2.
  - intros ->. vm_compute in H1. by apply H1.
Qed.

Lemma int_ascii_digits (c : ascii) (r : string) :
  Json.is_digit c = true →
  PyInt.count_digits (String c r) <= PyInt.max_str_digits →
  PyInt.int_ascii (String c r) = PyInt.digits (String c r) 0 false.
Proof.
  intros Hc Hn. destruct (digit_not_space_sign c Hc) as (Hs & Hm & Hp).
  unfold PyInt.int_ascii.
  destruct (Z.ltb_spec PyInt.max_str_digits (PyInt.count_digits (String c r))); [lia|].
  simpl PyInt.lstrip. rewrite Hs.
  destruct c as [[] [] [] [] [] [] [] []]; try reflexivity; congruence.
Qed.

(** On a text of ASCII characters [int] reads the text as it is. *)
Lemma int_ascii_text (s : string) :
  ascii_text s = true → PyInt.int s = PyInt.int_ascii s.
Proof.
  intros Hs. unfold PyInt.int.
  assert (∃ cps, PyInt.code_points s = Some cps ∧ PyInt.all_ascii cps = Some s)
    as (cps & -> & ->); [|reflexivity].
  induction s as [|c s IH]; [by exists []|].
  cbn [ascii_text] in Hs. apply andb_true_iff in Hs as [Hc Hs].
  destruct (IH Hs) as (cps & E1 & E2).
  exists (Z.of_N (N_of_ascii c) :: cps). apply N.ltb_lt in Hc. split.
  - cbn [PyInt.code_points].
    destruct (Z.ltb_spec (Z.of_N (N_of_ascii c)) 128) as [_|]; [|lia].
    by rewrite E1.
  - cbn [PyInt.all_ascii]. rewrite E2. unfold PyInt.to_ascii.
    destruct (Z.ltb_spec (Z.of_N (N_of_ascii c)) 128) as [_|]; [|lia].
    unfold Json.byte. by rewrite N2Z.id, ascii_N_embedding.
Qed.

Lemma count_digits_app (a b : string) :
  PyInt.count_digits (a ++ b) = PyInt.count_digits a + PyInt.count_digits b.
Proof.
  induction a as [|c a IH]; [reflexivity|]. rewrite app_cons. cbn [PyInt.count_digits].
  destruct (Json.is_digit c); lia.
Qed.

Lemma ascii_text_app (a b : string) :
  ascii_text (a ++ b) = ascii_text a && ascii_text b.
Proof.
  induction a as [|c a IH]; [reflexivity|]. rewrite app_cons. cbn [ascii_text].
  by rewrite IH, andb_assoc.
Qed.

(** The digits of a number below [10 ^ k]: there are [k] at most, and
    they are ASCII. *)
Lemma pretty_N_go_digits_le (k : nat) (x : N) :
  (x < 10 ^ N.of_nat k)%N →
  PyInt.count_digits (pretty_N_go x "") <= Z.of_nat k
  ∧ ascii_text (pretty_N_go x "") = true.
Proof.
  revert x. induction k as [|k IH]; intros x Hx.
  - assert (x = 0%N) as -> by (simpl in Hx; lia). by rewrite pretty_N_go_0.
  - destruct (decide (0 < x)%N) as [Hpos|Hz].
    2:{ assert (x = 0%N) as -> by lia. rewrite pretty_N_go_0. simpl. lia. }
    rewrite (pretty_N_go_step x), pretty_N_go_app by done.
    destruct (IH (x `div` 10)%N) as [Hc Ha].
    { apply N.Div0.div_lt_upper_bound.
      rewrite Nat2N.inj_succ, N.pow_succ_r' in Hx. exact Hx. }
    destruct (pretty_N_char_digit (x `mod` 10)%N) as (Hd & _ & _);
      [by apply N.mod_lt|].
    rewrite count_digits_app, ascii_text_app, Ha. cbn [PyInt.count_digits ascii_text].
    rewrite Hd. split; [lia|].
    unfold Json.is_digit in Hd. apply andb_true_iff in Hd as [_ Hd].
    apply N.leb_le in Hd.
    destruct (N.ltb_spec (N_of_ascii (pretty_N_char (x `mod` 10))) 128); [done|lia].
Qed.

(** [int(str(n))] is [n], for a number that [int] is willing to read. *)
Lemma int_pretty (n : Z) : short_integer n → PyInt.int (pretty n) = Some n.
Proof.
  assert (∀ p : positive, Z.pos p < 10 ^ 4300 →
            PyInt.count_digits (pretty (N.pos p)) <= PyInt.max_str_digits
            ∧ ascii_text (pretty (N.pos p)) = true
            ∧ PyInt.digits (pretty (N.pos p)) 0 false = Some (Z.pos p)) as Hpos.
  { intros p Hp. unfold pretty, pretty_N.
    destruct (decide (N.pos p = 0%N)) as [|_]; [done|].
    destruct (pretty_N_go_digits_le 4300 (N.pos p)) as [Hc Ha].
    { apply N2Z.inj_lt. rewrite N2Z.inj_pow. exact Hp. }
    split; [exact Hc|]. split; [exact Ha|].
    destruct (digits_pretty_N_go (N.pos p)) as [k Hk]; [done|].
    specialize (Hk "" 0 false). rewrite app_nil_r in Hk. exact Hk. }
  unfold short_integer. intros Hn. destruct n as [|p|p].
  - reflexivity.
  - destruct (Hpos p Hn) as (Hc & Ha & Hd).
    change (pretty (Z.pos p)) with (pretty (N.pos p)).
    rewrite (int_ascii_text _ Ha).
    unfold pretty, pretty_N in Hc, Hd |- *.
    destruct (decide (N.pos p = 0%N)) as [|_]; [done|].
    destruct (pretty_N_go_head (N.pos p)) as (c & r & E & Hdig); [done|].
    rewrite E in Hc, Hd |- *. by rewrite (int_ascii_digits c r Hdig Hc).
  - destruct (Hpos p Hn) as (Hc & Ha & Hd).
    change (pretty (Z.neg p)) with (String "-" (pretty (N.pos p))).
    rewrite int_ascii_text by (cbn [ascii_text]; by rewrite Ha).
    unfold PyInt.int_ascii. cbn [PyInt.count_digits].
    change (Json.is_digit "-") with false. cbv iota.
    destruct (Z.ltb_spec PyInt.max_str_digits (PyInt.count_digits (pretty (N.pos p))));
      [lia|].
    simpl PyInt.lstrip. change (PyInt.is_space "-") with false. cbv iota.
    rewrite Hd. reflexivity.
Qed.

Lemma pretty_Z_no_tab (n : Z) : PyStr.contains "009" (pretty n) = false.
Proof.
  assert (∀ x s, PyStr.contains "009" s = false →
                 PyStr.contains "009" (pretty_N_go x s) = false) as Hgo.
  { intros x. induction (N.lt_wf_0 x) as [x _ IH]; intros s Hs.
    destruct (decide (0 < x)%N) as [Hx|Hx].
    - rewrite pretty_N_go_step by done. apply IH; [by apply N.div_lt|].
      rewrite contains_cons.
      destruct (pretty_N_char_digit (x `mod` 10)%N) as (Hd & _); [by apply N.mod_lt|].
      destruct (Ascii.eqb_spec "009"%char (pretty_N_char (x `mod` 10))) as [E|]; [|done].
      rewrite <- E in Hd. discriminate Hd.
    - assert (x = 0%N) as -> by lia. by rewrite pretty_N_go_0. }
  assert (∀ p : positive, PyStr.contains "009" (pretty (N.pos p)) = false) as Hpos.
  { intros p. unfold pretty, pretty_N. destruct (decide _); [done|]. by apply Hgo. }
  destruct n as [|p|p]; [reflexivity|apply Hpos|].
  change (pretty (Z.neg p)) with (String "-" (pretty (N.pos p))).
  rewrite contains_cons. apply Hpos.
Qed.

End texts.
(** ** The snapshot of a session *)

Section snapshot_reads_back.

Import PyText.

Variables (pgrep ps : string → subprocess_result)
  (tmux : list string → subprocess_result)
  (full_hostname : string) (cmdline : string → string).

Lemma bind_Ret {A B} (a : A) (k : A → outcome B) : (x ← Ret a; k x) = k a.
Proof. reflexivity. Qed.

Lemma visible_nonempty (s : string) : has_visible s = true → s ≠ "".
Proof. by destruct s. Qed.

Lemma split_tab_app (a rest : string) :
  PyStr.contains "009" a = false →
  split_char "009" (a ++ String "009" "" ++ rest) = a :: split_char "009" rest.
Proof. apply split_char_app. Qed.

Lemma pane_line_fields (p : Tmux.pane) :
  Tmux.pane_ok p →
  strip (Tmux.pane_line p) ≠ ""
  ∧ split_char "009" (Tmux.pane_line p) =
      [ Tmux.pane_title p; Tmux.pane_current_command p;
        Tmux.pane_current_path p; Tmux.pane_pid p ].
Proof.
  intros (Ht & Hc & Hp & Hpid & Hv & _). unfold Tmux.pane_line, Tmux.tab. split.
  - apply strip_visible. rewrite !has_visible_app, Hv.
    by rewrite !orb_true_r.
  - rewrite !split_tab_app by done. by rewrite split_char_no_sep.
Qed.

Lemma window_line_fields (w : Tmux.window) :
  Tmux.window_ok w →
  strip (Tmux.window_line w) ≠ ""
  ∧ split_char "009" (Tmux.window_line w) =
      [Tmux.window_id w; pretty (Tmux.window_index w); Tmux.window_name w].
Proof.
  intros (Hid & Hname & Hv & _). unfold Tmux.window_line, Tmux.tab. split.
  - apply strip_visible. by rewrite !has_visible_app, Hv.
  - rewrite !split_tab_app by (done || apply pretty_Z_no_tab).
    by rewrite split_char_no_sep.
Qed.

Lemma gather_panes_reads_back (panes : list Tmux.pane) :
  Forall Tmux.pane_ok panes →
  (∀ p, p ∈ panes →
     get_child_cmdline pgrep ps (Tmux.pane_pid p) = Ret (cmdline (Tmux.pane_pid p))) →
  gather_panes pgrep ps full_hostname (map Tmux.pane_line panes) =
  Ret (map (Tmux.pane_context full_hostname cmdline) panes).
Proof.
  induction 1 as [|p panes Hp _ IH]; intros Hcmd; [reflexivity|].
  destruct (pane_line_fields p Hp) as [Hblank Hfields].
  cbn [map gather_panes]. rewrite Hfields.
  destruct (String.eqb_spec (strip (Tmux.pane_line p)) ""); [contradiction|].
  rewrite (Hcmd p) by (by apply elem_of_cons; left). rewrite bind_Ret.
  rewrite IH by (intros p' Hp'; apply Hcmd; by apply elem_of_cons; right).
  reflexivity.
Qed.

Lemma lines_ok {A} (line : A → string) (ok : A → Prop) (l : list A) :
  (∀ x, ok x → one_line (line x) = true ∧ strip (line x) ≠ "") →
  Forall ok l →
  Forall (fun l => one_line l = true ∧ l ≠ "") (map line l).
Proof.
  intros Hok Hl. apply Forall_forall. intros s Hs.
  apply list_elem_of_In, in_map_iff in Hs as (x & <- & Hx).
  rewrite Forall_forall in Hl. destruct (Hok x) as [H1 H2].
  { by apply Hl, list_elem_of_In. }
  split; [exact H1|]. intros E. apply H2. by rewrite E.
Qed.

Lemma gather_windows_reads_back (windows : list Tmux.window) :
  Forall Tmux.window_ok windows →
  (∀ w, w ∈ windows →
     ∃ returncode,
       tmux (Tmux.list_panes (Tmux.window_id w)) =
       Completed returncode (Tmux.printed (map Tmux.pane_line (Tmux.panes w)))) →
  (∀ w p, w ∈ windows → p ∈ Tmux.panes w →
     get_child_cmdline pgrep ps (Tmux.pane_pid p) = Ret (cmdline (Tmux.pane_pid p))) →
  gather_windows pgrep ps tmux full_hostname (map Tmux.window_line windows) =
  Ret (map (Tmux.window_context full_hostname cmdline) windows).
Proof.
  induction 1 as [|w windows Hw _ IH]; intros Hpanes Hcmd; [reflexivity|].
  destruct (window_line_fields w Hw) as [Hblank Hfields].
  cbn [map gather_windows]. rewrite Hfields.
  destruct (String.eqb_spec (strip (Tmux.window_line w)) ""); [contradiction|].
  destruct (Hpanes w) as [returncode Hrun]; [by apply elem_of_cons; left|].
  destruct Hw as (_ & _ & _ & _ & Hpw & Hshort).
  change [ "list-panes"; "-t"; Tmux.window_id w; "-F"; _ ]
    with (Tmux.list_panes (Tmux.window_id w)).
  rewrite Hrun. cbn [run]. rewrite bind_Ret.
  rewrite rstrip_printed, splitlines_joined.
  2,3: apply (lines_ok Tmux.pane_line Tmux.pane_ok); [|exact Hpw];
       intros p Hp; split; [apply Hp|by apply pane_line_fields].
  rewrite gather_panes_reads_back;
    [|exact Hpw|intros p Hp; apply (Hcmd w); [by apply elem_of_cons; left|exact Hp]].
  rewrite bind_Ret. unfold int_of. rewrite int_pretty, bind_Ret by exact Hshort.
  rewrite IH.
  - reflexivity.
  - intros w' Hw'. apply Hpanes. by apply elem_of_cons; right.
  - intros w' p Hw'. apply Hcmd. by apply elem_of_cons; right.
Qed.

(** X8. The snapshot reads back what tmux prints.  Take a session whose
    windows and panes have no tab in a field and no line boundary in a
    line, with visible window ids and pids.  When [list-windows] and
    [list-panes] print them under the formats of
    [gather_session_context], and [get_child_cmdline] returns for each
    pane, the snapshot has exactly these windows, in order, each with its
    id, index and name and with its panes in order; a pane keeps its
    command and path, its directory is the last component of the path,
    its command line is the one of the child of its pid, and its title is
    emptied when it is a host name. *)
Theorem gather_session_context_reads_back (session_id session_path : string)
    (windows : list Tmux.window) :
  (∃ returncode,
     tmux (Tmux.list_windows session_id) =
     Completed returncode (Tmux.printed (map Tmux.window_line windows))) →
  (∀ w, w ∈ windows →
     ∃ returncode,
       tmux (Tmux.list_panes (Tmux.window_id w)) =
       Completed returncode (Tmux.printed (map Tmux.pane_line (Tmux.panes w)))) →
  run (tmux (Tmux.display_path session_id)) = Ret session_path →
  Forall Tmux.window_ok windows →
  (∀ w p, w ∈ windows → p ∈ Tmux.panes w →
     get_child_cmdline pgrep ps (Tmux.pane_pid p) = Ret (cmdline (Tmux.pane_pid p))) →
  gather_session_context pgrep ps tmux full_hostname session_id =
  Ret (SessionContext.mk session_id session_path
         (map (Tmux.window_context full_hostname cmdline) windows)).
Proof.
  intros [returncode Hwindows] Hpanes Hpath Hok Hcmd.
  unfold gather_session_context.
  change [ "list-windows"; "-t"; session_id; "-F"; _ ]
    with (Tmux.list_windows session_id).
  change ["display-message"; "-t"; session_id; "-p"; "#{pane_current_path}"]
    with (Tmux.display_path session_id).
  rewrite Hwindows. cbn [run]. rewrite bind_Ret.
  rewrite rstrip_printed, splitlines_joined.
  2,3: apply (lines_ok Tmux.window_line Tmux.window_ok); [|exact Hok];
       intros w Hw; split; [apply Hw|by apply window_line_fields].
  rewrite gather_windows_reads_back by done.
  rewrite bind_Ret, Hpath. reflexivity.
Qed.

End snapshot_reads_back.

Lemma gather_session_context_reads_back_witness :
  gather_session_context example_pgrep example_ps example_tmux "box.lan" "$0" =
  Ret (SessionContext.mk "$0" "/home/u"
         [ WindowContext.mk "@1" 0 "edit"
             [PaneContext.mk "nvim" "nvim README.md" "doc" "/home/u/doc" "notes"];
           WindowContext.mk "@2" 1 ""
             [PaneContext.mk "bash" "" "u" "/home/u" ""] ]).
Proof.
  apply (gather_session_context_reads_back example_pgrep example_ps example_tmux
           "box.lan" example_cmdline "$0" "/home/u" example_windows).
  - by exists 0.
  - intros w Hw. exists 0. unfold example_windows in Hw.
    repeat (apply elem_of_cons in Hw as [->|Hw]; [reflexivity|]).
    by apply elem_of_nil in Hw.
  - reflexivity.
  - repeat constructor.
  - intros w p Hw Hp. unfold example_windows in Hw.
    repeat (apply elem_of_cons in Hw as [->|Hw];
            [simpl in Hp; apply list_elem_of_singleton in Hp as ->;
             vm_compute; reflexivity|]).
    by apply elem_of_nil in Hw.
Defined.
(** ** The lines behind a snapshot, and the child of a shell *)

Section snapshot_lines.

Import PyText.

Variables (pgrep ps : string → subprocess_result)
  (tmux : list string → subprocess_result)
  (full_hostname : string).

Lemma bind_Ret_inv {A B} (m : outcome A) (k : A → outcome B) (b : B) :
  (x ← m; k x) = Ret b → ∃ a, m = Ret a ∧ k a = Ret b.
Proof. destruct m as [a|e]; [by exists a|discriminate]. Qed.

Lemma gather_windows_Ret (lines : list string) (windows : list WindowContext.t) :
  gather_windows pgrep ps tmux full_hostname lines = Ret windows →
  Forall2 window_of_line (nonblank lines) windows.
Proof.
  revert windows. induction lines as [|line lines IH]; intros windows.
  - intros [= <-]. constructor.
  - cbn [gather_windows nonblank List.filter].
    destruct (String.eqb (strip line) ""); cbn [negb]; [apply IH|].
    destruct (split_char "009" line) as [|window_id [|window_index [|window_name [|? ?]]]]
      eqn:Hfields; try discriminate.
    intros (raw_panes & _ & H)%bind_Ret_inv.
    apply bind_Ret_inv in H as (panes & _ & H).
    apply bind_Ret_inv in H as (index & Hindex & H).
    apply bind_Ret_inv in H as (rest & Hrest & [= <-]).
    constructor; [|by apply IH].
    exists window_index. split; [exact Hfields|]. simpl.
    unfold int_of in Hindex. destruct (PyInt.int window_index); by inversion Hindex.
Qed.

(** X9. No window without a line, no line without a window.  When
    [gather_session_context] returns, the windows of the snapshot are, in
    order, the lines of the output of [list-windows] that are not blank:
    each such line has exactly two tabs, and its three fields are the id
    of the window, its index as a decimal number, and its name.  So a
    line with another number of tabs, as a window name that holds a tab
    gives, or an index that is no number, makes the call raise. *)
Theorem gather_session_context_lines (session_id : string)
    (context : SessionContext.t) :
  gather_session_context pgrep ps tmux full_hostname session_id = Ret context →
  SessionContext.session_id context = session_id
  ∧ ∃ raw_windows,
      run (tmux (Tmux.list_windows session_id)) = Ret raw_windows
      ∧ Forall (fun line => count_tabs line = 2%nat) (nonblank (splitlines raw_windows))
      ∧ Forall2 window_of_line (nonblank (splitlines raw_windows))
          (SessionContext.windows context).
Proof.
  unfold gather_session_context.
  change [ "list-windows"; "-t"; session_id; "-F"; _ ]
    with (Tmux.list_windows session_id).
  intros (raw_windows & Hraw & H)%bind_Ret_inv.
  apply bind_Ret_inv in H as (windows & Hwindows & H).
  apply bind_Ret_inv in H as (session_path & _ & [= <-]).
  split; [reflexivity|]. exists raw_windows. split; [exact Hraw|].
  apply gather_windows_Ret in Hwindows. split; [|exact Hwindows].
  simpl. induction Hwindows as [|line w lines ws (idx & Hfields & _) _ IH];
    constructor; [|exact IH].
  pose proof (length_split_char line) as Hlen. rewrite Hfields in Hlen.
  simpl in Hlen. lia.
Qed.

(** *** White space at the ends *)

Lemma after_space_length (s r : string) :
  after_space s = Some r → (String.length r < String.length s)%nat.
Proof.
  intros (p & Hp & ->)%first_prefix_Some. rewrite length_app.
  pose proof whitespace_invisible as Hw.
  assert (p ≠ "") as Hne.
  { intros ->. revert Hp. vm_compute.
    intros H. repeat (apply elem_of_cons in H as [[=]|H]). by apply elem_of_nil in H. }
  destruct p; [done|]. simpl. lia.
Qed.

Lemma after_space_empty : after_space "" = None.
Proof. reflexivity. Qed.

Lemma lstrip_fuel_no_space (fuel : nat) (s : string) :
  (String.length s ≤ fuel)%nat → after_space (lstrip_fuel fuel s) = None.
Proof.
  revert s. induction fuel as [|f IH]; intros s Hs.
  - destruct s; [reflexivity|simpl in Hs; lia].
  - simpl. destruct (after_space s) as [r|] eqn:E; [|exact E].
    apply IH. apply after_space_length in E. lia.
Qed.

Lemma rstrip_prefix (s : string) : ∃ t, s = rstrip s ++ t.
Proof.
  induction s as [|c r [t Ht]]; [by exists ""|]. simpl.
  destruct (String.eqb (lstrip (String c r)) ""); [by exists (String c r)|].
  exists t. rewrite app_cons. by rewrite <- Ht.
Qed.

(** White space at the head of a text is at the head of any text that
    it opens. *)
Lemma after_space_more (x t : string) :
  after_space (x ++ t) = None → after_space x = None.
Proof.
  unfold after_space. rewrite !first_prefix_None.
  intros H. eapply Forall_impl; [exact H|]. intros p Hp. simpl in Hp |- *. destruct (Json.strip_prefix p x) as [r|] eqn:E; [|reflexivity].
  by rewrite (strip_prefix_more _ _ _ t E) in Hp.
Qed.

Lemma strip_no_space (s : string) : after_space (strip s) = None.
Proof.
  unfold strip. destruct (rstrip_prefix (lstrip s)) as [t Ht].
  apply (after_space_more _ t). rewrite <- Ht.
  by apply lstrip_fuel_no_space.
Qed.

Lemma line_breaks_are_spaces (b : Z) : b ∈ line_breaks → b ∈ whitespace.
Proof.
  unfold line_breaks, whitespace. intros Hb.
  repeat (apply elem_of_cons in Hb as [->|Hb]; [repeat constructor|]).
  by apply elem_of_nil in Hb.
Qed.

(** A line boundary is white space. *)
Lemma after_break_space (x r : string) :
  after_break x = Some r → after_space x ≠ None.
Proof.
  unfold after_break, after_space. rewrite first_prefix_None, Forall_forall.
  intros Hb Hnone.
  assert (∃ (b : Z) (t : string), b ∈ line_breaks ∧ x = Json.utf8 b ++ t)
    as (b & t & Hin & ->).
  { destruct (Json.strip_prefix (String "013" (String "010" "")) x) as [r'|] eqn:E.
    - apply strip_prefix_Some in E as ->. exists 13, (String "010" r').
      split; [unfold line_breaks; repeat constructor|reflexivity].
    - apply first_prefix_Some in Hb as (p & Hp & ->).
      apply list_elem_of_In, in_map_iff in Hp as (b & <- & Hb).
      exists b, r. split; [by apply list_elem_of_In|reflexivity]. }
  specialize (Hnone (Json.utf8 b)). rewrite strip_prefix_app in Hnone.
  discriminate Hnone. apply list_elem_of_In, in_map, list_elem_of_In.
  by apply line_breaks_are_spaces.
Qed.

(** *** The first line and its first word *)

(** With a line begun, [splitlines] gives a first line that begins with
    it and opens the text. *)
Lemma splitlines_fuel_head (fuel : nat) (s line : string) :
  line ≠ "" → (String.length s < fuel)%nat →
  ∃ l ls u t, splitlines_fuel fuel s line = l :: ls
              ∧ l = line ++ u ∧ line ++ s = l ++ t.
Proof.
  revert s line. induction fuel as [|f IH]; intros s line Hline Hs; [lia|].
  destruct s as [|c r].
  - simpl. destruct (String.eqb_spec line ""); [contradiction|].
    exists line, [], "", "". by rewrite !app_nil_r.
  - rewrite splitlines_fuel_cons. destruct (after_break (String c r)) as [rest|].
    + exists line, (splitlines_fuel f rest ""), "", (String c r).
      by rewrite app_nil_r.
    + destruct (IH r (line ++ String c "")) as (l & ls & u & t & E & Hl & Ht).
      { apply snoc_nonempty. }
      { simpl in Hs. lia. }
      exists l, ls, (String c u), t. split; [exact E|].
      rewrite app_assoc in Hl, Ht. by split.
Qed.

Lemma split_fuel_cons (f : nat) (c : ascii) (r word : string) :
  split_fuel (S f) (String c r) word =
  match after_space (String c r) with
  | Some rest =>
      if String.eqb word "" then split_fuel f rest ""
      else word :: split_fuel f rest ""
  | None => split_fuel f r (word ++ String c "")
  end.
Proof. reflexivity. Qed.

(** With a word begun, [split] gives a word. *)
Lemma split_fuel_head (fuel : nat) (s word : string) :
  word ≠ "" → (String.length s < fuel)%nat →
  ∃ w ws, split_fuel fuel s word = w :: ws.
Proof.
  revert s word. induction fuel as [|f IH]; intros s word Hword Hs; [lia|].
  destruct s as [|c r].
  - simpl. destruct (String.eqb_spec word ""); [contradiction|]. by eexists _, _.
  - rewrite split_fuel_cons. destruct (after_space (String c r)) as [rest|].
    + destruct (String.eqb_spec word ""); [contradiction|]. by eexists _, _.
    + apply IH; [apply snoc_nonempty|simpl in Hs; lia].
Qed.

(** A text that is not empty and opens with no white space has a first
    line, and the line has a first word. *)
Lemma first_line_first_word (x : string) :
  x ≠ "" → after_space x = None →
  ∃ line lines child_pid words,
    splitlines x = line :: lines ∧ line ≠ ""
    ∧ split line = child_pid :: words.
Proof.
  intros Hx Hspace. destruct x as [|c r]; [done|].
  assert (after_break (String c r) = None) as Hbreak.
  { destruct (after_break (String c r)) eqn:E; [|reflexivity].
    by apply after_break_space in E. }
  unfold splitlines. rewrite splitlines_fuel_cons, Hbreak.
  destruct (splitlines_fuel_head (S (String.length r)) r ("" ++ String c ""))
    as (l & ls & u & t & E & Hl & Ht); [discriminate|lia|].
  simpl String.length. rewrite E.
  change ("" ++ String c "") with (String c "") in Hl, Ht.
  rewrite app_cons in Hl, Ht. change ("" ++ ?y) with y in Hl, Ht.
  exists l, ls. subst l.
  assert (after_space (String c u) = None) as Hline.
  { apply (after_space_more _ t). rewrite <- Ht. exact Hspace. }
  unfold split. rewrite split_fuel_cons, Hline.
  destruct (split_fuel_head (String.length (String c u)) u ("" ++ String c ""))
    as (w & ws & Ew); [discriminate|simpl; lia|].
  exists w, ws. by rewrite Ew.
Qed.

(** X10. The child of a shell.  When the run of [pgrep] completes,
    whatever its exit status: for an output that is blank,
    [get_child_cmdline] returns the empty string; for any other output the
    first line of the stripped output is not empty and has a first word,
    so neither index raises [IndexError], and the call goes on to the run
    of [ps] for that word: it returns the output of [ps], stripped, when
    that run completes. *)
Theorem get_child_cmdline_of_pgrep (shell_pid : string) (returncode : Z)
    (stdout : string) :
  pgrep shell_pid = Completed returncode stdout →
  (strip stdout = "" ∧ get_child_cmdline pgrep ps shell_pid = Ret "")
  ∨ (∃ first_child_line lines child_pid words,
       splitlines (strip stdout) = first_child_line :: lines
       ∧ first_child_line ≠ ""
       ∧ split first_child_line = child_pid :: words
       ∧ get_child_cmdline_body pgrep ps shell_pid =
           (args_stdout ← stdout_of (ps child_pid); Ret (strip args_stdout))
       ∧ ∀ code args_stdout,
           ps child_pid = Completed code args_stdout →
           get_child_cmdline pgrep ps shell_pid = Ret (strip args_stdout)).
Proof.
  intros Hpgrep. unfold get_child_cmdline, get_child_cmdline_body.
  rewrite Hpgrep. cbn [stdout_of]. rewrite bind_Ret.
  destruct (String.eqb_spec (strip stdout) "") as [E|Hne].
  - left. split; [exact E|]. by rewrite bind_Ret.
  - right.
    destruct (first_line_first_word (strip stdout) Hne (strip_no_space stdout))
      as (line & lines & child_pid & words & Hlines & Hline & Hwords).
    exists line, lines, child_pid, words.
    split; [exact Hlines|]. split; [exact Hline|]. split; [exact Hwords|].
    rewrite Hlines. cbn [first_item]. rewrite bind_Ret.
    destruct (String.eqb_spec line ""); [contradiction|].
    rewrite Hwords. cbn [first_item]. rewrite bind_Ret.
    split; [reflexivity|]. intros code args_stdout ->. reflexivity.
Qed.

End snapshot_lines.

Lemma gather_session_context_lines_witness :
  ∃ raw_windows,
    run (example_tmux (Tmux.list_windows "$0")) = Ret raw_windows
    ∧ Forall (fun line => count_tabs line = 2%nat)
        (nonblank (PyText.splitlines raw_windows))
    ∧ Forall2 window_of_line (nonblank (PyText.splitlines raw_windows))
        [ WindowContext.mk "@1" 0 "edit"
            [PaneContext.mk "nvim" "nvim README.md" "doc" "/home/u/doc" "notes"];
          WindowContext.mk "@2" 1 ""
            [PaneContext.mk "bash" "" "u" "/home/u" ""] ].
Proof.
  apply (gather_session_context_lines example_pgrep example_ps example_tmux
           "box.lan" "$0"
           (SessionContext.mk "$0" "/home/u"
              [ WindowContext.mk "@1" 0 "edit"
                  [PaneContext.mk "nvim" "nvim README.md" "doc" "/home/u/doc" "notes"];
                WindowContext.mk "@2" 1 ""
                  [PaneContext.mk "bash" "" "u" "/home/u" ""] ])).
  vm_compute. reflexivity.
Defined.

Lemma get_child_cmdline_of_pgrep_witness :
  get_child_cmdline example_pgrep example_ps "100" = Ret "nvim README.md".
Proof.
  destruct (get_child_cmdline_of_pgrep example_pgrep example_ps "100" 0
              ("4242 nvim" ++ String "010" "") eq_refl)
    as [[Hblank _]|(line & lines & child_pid & words & Hl & _ & Hw & _ & Hps)].
  - vm_compute in Hblank. discriminate Hblank.
  - vm_compute in Hl. injection Hl as <- <-.
    vm_compute in Hw. injection Hw as <- <-.
    exact (Hps 0 ("nvim README.md" ++ String "010" "") eq_refl).
Defined.
(** ** The cache: what is written reads back *)

Section roundtrip.

Import Json JsonDump.

(** *** Bytes and hexadecimal digits *)

Lemma N_of_byte (n : Z) : 0 <= n < 256 → N_of_ascii (byte n) = Z.to_N n.
Proof. intros Hn. unfold byte. apply N_ascii_embedding. lia. Qed.

Lemma byte_eqb (n k : Z) :
  0 <= n < 256 → 0 <= k < 256 → Ascii.eqb (byte n) (byte k) = (n =? k).
Proof.
  intros Hn Hk. destruct (Z.eqb_spec n k) as [->|Hne].
  - apply Ascii.eqb_refl.
  - apply Ascii.eqb_neq. intros E. apply (f_equal N_of_ascii) in E.
    rewrite !N_of_byte in E by done. lia.
Qed.

Lemma hex_val_hex_digit (k : Z) :
  0 <= k < 16 → hex_val (SHA256.hex_digit k) = Some k.
Proof.
  intros Hk.
  assert (k = 0 ∨ k = 1 ∨ k = 2 ∨ k = 3 ∨ k = 4 ∨ k = 5 ∨ k = 6 ∨ k = 7 ∨ k = 8
          ∨ k = 9 ∨ k = 10 ∨ k = 11 ∨ k = 12 ∨ k = 13 ∨ k = 14 ∨ k = 15) as H by lia.
  repeat (destruct H as [->|H]; [reflexivity|]). by subst.
Qed.

Lemma land_15 (n : Z) : Z.land n 15 = n mod 16.
Proof. apply (Z.land_ones n 4). lia. Qed.

(** The four digits of [hex4_of] read back. *)
Lemma hex4_hex4_of (n : Z) (tail : string) :
  0 <= n < 65536 →
  ∃ a b c d,
    hex4_of n ++ tail = String a (String b (String c (String d tail)))
    ∧ hex4 a b c d = Some n.
Proof.
  intros Hn. unfold hex4_of. cbn [map string_of_list_ascii].
  eexists _, _, _, _. split; [reflexivity|].
  unfold hex4. rewrite !land_15, !Z.shiftr_div_pow2 by lia.
  rewrite !hex_val_hex_digit by (apply Z.mod_pos_bound; lia).
  f_equal. change (2 ^ (4 * 3)) with 4096. change (2 ^ (4 * 2)) with 256.
  change (2 ^ (4 * 1)) with 16. change (2 ^ (4 * 0)) with 1.
  Z.div_mod_to_equations. lia.
Qed.

(** *** Strings *)

Ltac closed_tests :=
  repeat first
    [ progress cbv beta iota
    | match goal with
      | |- context [Ascii.eqb ?a ?b] =>
          let v := eval vm_compute in (Ascii.eqb a b) in
          lazymatch v with
          | true => change (Ascii.eqb a b) with true
          | false => change (Ascii.eqb a b) with false
          end
      end ].

Lemma scan_string_simple (e c' : ascii) (tail : string) :
  Ascii.eqb e "u" = false → simple_escape e = Some c' →
  scan_string (String "\" (String e tail)) =
  match scan_string tail with
  | Some (x, r') => Some (String c' x, r')
  | None => None
  end.
Proof.
  intros Hu Hs. rewrite scan_string_cons. closed_tests. by rewrite Hu, Hs.
Qed.

Lemma scan_string_plain (c : ascii) (tail : string) :
  Ascii.eqb c "034" = false → Ascii.eqb c "\" = false →
  (N_of_ascii c <? 32)%N = false →
  scan_string (String c tail) =
  match scan_string tail with
  | Some (x, r') => Some (String c x, r')
  | None => None
  end.
Proof. intros H1 H2 H3. by rewrite scan_string_cons, H1, H2, H3. Qed.

(** *** Surrogate pairs *)

Lemma land_shifted (a b k : Z) :
  0 <= k → 0 <= b < 2 ^ k → Z.land (a * 2 ^ k) b = 0.
Proof.
  intros Hk Hb. apply Z.bits_inj'. intros i Hi.
  rewrite Z.land_spec, Z.bits_0.
  destruct (Z.lt_ge_cases i k) as [Hlt|Hge].
  - by rewrite Z.mul_pow2_bits_low.
  - apply andb_false_iff. right.
    destruct (Z.eq_dec b 0) as [->|Hne]; [apply Z.bits_0|].
    apply Z.bits_above_log2; [lia|].
    apply Z.log2_lt_pow2; [lia|].
    assert (2 ^ k <= 2 ^ i) by (apply Z.pow_le_mono_r; lia). lia.
Qed.

Lemma lor_shifted (a b k : Z) :
  0 <= k → 0 <= b < 2 ^ k → Z.lor (a * 2 ^ k) b = a * 2 ^ k + b.
Proof.
  intros Hk Hb. pose proof (Z.add_lor_land (a * 2 ^ k) b) as H.
  rewrite (land_shifted a b k Hk Hb) in H. lia.
Qed.

Lemma land_1023 (n : Z) : Z.land n 1023 = n mod 1024.
Proof. apply (Z.land_ones n 10). lia. Qed.

(** The two halves of a code point above the basic plane. *)
Lemma surrogates (cp : Z) :
  65536 <= cp < 1114112 →
  let n := cp - 65536 in
  let hi := Z.lor 55296 (Z.land (Z.shiftr n 10) 1023) in
  let lo := Z.lor 56320 (Z.land n 1023) in
  55296 <= hi <= 56319 ∧ 56320 <= lo <= 57343
  ∧ 65536 + Z.lor (Z.shiftl (hi - 55296) 10) (lo - 56320) = cp.
Proof.
  intros Hcp n hi lo. subst hi lo.
  rewrite !land_1023, Z.shiftr_div_pow2 by lia. change (2 ^ 10) with 1024.
  assert (0 <= n < 1048576) as Hn by (subst n; lia).
  assert (0 <= n / 1024 < 1024) as Hq by (Z.div_mod_to_equations; lia).
  assert (0 <= n mod 1024 < 1024) as Hr by (apply Z.mod_pos_bound; lia).
  rewrite (Z.mod_small (n / 1024) 1024) by exact Hq.
  change 55296 with (54 * 2 ^ 10). change 56320 with (55 * 2 ^ 10).
  rewrite !lor_shifted by (change (2 ^ 10) with 1024; lia).
  rewrite Z.shiftl_mul_pow2 by lia.
  replace (54 * 2 ^ 10 + n / 1024 - 54 * 2 ^ 10) with (n / 1024) by lia.
  replace (55 * 2 ^ 10 + n mod 1024 - 55 * 2 ^ 10) with (n mod 1024) by lia.
  rewrite lor_shifted by (change (2 ^ 10) with 1024; lia).
  change (2 ^ 10) with 1024. subst n. Z.div_mod_to_equations. lia.
Qed.

Lemma append_u (x : string) : "\u" ++ x = String "\" (String "u" x).
Proof. reflexivity. Qed.

(** An escape [u] and four digits, for a code point that is no first half
    of a pair. *)
Lemma scan_string_u (n : Z) (tail : string) :
  0 <= n < 65536 → ((55296 <=? n) && (n <=? 56319)) = false →
  scan_string ("\u" ++ hex4_of n ++ tail) =
  match scan_string tail with
  | Some (x, r') => Some (utf8 n ++ x, r')
  | None => None
  end.
Proof.
  intros Hn Hhigh. rewrite append_u.
  destruct (hex4_hex4_of n tail Hn) as (a & b & c & d & -> & Hhex).
  rewrite scan_string_cons. closed_tests. rewrite Hhex, Hhigh. reflexivity.
Qed.

(** A pair of escapes, for a code point above the basic plane. *)
Lemma scan_string_pair (cp : Z) (tail : string) :
  65536 <= cp < 1114112 →
  scan_string (escape cp ++ tail) =
  match scan_string tail with
  | Some (x, r') => Some (utf8 cp ++ x, r')
  | None => None
  end.
Proof.
  intros Hcp. destruct (surrogates cp Hcp) as (Hhi & Hlo & Hcode).
  unfold escape.
  repeat (match goal with
          | |- context [cp =? ?k] =>
              destruct (Z.eqb_spec cp k) as [E|_]; [exfalso; lia|]
          end).
  assert (((32 <=? cp) && (cp <=? 126)) = false) as -> by lia.
  assert ((cp <? 65536) = false) as -> by lia.
  cbv zeta in Hhi, Hlo, Hcode |- *.
  set (hi := Z.lor 55296 _) in *. set (lo := Z.lor 56320 _) in *.
  rewrite !app_assoc, append_u.
  destruct (hex4_hex4_of hi ("\u" ++ hex4_of lo ++ tail)) as (a & b & c & d & -> & Hhex);
    [lia|].
  rewrite append_u.
  destruct (hex4_hex4_of lo tail) as (a' & b' & c' & d' & -> & Hhex'); [lia|].
  rewrite scan_string_cons. closed_tests. rewrite Hhex.
  assert (((55296 <=? hi) && (hi <=? 56319)) = true) as -> by lia.
  unfold low_surrogate. closed_tests. cbn [andb]. cbv iota. rewrite Hhex'.
  assert (((56320 <=? lo) && (lo <=? 57343)) = true) as -> by lia.
  rewrite Hcode. reflexivity.
Qed.

(** *** What [encode_basestring_ascii] writes reads back *)

Lemma utf8_ascii (cp : Z) : cp < 128 → utf8 cp = String (byte cp) "".
Proof. intros H. unfold utf8. by rewrite (proj2 (Z.ltb_lt cp 128) H). Qed.

Lemma scan_string_short (e c' : ascii) (cp : Z) (tail : string) :
  Ascii.eqb e "u" = false → simple_escape e = Some c' → utf8 cp = String c' "" →
  scan_string (String "\" (String e "") ++ tail) =
  match scan_string tail with
  | Some (x, r') => Some (utf8 cp ++ x, r')
  | None => None
  end.
Proof.
  intros Hu Hs ->. change (String "\" (String e "") ++ tail)
    with (String "\" (String e tail)).
  rewrite (scan_string_simple e c' tail Hu Hs).
  by destruct (scan_string tail) as [[x r']|].
Qed.

Lemma scan_string_escape (cp : Z) (tail : string) :
  scalar cp = true →
  scan_string (escape cp ++ tail) =
  match scan_string tail with
  | Some (x, r') => Some (utf8 cp ++ x, r')
  | None => None
  end.
Proof.
  unfold scalar. intros [[H0 Hmax]%andb_true_iff Hsurr]%andb_true_iff.
  apply Z.leb_le in H0. apply Z.ltb_lt in Hmax. apply negb_true_iff in Hsurr.
  destruct (Z.lt_ge_cases cp 65536) as [Hbmp|Hhigh];
    [|apply scan_string_pair; lia].
  unfold escape.
  destruct (Z.eqb_spec cp 34) as [->|?];
    [by apply (scan_string_short "034" "034")|].
  destruct (Z.eqb_spec cp 92) as [->|?];
    [by apply (scan_string_short "\" "\")|].
  destruct (Z.eqb_spec cp 8) as [->|?];
    [by apply (scan_string_short "b" "008")|].
  destruct (Z.eqb_spec cp 12) as [->|?];
    [by apply (scan_string_short "f" "012")|].
  destruct (Z.eqb_spec cp 10) as [->|?];
    [by apply (scan_string_short "n" "010")|].
  destruct (Z.eqb_spec cp 13) as [->|?];
    [by apply (scan_string_short "r" "013")|].
  destruct (Z.eqb_spec cp 9) as [->|?];
    [by apply (scan_string_short "t" "009")|].
  destruct ((32 <=? cp) && (cp <=? 126)) eqn:Hprint.
  - apply andb_true_iff in Hprint as [H32 H126].
    apply Z.leb_le in H32, H126. cbv iota.
    change (String (byte cp) "" ++ tail) with (String (byte cp) tail). 
    rewrite (scan_string_plain (byte cp) tail).
    + rewrite utf8_ascii by lia. by destruct (scan_string tail) as [[x r']|].
    + change "034"%char with (byte 34). rewrite byte_eqb by lia. lia.
    + change "\"%char with (byte 92). rewrite byte_eqb by lia. lia.
    + rewrite N_of_byte by lia. apply N.ltb_ge. lia.
  - cbv iota. rewrite (proj2 (Z.ltb_lt cp 65536) Hbmp). cbv iota. rewrite app_assoc.
    apply scan_string_u; [lia|].
    apply andb_false_iff. apply andb_false_iff in Hsurr as [H|H]; [by left|].
    right. apply Z.leb_gt. apply Z.leb_gt in H. lia.
Qed.

Lemma concat_empty_cons (x : string) (l : list string) :
  String.concat "" (x :: l) = x ++ String.concat "" l.
Proof. destruct l; [symmetry; apply app_nil_r|reflexivity]. Qed.

Lemma scan_string_escapes (cps : list Z) (rest : string) :
  forallb scalar cps = true →
  scan_string (String.concat "" (map escape cps) ++ String "034" rest) =
  Some (encode cps, rest).
Proof.
  unfold encode. induction cps as [|cp cps IH]; intros Hs.
  - change (String.concat "" (map escape []) ++ String "034" rest)
      with (String "034" rest).
    rewrite scan_string_cons. by closed_tests.
  - cbn [forallb] in Hs. apply andb_true_iff in Hs as [Hcp Hs].
    cbn [map]. rewrite !concat_empty_cons, app_assoc.
    rewrite (scan_string_escape cp _ Hcp), (IH Hs). reflexivity.
Qed.

(** A [str] between its quotes. *)
Lemma scan_string_quoted (s rest : string) :
  is_text s = true →
  ∃ body,
    encode_basestring_ascii s ++ rest = String "034" body
    ∧ scan_string body = Some (s, rest).
Proof.
  unfold is_text. intros [Hs He]%andb_true_iff. apply String.eqb_eq in He.
  exists (String.concat "" (map escape (code_points s)) ++ String "034" rest).
  split.
  - unfold encode_basestring_ascii. rewrite app_assoc, app_cons. reflexivity.
  - rewrite (scan_string_escapes _ rest Hs). by rewrite He.
Qed.

(** *** Numbers *)

Lemma digit_tests (c : ascii) :
  is_digit c = true →
  ∀ d : ascii, is_digit d = false → Ascii.eqb c d = false ∧ Ascii.eqb d c = false.
Proof.
  intros Hc d Hd. split; apply Ascii.eqb_neq; intros E; subst; congruence.
Qed.

Lemma span_digits_cons (c : ascii) (s : string) :
  span_digits (String c s) =
  if is_digit c then let (d, r) := span_digits s in (String c d, r)
  else ("", String c s).
Proof. reflexivity. Qed.

Lemma span_digits_stop (rest : string) :
  after_value rest = true → span_digits rest = ("", rest).
Proof.
  destruct rest as [|c r]; [reflexivity|]. simpl after_value.
  intros H. rewrite span_digits_cons.
  destruct (is_digit c) eqn:Hc; [|reflexivity].
  destruct (digit_tests c Hc ",") as [E1 _]; [reflexivity|].
  destruct (digit_tests c Hc "]") as [E2 _]; [reflexivity|].
  destruct (digit_tests c Hc "}") as [E3 _]; [reflexivity|].
  rewrite E1, E2, E3 in H. discriminate H.
Qed.

(** The digits of a positive number: they are digits, the first is no
    zero, and their value is the number. *)
Lemma pretty_N_go_digits (x : N) :
  (0 < x)%N →
  (∃ c d, pretty_N_go x "" = String c d ∧ is_digit c = true ∧ c ≠ "0"%char)
  ∧ (∀ t, span_digits (pretty_N_go x "" ++ t) =
          let (d, r) := span_digits t in (pretty_N_go x "" ++ d, r))
  ∧ ∃ k : Z, ∀ (t : list ascii) (acc : Z),
      fold_left (fun acc c => acc * 10 + digit_val c)
        (list_ascii_of_string (pretty_N_go x "") ++ t)%list acc =
      fold_left (fun acc c => acc * 10 + digit_val c) t (acc * k + Z.of_N x).
Proof.
  induction (N.lt_wf_0 x) as [x _ IH]. intros Hx.
  rewrite (pretty_N_go_step x), pretty_N_go_app by done.
  destruct (pretty_N_char_digit (x `mod` 10)%N) as (Hd & Hv & _);
    [by apply N.mod_lt|].
  assert (Z.of_N x = 10 * Z.of_N (x `div` 10) + Z.of_N (x `mod` 10)) as Hdm
    by (rewrite (N.div_mod x 10) at 1 by done;
        by rewrite N2Z.inj_add, N2Z.inj_mul).
  set (last := pretty_N_char (x `mod` 10)) in *.
  destruct (decide (0 < x `div` 10)%N) as [Hq|Hq].
  - destruct (IH (x `div` 10)%N) as ((c & d & E & Hc & Hc0) & Hspan & k & Hk);
      [by apply N.div_lt|done|].
    split; [|split].
    + rewrite E, app_cons. by eexists _, _.
    + intros t. rewrite app_assoc, Hspan.
      change (String last "" ++ t) with (String last t).
      rewrite span_digits_cons, Hd. destruct (span_digits t) as [d' r'].
      by rewrite app_assoc.
    + exists (k * 10). intros t acc.
      assert (list_ascii_of_string (pretty_N_go (x `div` 10) "" ++ String last "")
              = (list_ascii_of_string (pretty_N_go (x `div` 10) "") ++ [last])%list)
        as ->.
      { generalize (pretty_N_go (x `div` 10) ""). intros u.
        induction u as [|a u IHu]; [reflexivity|]. rewrite app_cons. simpl.
        by rewrite IHu. }
      rewrite <- List.app_assoc, Hk. simpl. rewrite Hv. f_equal.
      rewrite Hdm. ring.
  - assert (x `div` 10 = 0)%N as E
      by (apply N.le_0_r, N.nlt_ge; exact Hq).
    rewrite E, pretty_N_go_0. change ("" ++ ?y) with y.
    split; [|split].
    + exists last, "". split; [reflexivity|]. split; [exact Hd|].
      subst last. rewrite E in Hdm.
      assert (x `mod` 10 ≠ 0)%N as Hne by lia.
      assert (x `mod` 10 < 10)%N as Hlt by (by apply N.mod_lt).
      intros E0. apply Hne.
      apply (pretty_N_char_inj _ 0); [exact Hlt|done|exact E0].
    + intros t. change (String last "" ++ t) with (String last t).
      rewrite span_digits_cons, Hd. by destruct (span_digits t).
    + exists 10. intros t acc. simpl. rewrite Hv. f_equal. rewrite Hdm, E. ring.
Qed.

Lemma scan_frac_stop (rest : string) :
  after_value rest = true → scan_frac rest = ("", rest).
Proof.
  destruct rest as [|c r]; [reflexivity|]. simpl after_value. intros H.
  unfold scan_frac. destruct (Ascii.eqb_spec c ".") as [->|]; [discriminate H|].
  reflexivity.
Qed.

Lemma scan_exp_stop (rest : string) :
  after_value rest = true → scan_exp rest = ("", rest).
Proof.
  destruct rest as [|c r]; [reflexivity|]. simpl after_value. intros H.
  unfold scan_exp.
  destruct (Ascii.eqb_spec c "e") as [->|]; [discriminate H|].
  destruct (Ascii.eqb_spec c "E") as [->|]; [discriminate H|].
  reflexivity.
Qed.

(** The digits of a positive number, as [scan_int_part] reads them after
    the sign. *)
Lemma scan_digits_pos (p : positive) (rest : string) :
  after_value rest = true →
  ∃ c d,
    pretty (N.pos p) = String c d ∧ is_digit c = true ∧ c ≠ "0"%char
    ∧ span_digits (d ++ rest) = (d, rest)
    ∧ Z_of_digits (String c d) = Z.pos p.
Proof.
  intros Hrest. unfold pretty, pretty_N.
  destruct (decide (N.pos p = 0%N)) as [|_]; [done|].
  destruct (pretty_N_go_digits (N.pos p)) as ((c & d & E & Hc & Hc0) & Hspan & k & Hk);
    [done|].
  exists c, d. split; [exact E|]. split; [exact Hc|]. split; [exact Hc0|]. split.
  - specialize (Hspan rest). rewrite E, app_cons, span_digits_cons, Hc in Hspan.
    rewrite (span_digits_stop rest Hrest) in Hspan.
    destruct (span_digits (d ++ rest)) as [d' r']. rewrite app_nil_r in Hspan.
    by injection Hspan as -> ->.
  - unfold Z_of_digits. rewrite <- E. specialize (Hk [] 0).
    rewrite List.app_nil_r in Hk. rewrite Hk. reflexivity.
Qed.

Lemma scan_number_pretty (n : Z) (rest : string) :
  after_value rest = true →
  scan_number (pretty n ++ rest) = Some (JInt n, rest).
Proof.
  intros Hrest. unfold scan_number.
  destruct n as [|p|p].
  - change (pretty 0 ++ rest) with (String "0" rest).
    unfold scan_int_part. closed_tests.
    rewrite (scan_frac_stop rest Hrest), (scan_exp_stop rest Hrest). reflexivity.
  - destruct (scan_digits_pos p rest Hrest) as (c & d & E & Hc & Hc0 & Hspan & Hval).
    change (pretty (Z.pos p)) with (pretty (N.pos p)). rewrite E, app_cons.
    unfold scan_int_part.
    destruct (digit_tests c Hc "-") as [-> _]; [reflexivity|].
    destruct (Ascii.eqb_spec c "0"); [contradiction|].
    rewrite Hc, Hspan. change ("" ++ String c d) with (String c d).
    rewrite (scan_frac_stop rest Hrest), (scan_exp_stop rest Hrest).
    destruct (digit_tests c Hc "-") as [-> _]; [reflexivity|].
    by rewrite Hval.
  - destruct (scan_digits_pos p rest Hrest) as (c & d & E & Hc & Hc0 & Hspan & Hval).
    change (pretty (Z.neg p)) with (String "-" (pretty (N.pos p))).
    rewrite E, !app_cons. unfold scan_int_part. closed_tests.
    destruct (Ascii.eqb_spec c "0"); [contradiction|].
    rewrite Hc, Hspan. change ("-" ++ String c d) with (String "-" (String c d)).
    rewrite (scan_frac_stop rest Hrest), (scan_exp_stop rest Hrest).
    closed_tests. by rewrite Hval.
Qed.

(** The text of a number opens with a digit or a minus sign. *)
Lemma pretty_Z_head (n : Z) :
  ∃ c r, pretty n = String c r ∧ (is_digit c = true ∨ c = "-"%char).
Proof.
  destruct n as [|p|p].
  - exists "0"%char, "". by split; [|left].
  - destruct (scan_digits_pos p "" eq_refl) as (c & d & E & Hc & _).
    exists c, d. split; [exact E|by left].
  - exists "-"%char, (pretty (N.pos p)). by split; [|right].
Qed.

Lemma scan_once_int (f : nat) (n : Z) (rest : string) :
  after_value rest = true →
  scan_once (S f) (pretty n ++ rest) = Some (JInt n, rest).
Proof.
  intros Hrest. pose proof (scan_number_pretty n rest Hrest) as Hnum.
  destruct (pretty_Z_head n) as (c & r & E & Hc).
  rewrite E, app_cons in Hnum |- *. rewrite scan_once_S.
  assert (Ascii.eqb c "034" = false ∧ Ascii.eqb c "{" = false
          ∧ Ascii.eqb c "[" = false ∧ Ascii.eqb "n" c = false
          ∧ Ascii.eqb "t" c = false ∧ Ascii.eqb "f" c = false)
    as (-> & -> & -> & Hn & Ht & Hf).
  { destruct Hc as [Hc| ->]; [|by repeat split].
    repeat split; by apply (digit_tests c Hc). }
  unfold scan_constant.
  change (strip_prefix "null" (String c ?x))
    with (if Ascii.eqb "n" c then strip_prefix "ull" x else None).
  change (strip_prefix "true" (String c ?x))
    with (if Ascii.eqb "t" c then strip_prefix "rue" x else None).
  change (strip_prefix "false" (String c ?x))
    with (if Ascii.eqb "f" c then strip_prefix "alse" x else None).
  by rewrite Hn, Ht, Hf, Hnum.
Qed.

(** *** Values *)

Variable float_repr : string → string.

Lemma json_ind' (P : t → Prop) :
  P JNull → (∀ b, P (JBool b)) → (∀ n, P (JInt n)) → (∀ x, P (JFloat x)) →
  (∀ s, P (JStr s)) →
  (∀ l, Forall P l → P (JList l)) →
  (∀ m, Forall (fun item : string * t => P item.2) m → P (JDict m)) →
  ∀ v, P v.
Proof.
  intros Hnull Hbool Hint Hfloat Hstr Hlist Hdict.
  fix IH 1. intros [|b|n|x|s|l|m].
  - exact Hnull.
  - apply Hbool.
  - apply Hint.
  - apply Hfloat.
  - apply Hstr.
  - apply Hlist. induction l as [|v l IHl]; constructor; [apply IH|exact IHl].
  - apply Hdict. induction m as [|[k v] m IHm]; constructor; [apply IH|exact IHm].
Qed.

Lemma skip_ws_head (c : ascii) (r : string) :
  is_ws c = false → skip_ws (String c r) = String c r.
Proof. intros H. simpl. by rewrite H. Qed.

Lemma skip_ws_space (x : string) : skip_ws (String " " x) = skip_ws x.
Proof. reflexivity. Qed.

(** The text of a value opens with a character that is no white space
    and no closing bracket. *)
Lemma dumps_head (v : t) :
  storable v = true →
  ∃ c r, dumps float_repr v = String c r
         ∧ is_ws c = false ∧ Ascii.eqb c "]" = false.
Proof.
  destruct v as [|[]|n|x|s|l|m]; simpl; intros Hv; try discriminate;
    try (by eexists _, _).
  destruct (pretty_Z_head n) as (c & r & E & [Hc| ->]).
  - exists c, r. split; [exact E|].
    destruct (digit_tests c Hc "]") as [E1 _]; [reflexivity|].
    split; [|exact E1]. unfold is_ws.
    destruct (digit_tests c Hc " ") as [E2 _]; [reflexivity|].
    destruct (digit_tests c Hc "009") as [E3 _]; [reflexivity|].
    destruct (digit_tests c Hc "010") as [E4 _]; [reflexivity|].
    destruct (digit_tests c Hc "013") as [E5 _]; [reflexivity|].
    apply Ascii.eqb_neq in E2, E3, E4, E5.
    destruct c as [[] [] [] [] [] [] [] []]; try reflexivity; congruence.
  - by exists "-"%char, r.
Qed.

(** The property of a value that the induction carries: its text, followed
    by what may follow a value, decodes to it with fuel for the text. *)
Lemma scan_items_list (l : list t) :
  Forall (fun v => storable v = true ∧ decodes_back float_repr v) l →
  l ≠ [] →
  ∀ acc rest f,
    (2 * String.length
           (String.concat ", " (map (dumps float_repr) l) ++ String "]" rest) + 2 ≤ f)%nat →
    array_items f (String.concat ", " (map (dumps float_repr) l) ++ String "]" rest) acc
    = Some ((rev acc ++ l)%list, rest).
Proof.
  induction 1 as [|v l [Hv Hscan] Hl IH]; [done|]. intros _ acc rest f Hf.
  destruct f as [|f]; [lia|]. rewrite array_items_S.
  destruct l as [|v' l'].
  - cbn [map String.concat] in *.
    rewrite (Hscan (String "]" rest) f eq_refl) by lia.
    rewrite skip_ws_head by reflexivity. closed_tests.
    simpl rev. reflexivity.
  - cbn [map] in *. rewrite concat_cons_cons in *. rewrite !app_assoc in *.
    rewrite Hscan; [|reflexivity|lia].
    change (", " ++ ?x) with (String "," (String " " x)).
    rewrite skip_ws_head by reflexivity. closed_tests.
    rewrite skip_ws_space.
    apply Forall_cons in Hl as [[Hv' _] _].
    destruct (dumps_head v' Hv') as (c & r & E & Hws & _).
    assert (∃ x, String.concat ", " (dumps float_repr v' :: map (dumps float_repr) l')
                 ++ String "]" rest = String c x) as [x Ex].
    { destruct l'; cbn [map String.concat]; rewrite ?concat_cons_cons, E, !app_cons;
        by eexists. }
    rewrite Ex, skip_ws_head, <- Ex by exact Hws.
    rewrite IH; [|done|].
    + simpl rev. by rewrite <- List.app_assoc.
    + change (", " ++ ?x) with (String "," (String " " x)) in Hf.
      rewrite length_app in Hf. cbn [String.length] in Hf. lia.
Qed.

Ltac lengths H :=
  repeat first [rewrite length_app in H | progress cbn [String.length] in H];
  repeat first [rewrite length_app | progress cbn [String.length]].

Lemma quoted_head (k : string) :
  ∃ q, encode_basestring_ascii k = String "034" q.
Proof. unfold encode_basestring_ascii. rewrite app_cons. by eexists. Qed.

Lemma length_quoted (k : string) :
  (2 ≤ String.length (encode_basestring_ascii k))%nat.
Proof.
  unfold encode_basestring_ascii. rewrite app_cons. cbn [String.length].
  rewrite length_app. cbn [String.length]. lia.
Qed.

Lemma scan_items_dict (m : list (string * t)) :
  Forall (fun item : string * t =>
            is_text item.1 = true ∧ storable item.2 = true
            ∧ decodes_back float_repr item.2) m →
  m ≠ [] →
  ∀ acc rest f body,
    String.concat ", " (map (item_text float_repr) m) ++ String "}" rest
      = String "034" body →
    (2 * String.length body + 2 ≤ f)%nat →
    object_items f body acc = Some ((rev acc ++ m)%list, rest).
Proof.
  induction 1 as [|[k x] m (Hk & Hx & Hscan) Hm IH]; [done|].
  intros _ acc rest f body Hbody Hf. cbn [fst snd] in Hk, Hx, Hscan.
  destruct f as [|f]; [lia|]. rewrite object_items_S.
  destruct (dumps_head x Hx) as (c & r & E & Hws & _).
  cbn [map] in Hbody. unfold item_text at 1 in Hbody. cbn [fst snd] in Hbody.
  destruct m as [|item' m'].
  - cbn [map String.concat] in Hbody. rewrite !app_assoc in Hbody.
    destruct (scan_string_quoted k (": " ++ dumps float_repr x ++ String "}" rest) Hk)
      as (body0 & Hq & Hs).
    rewrite Hq in Hbody. injection Hbody as <-. rewrite Hs.
    change (": " ++ ?y) with (String ":" (String " " y)).
    rewrite skip_ws_head by reflexivity. closed_tests.
    rewrite skip_ws_space, E, app_cons, skip_ws_head, <- app_cons, <- E by exact Hws.
    rewrite Hscan; [|reflexivity|].
    + rewrite skip_ws_head by reflexivity. closed_tests. reflexivity.
    + apply (f_equal String.length) in Hq. pose proof (length_quoted k) as Hlen.
      lengths Hq. lia.
  - cbn [map] in Hbody. rewrite concat_cons_cons, !app_assoc in Hbody.
    set (more := String.concat ", " (item_text float_repr item' :: _) ++ String "}" rest)
      in *.
    destruct (scan_string_quoted k (": " ++ dumps float_repr x ++ ", " ++ more) Hk)
      as (body0 & Hq & Hs).
    rewrite Hq in Hbody. injection Hbody as <-. rewrite Hs.
    change (": " ++ ?y) with (String ":" (String " " y)).
    rewrite skip_ws_head by reflexivity. closed_tests.
    rewrite skip_ws_space, E, app_cons, skip_ws_head, <- app_cons, <- E by exact Hws.
    change (", " ++ more) with (String "," (String " " more)).
    rewrite Hscan; [|reflexivity|].
    + rewrite skip_ws_head by reflexivity. closed_tests. rewrite skip_ws_space.
      assert (∃ body', more = String "034" body') as [body' Hmore].
      { subst more. destruct item' as [k' x']. unfold item_text at 1.
        cbn [fst snd]. destruct (quoted_head k') as [q ->].
        destruct m'; cbn [map String.concat]; rewrite ?concat_cons_cons, !app_cons;
          by eexists. }
      rewrite Hmore, skip_ws_head by reflexivity. closed_tests.
      rewrite (IH ltac:(done) ((k, x) :: acc) rest f body' Hmore).
      * simpl rev. by rewrite <- List.app_assoc.
      * apply (f_equal String.length) in Hq. pose proof (length_quoted k) as Hlen.
        rewrite Hmore in Hq. lengths Hq. lia.
    + apply (f_equal String.length) in Hq. pose proof (length_quoted k) as Hlen.
      lengths Hq. lia.
Qed.

(** *** A [dict] keeps its items *)

Lemma dict_set_fresh (k : string) (v : t) (m : list (string * t)) :
  k ∉ map fst m → dict_set k v m = (m ++ [(k, v)])%list.
Proof.
  induction m as [|[k' v'] m IH]; [reflexivity|]. simpl.
  intros [Hne Hnotin]%not_elem_of_cons.
  destruct (String.eqb_spec k k'); [contradiction|]. by rewrite IH.
Qed.

Lemma dict_of_pairs_fold (pairs acc : list (string * t)) :
  NoDup (map fst (acc ++ pairs)%list) →
  fold_left (fun m kv => dict_set kv.1 kv.2 m) pairs acc = (acc ++ pairs)%list.
Proof.
  revert acc. induction pairs as [|[k v] pairs IH]; intros acc Hnd; simpl.
  - by rewrite List.app_nil_r.
  - rewrite dict_set_fresh.
    + rewrite IH; rewrite <- List.app_assoc; [reflexivity|exact Hnd].
    + rewrite map_app in Hnd. apply NoDup_app in Hnd as (_ & Hdis & _).
      intros Hin. apply (Hdis k Hin). simpl. by apply elem_of_cons; left.
Qed.

Lemma dict_of_pairs_NoDup (m : list (string * t)) :
  NoDup (map fst m) → dict_of_pairs m = m.
Proof. intros Hnd. unfold dict_of_pairs. by rewrite dict_of_pairs_fold. Qed.

(** *** The text of a value decodes to the value *)

Lemma dumps_list (l : list t) (rest : string) :
  dumps float_repr (JList l) ++ rest =
  String "[" (String.concat ", " (map (dumps float_repr) l) ++ String "]" rest).
Proof.
  change (dumps float_repr (JList l))
    with ("[" ++ String.concat ", " (map (dumps float_repr) l) ++ "]").
  by rewrite !app_assoc.
Qed.

Lemma dumps_dict (m : list (string * t)) (rest : string) :
  dumps float_repr (JDict m) ++ rest =
  String "{" (String.concat ", " (map (item_text float_repr) m) ++ String "}" rest).
Proof.
  change (dumps float_repr (JDict m))
    with ("{" ++ String.concat ", " (map (item_text float_repr) m) ++ "}").
  by rewrite !app_assoc.
Qed.

Lemma storable_decodes_back (v : t) :
  storable v = true → decodes_back float_repr v.
Proof.
  induction v as [|b|n|x|s|l IH|m IH] using json_ind'; intros Hv rest f Hrest Hf.
  - destruct f as [|f]; [lia|]. reflexivity.
  - destruct f as [|f]; [lia|]. by destruct b.
  - destruct f as [|f]; [lia|]. by apply scan_once_int.
  - discriminate Hv.
  - destruct f as [|f]; [lia|]. simpl in Hv.
    change (dumps float_repr (JStr s)) with (encode_basestring_ascii s).
    destruct (scan_string_quoted s rest Hv) as (body & -> & Hs).
    rewrite scan_once_S. closed_tests. by rewrite Hs.
  - simpl in Hv. rewrite forallb_forall in Hv.
    rewrite dumps_list in Hf |- *. destruct f as [|f]; [lia|].
    rewrite scan_once_S. closed_tests.
    destruct l as [|v l]; [reflexivity|].
    assert (Forall (fun v => storable v = true ∧ decodes_back float_repr v) (v :: l))
      as Hall.
    { apply Forall_forall. intros w Hw. rewrite Forall_forall in IH.
      assert (storable w = true) as Hs by (by apply Hv, list_elem_of_In).
      split; [exact Hs|]. by apply IH. }
    destruct (dumps_head v) as (c & r & E & Hws & Hc);
      [by apply Hv; left|].
    assert (∃ y, String.concat ", " (map (dumps float_repr) (v :: l)) ++ String "]" rest
                 = String c y) as [y Ey].
    { cbn [map]. destruct l; cbn [map String.concat];
        rewrite ?concat_cons_cons, E, !app_cons; by eexists. }
    rewrite Ey, skip_ws_head, Hc, <- Ey by exact Hws.
    rewrite (scan_items_list (v :: l) Hall); [reflexivity|done|].
    cbn [String.length] in Hf. lia.
  - simpl in Hv. apply andb_true_iff in Hv as [Hv Hnd].
    apply bool_decide_eq_true in Hnd. rewrite forallb_forall in Hv.
    rewrite dumps_dict in Hf |- *. destruct f as [|f]; [lia|].
    rewrite scan_once_S. closed_tests.
    destruct m as [|[k x] m]; [reflexivity|].
    assert (Forall (fun item : string * t =>
                      is_text item.1 = true ∧ storable item.2 = true
                      ∧ decodes_back float_repr item.2) ((k, x) :: m)) as Hall.
    { apply Forall_forall. intros item Hitem. rewrite Forall_forall in IH.
      specialize (Hv item ltac:(by apply list_elem_of_In)).
      apply andb_true_iff in Hv as [Hk Hx].
      split; [exact Hk|]. split; [exact Hx|]. by apply IH. }
    assert (∃ body, String.concat ", " (map (item_text float_repr) ((k, x) :: m))
                      ++ String "}" rest = String "034" body) as [body Hbody].
    { cbn [map]. unfold item_text at 1. cbn [fst snd].
      destruct (quoted_head k) as [q ->].
      destruct m; cbn [map String.concat]; rewrite ?concat_cons_cons, !app_cons;
        by eexists. }
    rewrite Hbody, skip_ws_head by reflexivity. closed_tests.
    rewrite (scan_items_dict ((k, x) :: m) Hall ltac:(done) [] rest f body Hbody).
    + simpl rev. cbn [app]. by rewrite dict_of_pairs_NoDup.
    + rewrite Hbody in Hf. cbn [String.length] in Hf. lia.
Qed.

(** [json.loads(json.dumps(v))] is [v]. *)
Lemma loads_dumps (v : t) :
  storable v = true → loads (dumps float_repr v) = Some v.
Proof.
  intros Hv. unfold loads.
  destruct (dumps_head v Hv) as (c & r & E & Hws & _).
  rewrite E, skip_ws_head, <- E by exact Hws.
  pose proof (storable_decodes_back v Hv ""
                (2 * String.length (dumps float_repr v) + 2)%nat eq_refl) as Hscan.
  rewrite app_nil_r in Hscan. rewrite Hscan by lia. reflexivity.
Qed.

End roundtrip.
(** ** The files of the cache *)

Section cache_files_properties.

Variables (CACHE_DIR : string) (float_repr : string → string).


Lemma app_inv_head (p x y : string) : p ++ x = p ++ y → x = y.
Proof.
  induction p as [|c p IH]; [done|]. rewrite !app_cons. intros [= H]. by apply IH.
Qed.

(** A key that opens with no slash lies in the cache directory. *)
Lemma cache_path_relative :
  ∃ dir, ∀ c' r', c' ≠ "/"%char →
    cache_path CACHE_DIR (String c' r') = dir ++ String c' r' ++ ".json".
Proof.
  unfold cache_path, path_join.
  exists (if String.eqb CACHE_DIR ""
             || String.eqb (PyStr.slice (String.length CACHE_DIR - 1)
                              (String.length CACHE_DIR) CACHE_DIR) "/"
          then CACHE_DIR else CACHE_DIR ++ "/").
  intros c' r' Hc'. rewrite app_cons.
  destruct c' as [[] [] [] [] [] [] [] []];
    by destruct (_ || _); rewrite ?app_assoc.
Qed.

Lemma build_cache_key_head (context : SessionContext.t) (opencode_context : string) :
  ∃ c r, build_cache_key context opencode_context = String c r ∧ c ≠ "/"%char.
Proof.
  unfold build_cache_key. rewrite prefix_16_hexdigest.
  unfold SHA256.hex32 at 1. cbn [map app string_of_list_ascii].
  eexists _, _. split; [reflexivity|].
  intros E. pose proof (hex_digit_is_hex
    (Z.land (Z.shiftr (SHA256.sa (SHA256.digest
       (PyStr.bytes (raw_key context opencode_context)))) (4 * 7)) 15)) as H.
  rewrite E in H. discriminate H.
Qed.

(** X12. The entries of the cache do not touch each other.  Writing a
    plan under the key of one snapshot leaves what [read_cached_plan]
    returns under the key of another snapshot as it was, as soon as the
    two keys differ: a key is made of hexadecimal digits, so the two files
    are two files of the cache directory. *)
Theorem cache_entries_apart (files : gmap string string)
    (written read : SessionContext.t) (oc_written oc_read : string)
    (plan : Json.t) :
  build_cache_key written oc_written ≠ build_cache_key read oc_read →
  read_cached_plan CACHE_DIR
    (write_cached_plan CACHE_DIR float_repr files
       (build_cache_key written oc_written) plan)
    (build_cache_key read oc_read)
  = read_cached_plan CACHE_DIR files (build_cache_key read oc_read).
Proof.
  intros Hne. unfold read_cached_plan, write_cached_plan.
  rewrite lookup_insert_ne; [reflexivity|].
  destruct (build_cache_key_head written oc_written) as (c & r & E & Hc).
  destruct (build_cache_key_head read oc_read) as (c' & r' & E' & Hc').
  rewrite E, E' in Hne |- *.
  destruct cache_path_relative as [dir Hdir].
  rewrite (Hdir c r Hc), (Hdir c' r' Hc').
  intros H. apply app_inv_head, app_inv_tail in H. contradiction.
Qed.

End cache_files_properties.


Lemma cache_entries_apart_witness :
  read_cached_plan "/home/u/.cache/torganize"
    (write_cached_plan "/home/u/.cache/torganize" (fun lexeme => lexeme) ∅
       (build_cache_key one_pane_context "") example_plan)
    (build_cache_key two_pane_context "")
  = read_cached_plan "/home/u/.cache/torganize" ∅
      (build_cache_key two_pane_context "").
Proof.
  apply (cache_entries_apart "/home/u/.cache/torganize" (fun lexeme => lexeme) ∅
           one_pane_context two_pane_context "" "" example_plan).
  vm_compute. discriminate.
Defined.
(** ** A run of [main] on the live session *)

Lemma commands_of_app (t1 t2 : list effect) :
  commands_of (t1 ++ t2) = (commands_of t1 ++ commands_of t2)%list.
Proof. apply flat_map_app. Qed.

Lemma commands_of_Tmux (cmds : list tmux_cmd) : commands_of (map Tmux cmds) = cmds.
Proof. induction cmds as [|c cmds IH]; simpl; [reflexivity|]. by rewrite IH. Qed.


(** ** [name.py]: the title of the opencode session of a window *)

Section name_query.

Variables (max_depth : nat) (float_truthy : string → bool) (session_name : string)
  (window_index : Z).

Lemma split_once_contains (c : ascii) (s : string) :
  PyStr.split_once c s = None ↔ PyStr.contains c s = false.
Proof.
  induction s as [|d s IH]; simpl; [done|].
  destruct (Ascii.eqb c d); [done|].
  destruct (PyStr.split_once c s) as [[a b]|]; [|tauto].
  split; [discriminate|]. intros H. apply IH in H. discriminate H.
Qed.

(** One turn of the loop, for an entry as [otop] prints it. *)
Lemma entry_title_ok (entry : Json.t) :
  entry_ok entry = true →
  Name.entry_title float_truthy window_index session_name entry =
  Ret (if bool_decide (entry_window session_name entry = Some window_index)
       then Some (title_of entry) else None).
Proof.
  destruct entry as [| | | | |l|m]; try discriminate.
  unfold entry_ok, Name.entry_title, entry_window, record_window, pane_of, title_of,
    Name.get.
  cbn [OcSession.tmux_pane].
  destruct (Name.item "tmux_pane" m) as [[| | | |pane_target| |]|]; try discriminate;
    cbn [mbind outcome_bind Name.truthy Name.contains_colon negb]; [|by intros _].
  destruct (String.eqb_spec pane_target "") as [->|Hne]; [by intros _|].
  cbn [negb].
  destruct (PyStr.contains ":" pane_target) eqn:Hcolon; cbn [negb].
  - destruct (PyStr.split_once ":" pane_target) as [[target_session rest]|] eqn:Hsplit.
    2:{ apply split_once_contains in Hsplit. congruence. }
    destruct (String.eqb target_session session_name); cbn [negb]; [|by intros _].
    assert ((if PyStr.contains "." rest then PyStr.before "." rest else rest)
            = PyStr.before "." rest) as ->.
    { destruct (PyStr.contains "." rest) eqn:Hdot; [reflexivity|].
      by rewrite before_no_sep. }
    destruct (PyInt.int (PyStr.before "." rest)) as [idx|]; [|by intros _].
    destruct (Z.eqb_spec idx window_index) as [->|Hidx].
    + rewrite bool_decide_true by reflexivity.
      destruct (Name.item "session" m) as [[| | | | | |session_data]|];
        try discriminate; intros _; reflexivity.
    + rewrite bool_decide_false by congruence. by intros _.
  - apply split_once_contains in Hcolon. rewrite Hcolon. by intros _.
Qed.

(** X15. The title that [tname] takes.  When [otop sessions] succeeds
    and [json.loads] returns a list of entries for its output, each an
    object whose pane target is a string and whose session is an object
    where they are there, [query_opencode_for_window] returns the title
    of the first entry whose pane target names the session and the
    window; it returns the empty string when that entry has no session or
    its session no title, whatever the later entries of the window hold,
    and when no entry names the window. *)
Theorem query_opencode_for_window_first (returncode : Z) (stdout : string)
    (entries : list Json.t) :
  returncode = 0 →
  Decoder.loads max_depth stdout = Ret (Json.JList entries) →
  forallb entry_ok entries = true →
  Name.query_opencode_for_window (Completed returncode stdout) max_depth float_truthy
    window_index session_name
  = Ret (match first_entry session_name window_index entries with
         | Some entry => title_of entry
         | None => Json.JStr ""
         end).
Proof.
  intros -> Hloads Hok. unfold Name.query_opencode_for_window.
  rewrite Hloads. cbn [Z.eqb negb]. clear Hloads.
  induction entries as [|entry entries IH]; [reflexivity|].
  cbn [forallb] in Hok. apply andb_prop in Hok as [Hentry Hok].
  cbn [Name.first_title]. rewrite (entry_title_ok entry Hentry).
  unfold first_entry. cbn [List.find mbind outcome_bind].
  destruct (bool_decide (entry_window session_name entry = Some window_index));
    [reflexivity|].
  exact (IH Hok).
Qed.

End name_query.

Lemma query_opencode_for_window_first_witness :
  Name.query_opencode_for_window (Completed 0 example_entries) 1000 (fun _ => true) 1
    "work"
  = Ret (Json.JStr "").
Proof.
  apply (query_opencode_for_window_first 1000 (fun _ => true) "work" 1 0
           example_entries
           [ Json.JDict [("tmux_pane", Json.JStr "work:1.0"); ("session", Json.JDict [])];
             Json.JDict [("tmux_pane", Json.JStr "work:1.1");
                         ("session", Json.JDict [("title", Json.JStr "fix login")])] ]).
  - reflexivity.
  - vm_compute. reflexivity.
  - reflexivity.
Defined.

(** ** [name.py]: the context of a window and its new name *)

Section name_context.

Variables (pgrep ps : string → subprocess_result)
  (tmux : list string → subprocess_result)
  (full_hostname : string).

Lemma part_nil (label : string) (items : list string) :
  Name.part label items = [] ↔ items = [].
Proof. by destruct items. Qed.

Lemma part_nonempty (label : string) (items : list string) :
  label ≠ "" → Forall (fun s => s ≠ "") (Name.part label items).
Proof.
  intros Hl. destruct items as [|x items]; [constructor|].
  repeat constructor. destruct label; [done|discriminate].
Qed.

Lemma sorted_set_nil (l : list string) : Name.sorted_set l = [] ↔ l = [].
Proof.
  unfold Name.sorted_set. rewrite sorted_nil_iff. split.
  - intros H. apply elements_empty_inv in H. destruct l as [|x l]; [done|].
    exfalso. simpl in H. set_solver.
  - by intros ->.
Qed.

Lemma filter_nil_iff {A} (P : A → Prop) `{∀ x, Decision (P x)} (l : list A) :
  filter P l = [] ↔ Forall (fun x => ¬ P x) l.
Proof.
  induction l as [|x l IH]; [by split; [constructor|]|].
  rewrite filter_cons, Forall_cons. destruct (decide (P x)); [|tauto].
  split; [discriminate|tauto].
Qed.

Lemma stripped_lines_nil (raw : string) :
  Name.stripped_lines raw = [] ↔
  Forall (fun line => PyText.strip line = "") (PyText.splitlines raw).
Proof.
  unfold Name.stripped_lines. rewrite filter_nil_iff, Forall_map.
  apply Forall_iff. intros line. simpl.
  destruct (decide (PyText.strip line = "")); tauto.
Qed.

Lemma concat_last (sep : string) (l : list string) (x : string) :
  ∃ pre, String.concat sep (l ++ [x]) = pre ++ x.
Proof.
  induction l as [|y l [pre IH]]; [by exists ""|].
  destruct l as [|z l].
  - exists (y ++ sep). simpl. by rewrite app_assoc.
  - exists (y ++ sep ++ pre). change (String.concat sep ((y :: z :: l) ++ [x]))
      with (y ++ sep ++ String.concat sep ((z :: l) ++ [x])).
    by rewrite IH, !app_assoc.
Qed.

(** X16. When a window has no context.  When [gather_window_context]
    returns, the context is the empty string, for which [main] gives up
    with [no pane context found], exactly when no pane has a child with a
    command line, every line of the paths is blank, every title is blank
    or a host name, and the window has no name.  The context of a window
    with a name ends with [current name: ] and the name. *)
Theorem gather_window_context_empty (window_id context : string) :
  Name.gather_window_context pgrep ps tmux full_hostname window_id = Ret context →
  ∃ raw_pids cmdlines raw_paths raw_titles window_name,
    run (tmux ["list-panes"; "-t"; window_id; "-F"; "#{pane_pid}"]) = Ret raw_pids
    ∧ Name.gather_cmdlines pgrep ps (PyText.splitlines raw_pids) = Ret cmdlines
    ∧ run (tmux ["list-panes"; "-t"; window_id; "-F"; "#{pane_current_path}"])
      = Ret raw_paths
    ∧ run (tmux ["list-panes"; "-t"; window_id; "-F"; "#{pane_title}"]) = Ret raw_titles
    ∧ run (tmux ["display-message"; "-t"; window_id; "-p"; "#W"]) = Ret window_name
    ∧ (context = "" ↔
         cmdlines = []
         ∧ Forall (fun line => PyText.strip line = "") (PyText.splitlines raw_paths)
         ∧ Forall (fun line => PyText.strip line = ""
                               ∨ PyText.strip line ∈ HOSTNAME_TITLES full_hostname)
             (PyText.splitlines raw_titles)
         ∧ window_name = "")
    ∧ (window_name ≠ "" → ∃ pre, context = pre ++ "current name: " ++ window_name).
Proof.
  unfold Name.gather_window_context. intros H.
  apply bind_Ret_inv in H as (raw_pids & Hpids & H).
  apply bind_Ret_inv in H as (cmdlines & Hcmd & H).
  apply bind_Ret_inv in H as (raw_paths & Hpaths & H).
  apply bind_Ret_inv in H as (raw_titles & Htitles & H).
  apply bind_Ret_inv in H as (window_name & Hname & H).
  injection H as <-.
  exists raw_pids, cmdlines, raw_paths, raw_titles, window_name.
  do 5 (split; [assumption|]).
  set (paths := Name.sorted_set (Name.stripped_lines raw_paths)).
  set (titles := Name.sorted_set _).
  set (named := if String.eqb window_name "" then [] else _).
  set (parts := (_ ++ _)%list).
  assert (Forall (fun s => s ≠ "") parts) as Hparts.
  { subst parts named. repeat apply Forall_app_2; try (by apply part_nonempty).
    destruct (String.eqb window_name ""); repeat constructor. discriminate. }
  assert (String.concat "; " parts = "" ↔ parts = []) as ->.
  { split; [|by intros ->]. intros Hc.
    destruct (decide (parts = [])) as [|Hne]; [done|].
    by destruct (concat_nonempty "; " parts Hne Hparts). }
  split.
  - subst parts. rewrite !app_nil, !part_nil. subst paths titles named.
    rewrite !sorted_set_nil, stripped_lines_nil, filter_nil_iff.
    assert (Forall (fun t => ¬ (t ∉ HOSTNAME_TITLES full_hostname))
              (Name.stripped_lines raw_titles)
            ↔ Forall (fun line => PyText.strip line = ""
                                  ∨ PyText.strip line ∈ HOSTNAME_TITLES full_hostname)
                (PyText.splitlines raw_titles)) as ->.
    { unfold Name.stripped_lines. rewrite !Forall_forall. split.
      - intros Hf line Hline.
        destruct (decide (PyText.strip line = "")) as [|Hne]; [by left|right].
        destruct (decide (PyText.strip line ∈ HOSTNAME_TITLES full_hostname))
          as [|Hnot]; [done|].
        exfalso. apply (Hf (PyText.strip line)); [|exact Hnot].
        apply list_elem_of_filter. split; [exact Hne|].
        apply list_elem_of_fmap. by exists line.
      - intros Hf t Ht Hnot. apply list_elem_of_filter in Ht as [Hne Ht].
        apply list_elem_of_fmap in Ht as (line & -> & Hline).
        destruct (Hf line Hline); contradiction. }
    destruct (String.eqb_spec window_name ""); split; intros (?&?&?&?); try done.
  - intros Hne. subst parts named.
    destruct (String.eqb_spec window_name ""); [contradiction|].
    rewrite !List.app_assoc. apply concat_last.
Qed.

End name_context.

Section name_main.

Variables (pgrep ps : string → subprocess_result)
  (tmux : list string → subprocess_result)
  (otop : subprocess_result)
  (opencode : string → subprocess_result)
  (max_depth : nat)
  (full_hostname : string)
  (float_truthy : string → bool)
  (str_of : Json.t → string).

Lemma remove_char_free (c : ascii) (s : string) : free_of c (PyText.remove_char c s).
Proof.
  unfold free_of. induction s as [|d s IH]; [reflexivity|]. simpl.
  destruct (Ascii.eqb d c) eqn:E; [exact IH|]. simpl.
  rewrite Ascii.eqb_sym, E. exact IH.
Qed.

Lemma remove_char_keeps_free (c d : ascii) (s : string) :
  free_of c s → free_of c (PyText.remove_char d s).
Proof.
  unfold free_of. induction s as [|e s IH]; [reflexivity|]. simpl.
  destruct (Ascii.eqb c e) eqn:E; [discriminate|]. intros H.
  destruct (Ascii.eqb e d); [by apply IH|]. simpl. rewrite E. by apply IH.
Qed.

(** The name is empty exactly when the output is blank. *)
Lemma slug_of_empty (stdout : string) :
  Name.slug_of stdout = "" ↔ PyText.strip stdout = "".
Proof.
  unfold Name.slug_of. split; [|by intros ->].
  pose proof (strip_no_space stdout) as Hs.
  destruct (PyText.strip stdout) as [|c r]; [done|].
  destruct (Ascii.eqb_spec c " ") as [->|Hsp]; [discriminate Hs|].
  destruct (Ascii.eqb_spec c "010") as [->|Hnl]; [discriminate Hs|].
  simpl. apply Ascii.eqb_neq in Hsp, Hnl. rewrite Hsp. simpl. rewrite Hnl.
  discriminate.
Qed.

(** The calls of [gather_window_context] read the panes and the name of
    the window. *)
Lemma in_gather_window_context_runs (window_id : string) (args : list string) :
  args ∈ Name.gather_window_context_runs pgrep ps tmux window_id →
  reads_only args.
Proof.
  unfold Name.gather_window_context_runs. intros H.
  repeat match type of H with
         | _ ∈ match ?x with _ => _ end => destruct x
         end;
    repeat (apply elem_of_cons in H as [->|H]; [by vm_compute|]);
    by apply elem_of_nil in H.
Qed.

Ltac no_call H :=
  repeat (apply elem_of_cons in H as [H|H]; [discriminate H|]);
  by apply elem_of_nil in H.

Lemma in_main_rename (window_id slug : string) (args : list string) :
  Name.Tmux args ∈ Name.main_rename tmux window_id slug →
  reads_only args
  ∨ (slug ≠ "" ∧ args = ["rename-window"; "-t"; window_id; slug]).
Proof.
  unfold Name.main_rename, Name.command.
  destruct (String.eqb_spec slug "") as [->|Hne].
  - intros H. left. apply elem_of_cons in H as [H|H]; [by injection H as ->|].
    destruct (run (tmux ["display-message"; _])); no_call H.
  - intros H. apply elem_of_cons in H as [H|H]; [right; by injection H as ->|].
    left. destruct (run (tmux ["rename-window"; _; _; _])); [|no_call H].
    apply elem_of_cons in H as [H|H]; [by injection H as ->|].
    destruct (run (tmux ["display-message"; _])); no_call H.
Qed.

Lemma in_main_child (window_id context : string) (args : list string) :
  Name.Tmux args ∈ Name.main_child tmux opencode window_id context →
  reads_only args
  ∨ ∃ returncode stdout,
      opencode (Name.prompt_of context) = Completed returncode stdout
      ∧ PyText.strip stdout ≠ ""
      ∧ args = ["rename-window"; "-t"; window_id; Name.slug_of stdout].
Proof.
  unfold Name.main_child. intros H.
  apply elem_of_cons in H as [H|H]; [discriminate H|].
  destruct (opencode (Name.prompt_of context)) as [returncode stdout| | |e].
  - apply in_main_rename in H as [H|[Hne ->]]; [by left|right].
    exists returncode, stdout. split; [reflexivity|]. split; [|reflexivity].
    by rewrite <- slug_of_empty.
  - apply in_main_rename in H as [H|[Hne _]]; [by left|done].
  - no_call H.
  - no_call H.
Qed.


End name_main.

Lemma gather_window_context_empty_witness :
  ∃ pre,
    Name.gather_window_context (fun _ => Completed 1 "") (fun _ => Completed 1 "")
      name_tmux "box.lan" "@1" = Ret (pre ++ "current name: " ++ "nvim").
Proof.
  destruct (gather_window_context_empty (fun _ => Completed 1 "")
              (fun _ => Completed 1 "") name_tmux "box.lan" "@1"
              "paths: /home/u/doc; current name: nvim")
    as (raw_pids & cmdlines & raw_paths & raw_titles & window_name & _ & _ & _ & _
        & Hname & _ & Hlast).
  - vm_compute. reflexivity.
  - injection Hname as <-. destruct Hlast as [pre Hpre]; [discriminate|].
    exists pre. rewrite <- Hpre. vm_compute. reflexivity.
Defined.

